(** * intelligent-attendance-hub: attendance state machine, reports,
      role administration, AI gateway and chat stream consumer

    A shallow embedding of the TypeScript sources

      - [src/pages/Attendance.tsx]   (check-in, check-out, work duration)
      - [src/pages/Reports.tsx], [src/pages/Dashboard.tsx] (aggregations)
      - [src/pages/AdminUsers.tsx]   (role change)
      - [supabase/functions/attendance-ai/index.ts] (gateway handler)
      - the [AIAssistant] page (server-sent-event stream consumer of
        [sendMessage]; its text follows the migration in
        [supabase/migrations/20260122133428_*.sql])

    together with the tables and constraints of the SQL migration.

    Conventions.  A JavaScript string is a [string] whose characters are
    UTF-16 code units below 256.  A JavaScript number that holds a count
    or a millisecond instant is a [Z]; a number the code divides, or
    one that comes out of [JSON.parse], is a primitive [float] (an IEEE
    double, as in JavaScript).  The hosted database is an explicit table
    passed in and out of every handler; a request that the transport or
    the row-level policies reject is a [fault] of the environment.

    The definitions come first, module by module in the order above;
    the properties follow from [AttendanceFacts] on.  A second group of
    definitions, from [Policies] to [EndToEnd], makes explicit what the
    first leaves to the environment: the row-level policies and the
    sign-up trigger, the load of today's record, the user directory,
    and [sendMessage] from the request to the last toast; its
    properties follow from [AttendanceTableFacts] on. *)

From Stdlib Require Import ZArith String Ascii List Lia Bool.
From Stdlib Require Import Uint63 Floats.PrimFloat Floats.SpecFloat Floats.FloatOps.
From stdpp Require Import base option list strings gmap pretty.

Local Open Scope string_scope.
Local Open Scope Z_scope.
Local Open Scope list_scope.

(** ** The tables of the migration *)

Module Db.

(** [CREATE TYPE public.attendance_status AS ENUM (...)] *)
Inductive attendance_status :=
| present | absent | late | half_day | leave.

#[global] Instance attendance_status_eq_dec : EqDecision attendance_status.
Proof. solve_decision. Defined.

(** [CREATE TYPE public.app_role AS ENUM ('admin', 'user')] *)
Inductive app_role := admin | user.

#[global] Instance app_role_eq_dec : EqDecision app_role.
Proof. solve_decision. Defined.

(** A [TIMESTAMPTZ] value, as the instant it denotes: milliseconds
    since the epoch, which is what [new Date(s).getTime()] reads from
    the ISO string [s] the client receives. *)
Definition timestamp := Z.

(** A row of [public.attendance] ([created_at] and [updated_at] are
    read by none of the handlers and left out). *)
Record attendance := {
  id : string;
  user_id : string;
  date : string;
  check_in : option timestamp;
  check_out : option timestamp;
  status : attendance_status;
  notes : option string
}.

(** A row of [public.user_roles]. *)
Record user_role := {
  role_user_id : string;
  role : app_role
}.

(** What a query resolves to: [{ data, error }] with exactly one of
    the two set. *)
Inductive result (A : Type) :=
| Data (data : A)
| Error (message : string).
Arguments Data {A} data.
Arguments Error {A} message.

(** The part of a request the handler does not control: a failure of
    the transport or a rejection by the row-level policies, and the
    identifier [gen_random_uuid()] would give a new row. *)
Record env := {
  fault : option string;
  fresh_id : string
}.

(** [UNIQUE (user_id, date)] on [public.attendance]. *)
Definition attendance_conflict (u d : string) (tbl : list attendance) : bool :=
  existsb (fun r => bool_decide (user_id r = u) && bool_decide (date r = d)) tbl.

(** The message of the error PostgreSQL raises on a second row for one
    user and date; the constraint carries the name PostgreSQL gives
    [UNIQUE (user_id, date)] on [attendance]. *)
Definition duplicate_attendance : string :=
  "duplicate key value violates unique constraint " +:+
  String "034"%char "attendance_user_id_date_key" +:+ String "034"%char EmptyString.

(** [.from("attendance").insert({...}).select().single()] *)
Definition insert_attendance (e : env) (u d : string) (ci : option timestamp)
    (s : attendance_status) (n : option string) (tbl : list attendance)
  : result attendance * list attendance :=
  match fault e with
  | Some msg => (Error msg, tbl)
  | None =>
      if attendance_conflict u d tbl then
        (Error duplicate_attendance, tbl)
      else
        let r := {| id := fresh_id e; user_id := u; date := d; check_in := ci;
                    check_out := None; status := s; notes := n |} in
        (Data r, tbl ++ [r])
  end.

(** The rows of [tbl] with every row whose [id] is [i] replaced by [f]
    of it. *)
Definition update_where_id (i : string) (f : attendance -> attendance)
    (tbl : list attendance) : list attendance :=
  map (fun r => if bool_decide (id r = i) then f r else r) tbl.

(** [.from("attendance").update({check_out, notes}).eq("id", i)
    .select().single()]: [single] is an error unless exactly one row
    comes back. *)
Definition update_attendance (e : env) (i : string) (co : option timestamp)
    (n : option string) (tbl : list attendance)
  : result attendance * list attendance :=
  match fault e with
  | Some msg => (Error msg, tbl)
  | None =>
      let set r := {| id := id r; user_id := user_id r; date := date r;
                      check_in := check_in r; check_out := co;
                      status := status r; notes := n |} in
      match filter (fun r => id r = i) tbl with
      | [r] => (Data (set r), update_where_id i set tbl)
      | [] => (Error "JSON object requested, multiple (or no) rows returned", tbl)
      | _ => (Error "JSON object requested, multiple (or no) rows returned",
               update_where_id i set tbl)
      end
  end.

End Db.

(** ** The JavaScript string operations the sources call *)

Module Js.

Definition LF : ascii := "010"%char.
Definition CR : ascii := "013"%char.

(** [s.indexOf(c)] for a one-character needle; [None] stands for [-1]. *)
Fixpoint indexOf (c : ascii) (s : string) : option nat :=
  match s with
  | EmptyString => None
  | String a s' =>
      if Ascii.eqb a c then Some O
      else match indexOf c s' with
           | Some i => Some (S i)
           | None => None
           end
  end.

(** [s.slice(n)] for [0 <= n]. *)
Fixpoint slice_from (n : nat) (s : string) : string :=
  match n, s with
  | O, _ => s
  | S _, EmptyString => EmptyString
  | S n', String _ s' => slice_from n' s'
  end.

(** [s.slice(0, n)] for [0 <= n]. *)
Fixpoint slice_to (n : nat) (s : string) : string :=
  match n, s with
  | O, _ => EmptyString
  | S _, EmptyString => EmptyString
  | S n', String a s' => String a (slice_to n' s')
  end.

(** [s.startsWith(p)] *)
Fixpoint startsWith (p s : string) : bool :=
  match p, s with
  | EmptyString, _ => true
  | String _ _, EmptyString => false
  | String a p', String b s' => Ascii.eqb a b && startsWith p' s'
  end.

(** [s.endsWith(c)] for a one-character suffix. *)
Fixpoint endsWith (c : ascii) (s : string) : bool :=
  match s with
  | EmptyString => false
  | String a EmptyString => Ascii.eqb a c
  | String _ s' => endsWith c s'
  end.

(** [s.slice(0, -1)] *)
Fixpoint drop_last (s : string) : string :=
  match s with
  | EmptyString => EmptyString
  | String _ EmptyString => EmptyString
  | String a s' => String a (drop_last s')
  end.

(** The white space and line terminators [trim] strips, among the code
    units below 256: TAB, LF, VT, FF, CR, SP and NBSP. *)
Definition is_space (a : ascii) : bool :=
  let n := nat_of_ascii a in
  (Nat.leb 9 n && Nat.leb n 13) || Nat.eqb n 32 || Nat.eqb n 160.

Fixpoint trimStart (s : string) : string :=
  match s with
  | EmptyString => EmptyString
  | String a s' => if is_space a then trimStart s' else s
  end.

Fixpoint trimEnd (s : string) : string :=
  match s with
  | EmptyString => EmptyString
  | String a s' =>
      match trimEnd s' with
      | EmptyString => if is_space a then EmptyString else String a EmptyString
      | t => String a t
      end
  end.

(** [s.trim()] *)
Definition trim (s : string) : string := trimEnd (trimStart s).

(** [s.replace(p, "")]: the first occurrence of the pattern string [p]
    is removed. *)
Fixpoint remove_first (p s : string) : string :=
  if startsWith p s then slice_from (String.length p) s
  else match s with
       | EmptyString => EmptyString
       | String a s' => String a (remove_first p s')
       end.

(** [s.includes(p)] *)
Fixpoint includes (p s : string) : bool :=
  startsWith p s ||
  match s with
  | EmptyString => false
  | String _ s' => includes p s'
  end.

(** [xs.join(sep)] on strings. *)
Fixpoint join (sep : string) (xs : list string) : string :=
  match xs with
  | [] => EmptyString
  | [x] => x
  | x :: rest => x +:+ sep +:+ join sep rest
  end.

(** [s || null] on a string: the empty string is falsy. *)
Definition or_null (s : string) : option string :=
  if String.eqb s "" then None else Some s.

(** The double a non-negative integer count converts to (exact below
    2^53). *)
Definition number_of_nat (n : nat) : float :=
  PrimFloat.of_uint63 (Uint63.of_Z (Z.of_nat n)).

(** [x.toFixed(1)] for a double [x] with [|x| < 10^21]: the integer [n]
    for which [n / 10 - x] is closest to zero, the larger one on a tie,
    written with one digit after the point. *)
Definition toFixed1_digits (n : Z) : string :=
  let d := pretty n in
  let d := if Nat.ltb (String.length d) 2 then "0" +:+ d else d in
  slice_to (String.length d - 1) d +:+ "." +:+ slice_from (String.length d - 1) d.

Definition toFixed1 (x : float) : string :=
  match Prim2SF x with
  | S754_nan => "NaN"
  | S754_infinity s => if s then "-Infinity" else "Infinity"
  | S754_zero _ => "0.0"
  | S754_finite s m e =>
      let num := 10 * Z.pos m in
      let n := if 0 <=? e then num * 2 ^ e
               else (2 * num + 2 ^ (- e)) / (2 * 2 ^ (- e)) in
      (if s then "-" else "") +:+ toFixed1_digits n
  end.

End Js.

(** ** [src/pages/Attendance.tsx] *)

Module Attendance.
Import Db.

(** What the handlers read off [new Date()]: [getTime()] (the instant
    [toISOString()] writes), the local [getHours()], and the two
    [date-fns] renderings [format(now, "yyyy-MM-dd")] and
    [format(now, "h:mm a")]. *)
Record JsDate := {
  getTime : Z;
  getHours : Z;
  yyyy_MM_dd : string;
  h_mm_a : string
}.

Record Toast := {
  title : string;
  description : string;
  destructive : bool
}.

(** The component state: the signed-in user's id from [useAuth()], the
    [useState] cells, and the toasts shown so far. *)
Record Page := {
  user : option string;
  todayAttendance : option attendance;
  isSubmitting : bool;
  notes_input : string;
  toasts : list Toast
}.

Definition set_submitting (b : bool) (st : Page) : Page :=
  {| user := user st; todayAttendance := todayAttendance st; isSubmitting := b;
     notes_input := notes_input st; toasts := toasts st |}.

Definition set_today (r : attendance) (st : Page) : Page :=
  {| user := user st; todayAttendance := Some r; isSubmitting := isSubmitting st;
     notes_input := notes_input st; toasts := toasts st |}.

Definition toast (t : Toast) (st : Page) : Page :=
  {| user := user st; todayAttendance := todayAttendance st;
     isSubmitting := isSubmitting st; notes_input := notes_input st;
     toasts := toasts st ++ [t] |}.

(** [const status = hour >= 9 ? "late" : "present"] *)
Definition check_in_status (hour : Z) : attendance_status :=
  if 9 <=? hour then late else present.

Definition handleCheckIn (e : env) (now : JsDate) (st : Page) (tbl : list attendance)
  : Page * list attendance :=
  match user st with
  | None => (st, tbl)
  | Some uid =>
      let st := set_submitting true st in
      let today := yyyy_MM_dd now in
      let checkInTime := getTime now in
      let hour := getHours now in
      let status := check_in_status hour in
      let '(res, tbl) :=
        insert_attendance e uid today (Some checkInTime) status
          (Js.or_null (notes_input st)) tbl in
      let st :=
        match res with
        | Error message =>
            toast {| title := "Check-in failed"; description := message;
                     destructive := true |} st
        | Data data =>
            toast {| title := "Check-in successful!";
                     description := "You checked in at " +:+ h_mm_a now +:+
                       (if bool_decide (status = late) then " (Late)" else "");
                     destructive := false |}
              (set_today data st)
        end in
      (set_submitting false st, tbl)
  end.

Definition handleCheckOut (e : env) (now : JsDate) (st : Page) (tbl : list attendance)
  : Page * list attendance :=
  match todayAttendance st with
  | None => (st, tbl)
  | Some today =>
      let st := set_submitting true st in
      let checkOutTime := getTime now in
      let '(res, tbl) :=
        update_attendance e (id today) (Some checkOutTime)
          (Js.or_null (notes_input st)) tbl in
      let st :=
        match res with
        | Error message =>
            toast {| title := "Check-out failed"; description := message;
                     destructive := true |} st
        | Data data =>
            toast {| title := "Check-out successful!";
                     description := "You checked out at " +:+ h_mm_a now;
                     destructive := false |}
              (set_today data st)
        end in
      (set_submitting false st, tbl)
  end.

(** The control the action row renders:
    [!todayAttendance ? Check In : !todayAttendance.check_out ? Check Out
     : Attendance Complete]. *)
Inductive Action := CheckInButton | CheckOutButton | AttendanceComplete.

Definition action (st : Page) : Action :=
  match todayAttendance st with
  | None => CheckInButton
  | Some r =>
      match check_out r with
      | None => CheckOutButton
      | Some _ => AttendanceComplete
      end
  end.

(** A click on the rendered control: only the handler wired to the
    control that is on the page can run. *)
Definition click (e : env) (now : JsDate) (st : Page) (tbl : list attendance)
  : Page * list attendance :=
  if isSubmitting st then (st, tbl)
  else match action st with
       | CheckInButton => handleCheckIn e now st tbl
       | CheckOutButton => handleCheckOut e now st tbl
       | AttendanceComplete => (st, tbl)
       end.

(** [calculateWorkHours]: [null] is [None].  The instants are integers
    of magnitude at most 8.64e15, on which the double operations of the
    source ([-], [/] under [Math.floor], [%]) give the integer results
    written here; [%] keeps the sign of the dividend, as [Z.rem]. *)
Definition calculateWorkHours (st : Page) : option string :=
  match todayAttendance st with
  | None => None
  | Some r =>
      match check_in r, check_out r with
      | Some checkIn, Some checkOut =>
          let diffMs := checkOut - checkIn in
          let hours := diffMs / (1000 * 60 * 60) in
          let minutes := Z.rem diffMs (1000 * 60 * 60) / (1000 * 60) in
          Some (pretty hours +:+ "h " +:+ pretty minutes +:+ "m")
      | _, _ => None
      end
  end.

End Attendance.

(** ** [src/pages/Reports.tsx] *)

Module Reports.
Import Db.

(** [stats]: one [filter(...).length] per status. *)
Record Stats := {
  n_present : nat;
  n_late : nat;
  n_absent : nat;
  n_half_day : nat;
  n_leave : nat
}.

Definition count_status (s : attendance_status) (l : list attendance) : nat :=
  length (filter (fun a => status a = s) l).

Definition stats (l : list attendance) : Stats :=
  {| n_present := count_status present l;
     n_late := count_status late l;
     n_absent := count_status absent l;
     n_half_day := count_status half_day l;
     n_leave := count_status leave l |}.

Record Slice := {
  slice_name : string;
  slice_value : nat;
  slice_color : string
}.

Definition pieData (l : list attendance) : list Slice :=
  let st := stats l in
  filter (fun d => (0 < slice_value d)%nat)
    [ {| slice_name := "Present"; slice_value := n_present st;
         slice_color := "hsl(142, 71%, 45%)" |};
      {| slice_name := "Late"; slice_value := n_late st;
         slice_color := "hsl(38, 92%, 50%)" |};
      {| slice_name := "Absent"; slice_value := n_absent st;
         slice_color := "hsl(0, 84%, 60%)" |};
      {| slice_name := "Half Day"; slice_value := n_half_day st;
         slice_color := "hsl(185, 64%, 39%)" |};
      {| slice_name := "Leave"; slice_value := n_leave st;
         slice_color := "hsl(215, 16%, 47%)" |} ].

(** One value of the [weeks] object. *)
Record Week := {
  w_present : nat;
  w_late : nat;
  w_absent : nat
}.

(** The three-way [if / else if] that counts a record in its week. *)
Definition tally (s : attendance_status) (w : Week) : Week :=
  match s with
  | present => {| w_present := S (w_present w); w_late := w_late w; w_absent := w_absent w |}
  | late => {| w_present := w_present w; w_late := S (w_late w); w_absent := w_absent w |}
  | absent => {| w_present := w_present w; w_late := w_late w; w_absent := S (w_absent w) |}
  | _ => w
  end.

(** [{ present: 0, late: 0, absent: 0 }] *)
Definition week_zero : Week := {| w_present := 0; w_late := 0; w_absent := 0 |}.

(** The [weeks] object: its keys are kept in the order they were first
    written, which is the order [Object.entries] lists them in. *)
Fixpoint record_week (k : string) (s : attendance_status) (weeks : list (string * Week))
  : list (string * Week) :=
  match weeks with
  | [] => [(k, tally s week_zero)]
  | (k', w) :: rest =>
      if String.eqb k' k then (k', tally s w) :: rest
      else (k', w) :: record_week k s rest
  end.

(** The same step on the [weeks] object seen as a finite map, which
    forgets the order of its keys. *)
Definition record_week_map (k : string) (s : attendance_status) (m : gmap string Week)
  : gmap string Week :=
  <[k := tally s (default week_zero (m !! k))]> m.

(** An element of [weeklyData]: [{ name, ...data }]. *)
Record WeekRow := {
  name : string;
  row_present : nat;
  row_late : nat;
  row_absent : nat
}.

Section WeeklyData.

(** [new Date(d).getDate()]: the day of the month of the date string [d]
    in the browser's time zone. *)
Variable getDate : string -> Z.

(** [`Week ${Math.ceil(getDate / 7)}`] *)
Definition weekNum (r : attendance) : string :=
  "Week " +:+ pretty (- ((- getDate (date r)) / 7)).

Definition weeks (l : list attendance) : list (string * Week) :=
  fold_left (fun weeks r => record_week (weekNum r) (status r) weeks) l [].

Definition weeklyData (l : list attendance) : list WeekRow :=
  map (fun '(name, data) =>
         {| name := name; row_present := w_present data;
            row_late := w_late data; row_absent := w_absent data |})
      (weeks l).

End WeeklyData.

(** The day-of-month digits of a ["yyyy-MM-dd"] string: [getDate] in a
    time zone at or east of UTC. *)
Definition getDate_UTC (d : string) : Z :=
  match Js.slice_from 8 d with
  | String a (String b EmptyString) =>
      10 * (Z.of_nat (nat_of_ascii a) - 48) + (Z.of_nat (nat_of_ascii b) - 48)
  | _ => 0
  end.

(** [attendanceRate]: a one-decimal string, or the number [0] when
    there are no records. *)
Inductive Rate :=
| RateText (s : string)
| RateZero.

Definition attendanceRate (l : list attendance) : Rate :=
  let totalDays := length l in
  if Nat.ltb 0 totalDays then
    RateText (Js.toFixed1
      (Js.number_of_nat (n_present (stats l) + n_late (stats l))
         / Js.number_of_nat totalDays * 100)%float)
  else RateZero.

End Reports.

(** ** [src/pages/Dashboard.tsx] *)

Module Dashboard.
Import Db.

Record AttendanceStats := {
  totalDays : nat;
  presentDays : nat;
  lateDays : nat;
  absentDays : nat;
  attendanceRate : float
}.

(** The statistics [fetchDashboardData] derives from the month's rows. *)
Definition month_stats (monthData : list attendance) : AttendanceStats :=
  let presentDays := length (filter (fun a => status a = present) monthData) in
  let lateDays := length (filter (fun a => status a = late) monthData) in
  let absentDays := length (filter (fun a => status a = absent) monthData) in
  let totalDays := length monthData in
  let attendanceRate :=
    if Nat.ltb 0 totalDays then
      (Js.number_of_nat (presentDays + lateDays) / Js.number_of_nat totalDays * 100)%float
    else 0%float in
  {| totalDays := totalDays; presentDays := presentDays; lateDays := lateDays;
     absentDays := absentDays; attendanceRate := attendanceRate |}.

End Dashboard.

(** ** [src/pages/AdminUsers.tsx] *)

Module AdminUsers.
Import Db.

(** The text form of a role, as the client sends and receives it. *)
Definition app_role_of_string (s : string) : option app_role :=
  if String.eqb s "admin" then Some admin
  else if String.eqb s "user" then Some user
  else None.

(** [.from("user_roles").delete().eq("user_id", uid)] *)
Definition delete_roles (fault : option string) (uid : string) (tbl : list user_role)
  : result unit * list user_role :=
  match fault with
  | Some msg => (Error msg, tbl)
  | None => (Data tt, filter (fun r => role_user_id r <> uid) tbl)
  end.

(** [.from("user_roles").insert({ user_id, role })]: the role text must
    be a value of [app_role], and [UNIQUE (user_id, role)] must hold. *)
Definition insert_role (fault : option string) (uid newRole : string) (tbl : list user_role)
  : result unit * list user_role :=
  match fault with
  | Some msg => (Error msg, tbl)
  | None =>
      match app_role_of_string newRole with
      | None => (Error "invalid input value for enum app_role", tbl)
      | Some r =>
          if existsb (fun x => bool_decide (role_user_id x = uid) && bool_decide (role x = r)) tbl
          then (Error "duplicate key value violates unique constraint", tbl)
          else (Data tt, tbl ++ [{| role_user_id := uid; role := r |}])
      end
  end.

Record Page := {
  userRoles : gmap string string;
  toasts : list Attendance.Toast
}.

(** [handleRoleChange]: [fault_delete] and [fault_insert] are what the
    environment does to the first and to the second request. *)
Definition handleRoleChange (fault_delete fault_insert : option string)
    (userId newRole : string) (st : Page) (tbl : list user_role)
  : Page * list user_role :=
  let '(_, tbl) := delete_roles fault_delete userId tbl in
  let '(res, tbl) := insert_role fault_insert userId newRole tbl in
  match res with
  | Error message =>
      ({| userRoles := userRoles st;
          toasts := toasts st ++
            [{| Attendance.title := "Failed to update role";
                Attendance.description := message;
                Attendance.destructive := true |}] |}, tbl)
  | Data _ =>
      ({| userRoles := <[userId := newRole]> (userRoles st);
          toasts := toasts st ++
            [{| Attendance.title := "Role updated";
                Attendance.description := "User role has been updated successfully.";
                Attendance.destructive := false |}] |}, tbl)
  end.

End AdminUsers.

(** ** [supabase/functions/attendance-ai/index.ts] *)

Module Gateway.
Import Db.

Definition nl : string := String Js.LF EmptyString.
Definition dq : string := String "034"%char EmptyString.

Definition hex_digit (n : nat) : ascii :=
  ascii_of_nat (if Nat.ltb n 10 then 48 + n else 87 + n).

(** [JSON.stringify] of a string, without the surrounding quotes. *)
Fixpoint quote_json (s : string) : string :=
  match s with
  | EmptyString => EmptyString
  | String a s' =>
      let n := nat_of_ascii a in
      (if Nat.eqb n 34 then "\" +:+ dq
       else if Nat.eqb n 92 then "\\"
       else if Nat.eqb n 8 then "\b"
       else if Nat.eqb n 12 then "\f"
       else if Nat.eqb n 10 then "\n"
       else if Nat.eqb n 13 then "\r"
       else if Nat.eqb n 9 then "\t"
       else if Nat.ltb n 32 then
         "\u00" +:+ String (hex_digit (Nat.div n 16)) (String (hex_digit (Nat.modulo n 16)) EmptyString)
       else String a EmptyString) +:+ quote_json s'
  end.

(** [JSON.stringify({ error: message })] *)
Definition error_body (message : string) : string :=
  "{" +:+ dq +:+ "error" +:+ dq +:+ ":" +:+ dq +:+ quote_json message +:+ dq +:+ "}".

Record ChatMessage := {
  msg_role : string;
  msg_content : string
}.

Record Profile := {
  full_name : string;
  email : string;
  department : option string
}.

(** What [const { messages } = await req.json()] gives: the promise
    rejects or the destructuring throws; or [messages] is bound to
    something the later [...messages] cannot spread (each with the
    message of the error thrown); or it is an array of messages. *)
Inductive Body :=
| BodyInvalid (message : string)
| BodyNotIterable (message : string)
| BodyMessages (messages : list ChatMessage).

Record Request := {
  method : string;
  authorization : option string;
  body : Body
}.

(** The upstream response: its status and the text of its body. *)
Record Upstream := {
  up_status : Z;
  up_body : string
}.

(** [response.ok] *)
Definition ok (r : Upstream) : bool :=
  (200 <=? up_status r) && (up_status r <=? 299).

(** What the handler calls out to. *)
Record World := {
  getUser : string -> result string;
  fetch_attendance : string -> option (list attendance);
  fetch_profile : string -> option Profile;
  LOVABLE_API_KEY : option string;
  today : string;
  timestamptz_text : timestamp -> string;
  fetch_upstream : string -> list ChatMessage -> result Upstream
}.

(** A [Response]: its status, headers and body ([None] for [null]). *)
Record Response := {
  res_status : Z;
  res_headers : list (string * string);
  res_body : option string
}.

Definition corsHeaders : list (string * string) :=
  [ ("Access-Control-Allow-Origin", "*");
    ("Access-Control-Allow-Headers", "authorization, x-client-info, apikey, content-type") ].

Definition json_response (st : Z) (message : string) : Response :=
  {| res_status := st;
     res_headers := corsHeaders ++ [("Content-Type", "application/json")];
     res_body := Some (error_body message) |}.

Definition status_text (s : attendance_status) : string :=
  match s with
  | present => "present"
  | absent => "absent"
  | late => "late"
  | half_day => "half_day"
  | leave => "leave"
  end.

(** One line of the transcript. *)
Definition attendance_line (w : World) (a : attendance) : string :=
  "- " +:+ date a +:+ ": " +:+ status_text (status a) +:+
  match check_in a with
  | Some t => ", check-in: " +:+ timestamptz_text w t
  | None => ""
  end +:+
  match check_out a with
  | Some t => ", check-out: " +:+ timestamptz_text w t
  | None => ""
  end +:+
  match notes a with
  | Some n => if String.eqb n "" then "" else ", notes: " +:+ n
  | None => ""
  end.

(** [attendanceContext]: the test [attendance ? ... : ...] is on the
    array itself, and every array is truthy. *)
Definition attendanceContext (w : World) (attendance : option (list attendance)) : string :=
  match attendance with
  | Some rows =>
      "User's recent attendance records (last 100 days):" +:+ nl +:+
      Js.join nl (map (attendance_line w) rows)
  | None => "No attendance records found."
  end.

Definition userContext (profile : option Profile) : string :=
  match profile with
  | Some p =>
      "User: " +:+ full_name p +:+ ", Email: " +:+ email p +:+ ", Department: " +:+
      match department p with
      | Some d => if String.eqb d "" then "Not specified" else d
      | None => "Not specified"
      end
  | None => "User profile not found."
  end.

Definition systemPrompt (w : World) (profile : option Profile)
    (attendance : option (list attendance)) : string :=
  "You are an intelligent attendance assistant for AttendanceIQ. You help users understand their attendance patterns, answer questions about their records, and provide insights." +:+ nl +:+
  nl +:+
  "Current date: " +:+ today w +:+ nl +:+
  nl +:+
  userContext profile +:+ nl +:+
  nl +:+
  attendanceContext w attendance +:+ nl +:+
  nl +:+
  "Guidelines:" +:+ nl +:+
  "- Be helpful and conversational" +:+ nl +:+
  "- Provide specific insights based on the user's actual data" +:+ nl +:+
  "- Calculate statistics like attendance rate, average check-in time, etc. when asked" +:+ nl +:+
  "- Identify patterns like frequent late arrivals on specific days" +:+ nl +:+
  "- Keep responses concise but informative" +:+ nl +:+
  "- If asked about data you don't have, explain what information is available".

(** The translation of the upstream response, from [if (!response.ok)]
    on: the response to the caller and the lines written with
    [console.error]. *)
Definition translate (r : Upstream) : Response * list string :=
  if negb (ok r) then
    if up_status r =? 429 then (json_response 429 "Rate limit exceeded", [])
    else if up_status r =? 402 then (json_response 402 "Payment required", [])
    else
      let errorText := up_body r in
      (json_response 500 "AI gateway error",
       ["AI gateway error: " +:+ pretty (up_status r) +:+ " " +:+ errorText])
  else
    ({| res_status := 200;
        res_headers := corsHeaders ++ [("Content-Type", "text/event-stream")];
        res_body := Some (up_body r) |}, []).

(** The [catch] block. *)
Definition caught (message : string) : Response * list string :=
  (json_response 500 message, ["Attendance AI error: " +:+ message]).

(** The handler passed to [serve]. *)
Definition handler (w : World) (req : Request) : Response * list string :=
  if String.eqb (method req) "OPTIONS" then
    ({| res_status := 200; res_headers := corsHeaders; res_body := None |}, [])
  else
    match body req with
    | BodyInvalid message => caught message
    | _ =>
        match authorization req with
        | None => (json_response 401 "Unauthorized", [])
        | Some authHeader =>
            if String.eqb authHeader "" then (json_response 401 "Unauthorized", [])
            else
              let token := Js.remove_first "Bearer " authHeader in
              match getUser w token with
              | Error _ => (json_response 401 "Invalid token", [])
              | Data uid =>
                  let attendance := fetch_attendance w uid in
                  let profile := fetch_profile w uid in
                  let prompt := systemPrompt w profile attendance in
                  match LOVABLE_API_KEY w with
                  | None => (json_response 500 "AI service not configured", [])
                  | Some key =>
                      if String.eqb key "" then
                        (json_response 500 "AI service not configured", [])
                      else
                        match body req with
                        | BodyInvalid message | BodyNotIterable message => caught message
                        | BodyMessages messages =>
                            match fetch_upstream w key
                                    ({| msg_role := "system"; msg_content := prompt |}
                                       :: messages) with
                            | Error message => caught message
                            | Data response => translate response
                            end
                        end
                  end
              end
        end
    end.

(** The request gets as far as the upstream call and [r] comes back: it
    is not a preflight, carries messages and a credential the identity
    service accepts, and the gateway credential is configured. *)
Definition forwarded (w : World) (req : Request) (r : Upstream) : Prop :=
  exists authHeader uid key messages,
    String.eqb (method req) "OPTIONS" = false /\
    body req = BodyMessages messages /\
    authorization req = Some authHeader /\ authHeader <> "" /\
    getUser w (Js.remove_first "Bearer " authHeader) = Data uid /\
    LOVABLE_API_KEY w = Some key /\ key <> "" /\
    fetch_upstream w key
      ({| msg_role := "system";
          msg_content := systemPrompt w (fetch_profile w uid) (fetch_attendance w uid) |}
         :: messages) = Data r.

End Gateway.

(** ** [src/pages/AIAssistant.tsx]: the stream read loop of [sendMessage] *)

Module AIAssistant.

(** A value [JSON.parse] returns. *)
#[warnings="-register-all"]
Inductive json :=
| JNull
| JBool (b : bool)
| JNum (x : float)
| JStr (s : string)
| JArr (items : list json)
| JObj (fields : list (string * json)).

(** The own property [k] of an object literal with the members
    [fields], in source order: a later member replaces an earlier one
    of the same name. *)
Fixpoint lookup_field (k : string) (fields : list (string * json)) : option json :=
  match fields with
  | [] => None
  | (k', v) :: rest =>
      match lookup_field k rest with
      | Some v' => Some v'
      | None => if String.eqb k' k then Some v else None
      end
  end.

(** [v.choices], [v.delta] and [v.content] on a value that is neither
    [null] nor [undefined]: only an object can have a property of one of
    these names.  [None] stands for [undefined]. *)
Definition prop (k : string) (v : json) : option json :=
  match v with
  | JObj fields => lookup_field k fields
  | _ => None
  end.

(** [v[0]] on a value that is neither [null] nor [undefined]. *)
Definition index0 (v : json) : option json :=
  match v with
  | JArr (x :: _) => Some x
  | JObj fields => lookup_field "0" fields
  | JStr (String a _) => Some (JStr (String a EmptyString))
  | _ => None
  end.

(** The step [?.]: the chain goes on only from a value that is neither
    [undefined] nor [null]. *)
Definition chain (v : option json) (f : json -> option json) : option json :=
  match v with
  | None | Some JNull => None
  | Some x => f x
  end.

(** [parsed.choices?.[0]?.delta?.content]: the outer [None] is the
    [TypeError] of reading [choices] off [null]. *)
Definition delta_content (parsed : json) : option (option json) :=
  match parsed with
  | JNull => None
  | _ =>
      Some (chain (chain (chain (prop "choices" parsed) index0) (prop "delta"))
              (prop "content"))
  end.

Section Consumer.

(** [JSON.parse]: [None] when it throws. *)
Variable JSON_parse : string -> option json.

(** [String(x)] for a number [x]. *)
Variable Number_toString : float -> string.

(** [if (content)] *)
Definition truthy (content : option json) : bool :=
  match content with
  | None | Some JNull => false
  | Some (JBool b) => b
  | Some (JNum x) => negb (PrimFloat.eqb x 0 || PrimFloat.is_nan x)
  | Some (JStr s) => negb (String.eqb s "")
  | Some (JArr _) | Some (JObj _) => true
  end.

(** The string [assistantContent += content] appends; [None] when the
    conversion throws a [TypeError].  An object [JSON.parse] made
    converts through the [toString] it inherits, unless it has an own
    property of that name: its value is no function, the [valueOf] it
    has gives no primitive, and the conversion is left with nothing to
    call.  An array joins the conversions of its elements, [null] as
    the empty string, and throws when one of them does. *)
Fixpoint to_string (v : json) : option string :=
  match v with
  | JNull => Some "null"
  | JBool b => Some (if b then "true" else "false")
  | JNum x => Some (Number_toString x)
  | JStr s => Some s
  | JArr items =>
      option_map (Js.join ",")
        ((fix each (l : list json) : option (list string) :=
            match l with
            | [] => Some []
            | x :: rest =>
                match match x with JNull => Some "" | _ => to_string x end, each rest with
                | Some s, Some ss => Some (s :: ss)
                | _, _ => None
                end
            end) items)
  | JObj fields =>
      match lookup_field "toString" fields with
      | Some _ => None
      | None => Some "[object Object]"
      end
  end.

Inductive Role := role_user | role_assistant.

Record Message := {
  role : Role;
  content : string
}.

(** The variables of [sendMessage] the loop writes, the [messages]
    state, and, as a ghost field, the contents passed to [setMessages]
    so far (oldest first). *)
Record Consumer := {
  textBuffer : string;
  streamDone : bool;
  assistantContent : string;
  messages : list Message;
  updates : list string
}.

Definition set_buffer (b : string) (st : Consumer) : Consumer :=
  {| textBuffer := b; streamDone := streamDone st;
     assistantContent := assistantContent st; messages := messages st;
     updates := updates st |}.

Definition set_done (st : Consumer) : Consumer :=
  {| textBuffer := textBuffer st; streamDone := true;
     assistantContent := assistantContent st; messages := messages st;
     updates := updates st |}.

(** [newMessages[newMessages.length - 1] = m] on a copy of the array. *)
Fixpoint set_last (m : Message) (l : list Message) : list Message :=
  match l with
  | [] => []
  | [_] => [m]
  | x :: rest => x :: set_last m rest
  end.

(** [assistantContent += content; setMessages(...)] *)
Definition append_content (c : string) (st : Consumer) : Consumer :=
  let assistantContent := assistantContent st +:+ c in
  {| textBuffer := textBuffer st; streamDone := streamDone st;
     assistantContent := assistantContent;
     messages := set_last {| role := role_assistant; content := assistantContent |}
                   (messages st);
     updates := updates st ++ [assistantContent] |}.

(** What the body of the inner [while] decides on a line, before it
    touches the state: [continue] with nothing done, the terminator,
    a content to append, or the [catch] with the line to push back.
    The [catch] is reached from [JSON.parse], from the read of
    [choices] off [null], and from the append of a content that has no
    conversion to a string. *)
Inductive Step :=
| Skip
| Stop
| Append (content : string)
| PushBack (line : string).

Definition step_of (line : string) : Step :=
  let line := if Js.endsWith Js.CR line then Js.drop_last line else line in
  if Js.startsWith ":" line || String.eqb (Js.trim line) "" then Skip
  else if negb (Js.startsWith "data: " line) then Skip
  else
    let jsonStr := Js.trim (Js.slice_from 6 line) in
    if String.eqb jsonStr "[DONE]" then Stop
    else
      match
        match JSON_parse jsonStr with
        | Some parsed => delta_content parsed
        | None => None
        end
      with
      | Some content =>
          if truthy content then
            match from_option to_string (Some "") content with
            | Some text => Append text
            | None => PushBack line
            end
          else Skip
      | None => PushBack line
      end.

(** How an iteration of the inner [while] ends. *)
Inductive Flow :=
| Continue (st : Consumer)
| Break (st : Consumer).

(** The body of the inner [while], after [line] has been cut off the
    buffer. *)
Definition process_line (line : string) (st : Consumer) : Flow :=
  match step_of line with
  | Skip => Continue st
  | Stop => Break (set_done st)
  | Append content => Continue (append_content content st)
  | PushBack line =>
      Break (set_buffer (line +:+ String Js.LF EmptyString +:+ textBuffer st) st)
  end.

(** The inner [while ((newlineIndex = textBuffer.indexOf("\n")) !== -1)];
    [fuel] bounds the number of iterations. *)
Fixpoint drain (fuel : nat) (st : Consumer) : option Consumer :=
  match fuel with
  | O => None
  | S fuel =>
      match Js.indexOf Js.LF (textBuffer st) with
      | None => Some st
      | Some newlineIndex =>
          let line := Js.slice_to newlineIndex (textBuffer st) in
          let st := set_buffer (Js.slice_from (S newlineIndex) (textBuffer st)) st in
          match process_line line st with
          | Continue st => drain fuel st
          | Break st => Some st
          end
      end
  end.

(** One pass of the outer loop after a successful [read]: the decoded
    chunk is appended and the buffer drained. *)
Definition on_chunk (value : string) (st : Consumer) : option Consumer :=
  let st := set_buffer (textBuffer st +:+ value) st in
  drain (S (String.length (textBuffer st))) st.

(** The outer [while (!streamDone)] over the chunks the reader will
    deliver before it reports [done]; the result carries the chunks
    that were never read. *)
Fixpoint read_loop (chunks : list string) (st : Consumer) : option (Consumer * list string) :=
  if streamDone st then Some (st, chunks)
  else
    match chunks with
    | [] => Some (st, [])
    | value :: rest =>
        match on_chunk value st with
        | Some st => read_loop rest st
        | None => None
        end
    end.

(** The inner [while] as a relation between the state it is entered in
    and the state it is left in. *)
Inductive Drains : Consumer -> Consumer -> Prop :=
| Drains_end st :
    Js.indexOf Js.LF (textBuffer st) = None ->
    Drains st st
| Drains_break st newlineIndex st' :
    Js.indexOf Js.LF (textBuffer st) = Some newlineIndex ->
    process_line (Js.slice_to newlineIndex (textBuffer st))
      (set_buffer (Js.slice_from (S newlineIndex) (textBuffer st)) st) = Break st' ->
    Drains st st'
| Drains_continue st newlineIndex st1 st' :
    Js.indexOf Js.LF (textBuffer st) = Some newlineIndex ->
    process_line (Js.slice_to newlineIndex (textBuffer st))
      (set_buffer (Js.slice_from (S newlineIndex) (textBuffer st)) st) = Continue st1 ->
    Drains st1 st' ->
    Drains st st'.

(** Two states show the same: the same flag, the same accumulated
    content, the same messages and the same history of updates. *)
Definition same_output (a b : Consumer) : Prop :=
  streamDone a = streamDone b /\
  assistantContent a = assistantContent b /\
  messages a = messages b /\
  updates a = updates b.

(** The buffer starts with a complete line that the body pushes back. *)
Definition stuck (st : Consumer) : Prop :=
  exists line rest back,
    textBuffer st = line +:+ String Js.LF rest /\
    Js.indexOf Js.LF line = None /\
    step_of line = PushBack back.

(** The state in which [sendMessage] enters the loop: the user message
    and an empty assistant message have been added to [prev]. *)
Definition start (prev : list Message) (messageText : string) : Consumer :=
  {| textBuffer := ""; streamDone := false; assistantContent := "";
     messages := prev ++ [ {| role := role_user; content := messageText |};
                           {| role := role_assistant; content := "" |} ];
     updates := [] |}.

End Consumer.

(** The text of a stream: its chunks one after the other. *)
Definition text_of (chunks : list string) : string :=
  foldr String.append EmptyString chunks.

(** Complete lines one after the other, each closed by its newline. *)
Definition unlines (ls : list string) : string :=
  foldr (fun l t => l +:+ String Js.LF t) EmptyString ls.

End AIAssistant.

(** ** A reference [JSON.parse] and [String(number)]

    The consumer is stated for any [JSON.parse]; this one, which follows
    the JSON grammar on strings of code units below 256, is what the
    consumer is run with on concrete streams.  A [\u] escape above
    [\u00ff] has no code unit here and is rejected. *)

Module JsonText.
Import AIAssistant.

Definition is_ws (a : ascii) : bool :=
  let n := nat_of_ascii a in
  Nat.eqb n 32 || Nat.eqb n 9 || Nat.eqb n 10 || Nat.eqb n 13.

Fixpoint skip_ws (s : string) : string :=
  match s with
  | String a s' => if is_ws a then skip_ws s' else s
  | EmptyString => s
  end.

Definition digit (a : ascii) : option Z :=
  let n := nat_of_ascii a in
  if Nat.leb 48 n && Nat.leb n 57 then Some (Z.of_nat n - 48) else None.

Definition hex (a : ascii) : option nat :=
  let n := nat_of_ascii a in
  if Nat.leb 48 n && Nat.leb n 57 then Some (n - 48)%nat
  else if Nat.leb 65 n && Nat.leb n 70 then Some (n - 55)%nat
  else if Nat.leb 97 n && Nat.leb n 102 then Some (n - 87)%nat
  else None.

(** The leading digits of [s] read on top of [acc]: the value, how many
    digits were read, and the rest. *)
Fixpoint digits (s : string) (acc : Z) (count : nat) : Z * nat * string :=
  match s with
  | String a s' =>
      match digit a with
      | Some d => digits s' (10 * acc + d) (S count)
      | None => (acc, count, s)
      end
  | EmptyString => (acc, count, s)
  end.

(** The double nearest to [m * 10 ^ e10] (ties to even), for [0 <= m]. *)
Definition decimal_to_float (neg : bool) (m e10 : Z) : float :=
  if m =? 0 then (if neg then (-0)%float else 0%float)
  else if 400 <? e10 then (if neg then neg_infinity else infinity)
  else if e10 + Z.log2 m <? - 1100 then (if neg then (-0)%float else 0%float)
  else if 0 <=? e10 then
    SF2Prim (binary_normalize prec emax (m * 10 ^ e10) 0 false) *
    (if neg then (-1)%float else 1%float)
  else
    SF2Prim (SFdiv prec emax (S754_finite neg (Z.to_pos m) 0)
               (S754_finite false (Z.to_pos (10 ^ (- e10))) 0)).

(** A JSON number at the head of [s]. *)
Definition parse_number (s : string) : option (float * string) :=
  let '(neg, s) :=
    match s with
    | String "-" s' => (true, s')
    | _ => (false, s)
    end in
  match s with
  | String a s1 =>
      match digit a with
      | None => None
      | Some d =>
          let '(int, _, s2) :=
            if d =? 0 then (0, 1%nat, s1) else digits s1 d 1 in
          let frac :=
            match s2 with
            | String "." s3 =>
                let '(m, n, s4) := digits s3 int 0 in
                if Nat.eqb n 0 then None else Some (m, Z.of_nat n, s4)
            | _ => Some (int, 0, s2)
            end in
          match frac with
          | None => None
          | Some (m, scale, s5) =>
              let with_exp (eneg : bool) (s6 : string) :=
                let '(e, n, s7) := digits s6 0 0 in
                if Nat.eqb n 0 then None
                else Some (decimal_to_float neg m ((if eneg then - e else e) - scale), s7) in
              match s5 with
              | String "e" s6 | String "E" s6 =>
                  match s6 with
                  | String "+" s7 => with_exp false s7
                  | String "-" s7 => with_exp true s7
                  | _ => with_exp false s6
                  end
              | _ => Some (decimal_to_float neg m (- scale), s5)
              end
          end
      end
  | EmptyString => None
  end.

(** The characters of a JSON string up to its closing quote, escapes
    decoded; [s] starts after the opening quote. *)
Fixpoint parse_chars (s : string) : option (string * string) :=
  match s with
  | EmptyString => None
  | String "034"%char rest => Some (EmptyString, rest)
  | String "\" (String "u" (String h1 (String h2 (String h3 (String h4 rest))))) =>
      match hex h1, hex h2, hex h3, hex h4 with
      | Some 0%nat, Some 0%nat, Some c, Some d =>
          match parse_chars rest with
          | Some (t, r) => Some (String (ascii_of_nat (16 * c + d)) t, r)
          | None => None
          end
      | _, _, _, _ => None
      end
  | String "\" (String e rest) =>
      let decoded :=
        match e with
        | "034"%char => Some "034"%char
        | "\"%char => Some "\"%char
        | "/"%char => Some "/"%char
        | "b"%char => Some "008"%char
        | "f"%char => Some "012"%char
        | "n"%char => Some "010"%char
        | "r"%char => Some "013"%char
        | "t"%char => Some "009"%char
        | _ => None
        end in
      match decoded, parse_chars rest with
      | Some c, Some (t, r) => Some (String c t, r)
      | _, _ => None
      end
  | String a rest =>
      if Nat.ltb (nat_of_ascii a) 32 then None
      else if Ascii.eqb a "\" then None
      else match parse_chars rest with
           | Some (t, r) => Some (String a t, r)
           | None => None
           end
  end.

(** A JSON value at the head of [s], after white space, and what
    follows it; the elements of an array after its first bracket or a
    comma; the members of an object likewise.  [fuel] bounds the depth
    of the calls. *)
Fixpoint parse_value (fuel : nat) (s : string) : option (json * string) :=
  match fuel with
  | O => None
  | S fuel =>
      let s := skip_ws s in
      if Js.startsWith "null" s then Some (JNull, Js.slice_from 4 s)
      else if Js.startsWith "true" s then Some (JBool true, Js.slice_from 4 s)
      else if Js.startsWith "false" s then Some (JBool false, Js.slice_from 5 s)
      else
        match s with
        | String "034"%char rest =>
            match parse_chars rest with
            | Some (t, r) => Some (JStr t, r)
            | None => None
            end
        | String "[" rest =>
            match skip_ws rest with
            | String "]" r => Some (JArr [], r)
            | _ =>
                match parse_elements fuel rest with
                | Some (items, r) => Some (JArr items, r)
                | None => None
                end
            end
        | String "{" rest =>
            match skip_ws rest with
            | String "}" r => Some (JObj [], r)
            | _ =>
                match parse_members fuel rest with
                | Some (fields, r) => Some (JObj fields, r)
                | None => None
                end
            end
        | _ =>
            match parse_number s with
            | Some (x, r) => Some (JNum x, r)
            | None => None
            end
        end
  end
with parse_elements (fuel : nat) (s : string) : option (list json * string) :=
  match fuel with
  | O => None
  | S fuel =>
      match parse_value fuel s with
      | Some (v, rest) =>
          match skip_ws rest with
          | String "," rest' =>
              match parse_elements fuel rest' with
              | Some (vs, r) => Some (v :: vs, r)
              | None => None
              end
          | String "]" r => Some ([v], r)
          | _ => None
          end
      | None => None
      end
  end
with parse_members (fuel : nat) (s : string) : option (list (string * json) * string) :=
  match fuel with
  | O => None
  | S fuel =>
      match skip_ws s with
      | String "034"%char rest =>
          match parse_chars rest with
          | Some (k, rest) =>
              match skip_ws rest with
              | String ":" rest =>
                  match parse_value fuel rest with
                  | Some (v, rest) =>
                      match skip_ws rest with
                      | String "," rest' =>
                          match parse_members fuel rest' with
                          | Some (kvs, r) => Some ((k, v) :: kvs, r)
                          | None => None
                          end
                      | String "}" r => Some ([(k, v)], r)
                      | _ => None
                      end
                  | None => None
                  end
              | _ => None
              end
          | None => None
          end
      | _ => None
      end
  end.

(** [JSON.parse(s)]: one value, white space around it and nothing else. *)
Definition JSON_parse (s : string) : option json :=
  match parse_value (2 * String.length s + 2) s with
  | Some (v, rest) =>
      match skip_ws rest with
      | EmptyString => Some v
      | _ => None
      end
  | None => None
  end.

(** [String(x)] for a double: the shortest decimal that reads back as
    [x], laid out as [Number::toString] prescribes. *)
Definition decimal_digits (z : Z) : Z := Z.of_nat (String.length (pretty z)).

Fixpoint zeros (n : nat) : string :=
  match n with
  | O => EmptyString
  | S n => String "0" (zeros n)
  end.

(** For [x = m * 2 ^ e > 0], the [n] with [10 ^ (n - 1) <= x < 10 ^ n]. *)
Definition decimal_exponent (m e : Z) : Z :=
  if 0 <=? e then decimal_digits (m * 2 ^ e)
  else
    let den := 2 ^ (- e) in
    if den <=? m then decimal_digits (m / den)
    else
      let j := decimal_digits den - decimal_digits m in
      1 - (if den <=? m * 10 ^ j then j else j + 1).

(** The [k]-digit decimal [s * 10 ^ (n - k)] nearest to [m * 2 ^ e]
    (ties to even), as [(s, n)]. *)
Definition nearest_decimal (m e n k : Z) : Z * Z :=
  let scale := n - k in
  let a := m * 2 ^ Z.max e 0 * 10 ^ Z.max (- scale) 0 in
  let b := 2 ^ Z.max (- e) 0 * 10 ^ Z.max scale 0 in
  let q := a / b in
  let r := a mod b in
  let s := if (b <? 2 * r) || ((b =? 2 * r) && Z.odd q) then q + 1 else q in
  if s =? 10 ^ k then (10 ^ (k - 1), n + 1) else (s, n).

(** The least [k], from [k] upwards and at most [k + tries], whose
    nearest decimal reads back as [x]. *)
Fixpoint shortest (tries : nat) (x : float) (m e n k : Z) : Z * Z * Z :=
  let '(s, n') := nearest_decimal m e n k in
  match tries with
  | O => (s, n', k)
  | S tries =>
      if PrimFloat.eqb (decimal_to_float false s (n' - k)) x then (s, n', k)
      else shortest tries x m e n (k + 1)
  end.

Definition layout (s n k : Z) : string :=
  let ds := pretty s in
  if (k <=? n) && (n <=? 21) then ds +:+ zeros (Z.to_nat (n - k))
  else if (0 <? n) && (n <=? 21) then
    Js.slice_to (Z.to_nat n) ds +:+ "." +:+ Js.slice_from (Z.to_nat n) ds
  else if (-6 <? n) && (n <=? 0) then "0." +:+ zeros (Z.to_nat (- n)) +:+ ds
  else
    let e := n - 1 in
    (if k =? 1 then ds else Js.slice_to 1 ds +:+ "." +:+ Js.slice_from 1 ds)
    +:+ "e" +:+ (if e <? 0 then "-" else "+") +:+ pretty (Z.abs e).

Definition Number_toString (x : float) : string :=
  match Prim2SF x with
  | S754_nan => "NaN"
  | S754_zero _ => "0"
  | S754_infinity neg => if neg then "-Infinity" else "Infinity"
  | S754_finite neg m e =>
      let '(s, n, k) :=
        shortest 16 (PrimFloat.abs x) (Z.pos m) e (decimal_exponent (Z.pos m) e) 1 in
      (if neg then "-" else "") +:+ layout s n k
  end.

End JsonText.

(** ** Concrete inputs the properties are run on *)

Module Sample.
Import Db Attendance.

Definition env0 : env := {| fault := None; fresh_id := "a1" |}.

Definition page0 : Page :=
  {| user := Some "u1"; todayAttendance := None; isSubmitting := false;
     notes_input := ""; toasts := [] |}.

Definition morning : JsDate :=
  {| getTime := 1769070600000; getHours := 8; yyyy_MM_dd := "2026-01-22";
     h_mm_a := "8:30 AM" |}.

Definition nine : JsDate :=
  {| getTime := 1769072400000; getHours := 9; yyyy_MM_dd := "2026-01-22";
     h_mm_a := "9:00 AM" |}.

Definition evening : JsDate :=
  {| getTime := 1769103000000; getHours := 17; yyyy_MM_dd := "2026-01-22";
     h_mm_a := "5:30 PM" |}.

(** Today's row of [u1] after the morning check-in, and after a
    check-out at 17:30. *)
Definition row_in : attendance :=
  {| id := "a1"; user_id := "u1"; date := "2026-01-22";
     check_in := Some 1769072400000; check_out := None;
     status := late; notes := None |}.

Definition row_out : attendance :=
  {| id := "a1"; user_id := "u1"; date := "2026-01-22";
     check_in := Some 1769072400000; check_out := Some 1769103000000;
     status := late; notes := None |}.

Definition page_of (r : attendance) : Page :=
  {| user := Some "u1"; todayAttendance := Some r; isSubmitting := false;
     notes_input := ""; toasts := [] |}.

(** Two rows of one month, in the second and in the first week. *)
Definition row_day8 : attendance :=
  {| id := "a8"; user_id := "u1"; date := "2026-01-08";
     check_in := None; check_out := None; status := present; notes := None |}.

Definition row_day1 : attendance :=
  {| id := "a0"; user_id := "u1"; date := "2026-01-01";
     check_in := None; check_out := None; status := absent; notes := None |}.

(** Ten records: seven [present], one [late], two [absent]. *)
Definition ten_records : list attendance :=
  repeat row_day8 7 ++ [row_in] ++ repeat row_day1 2.

Definition night : JsDate :=
  {| getTime := 1769119200000; getHours := 22; yyyy_MM_dd := "2026-01-22";
     h_mm_a := "10:00 PM" |}.

(** The role table with one ordinary user and one administrator. *)
Definition roles0 : list user_role :=
  [ {| role_user_id := "u1"; role := Db.user |};
    {| role_user_id := "u2"; role := Db.admin |} ].

Definition admin_page0 : AdminUsers.Page :=
  {| AdminUsers.userRoles := {["u1" := "user"; "u2" := "admin"]};
     AdminUsers.toasts := [] |}.

(** A signed-in caller with a profile and no attendance rows, and an
    upstream that answers 200 and streams back the system message it
    was sent. *)
Definition echo_world : Gateway.World :=
  {| Gateway.getUser := fun token =>
       if String.eqb token "token-u1" then Data "u1" else Error "invalid JWT";
     Gateway.fetch_attendance := fun _ => Some [];
     Gateway.fetch_profile := fun _ =>
       Some {| Gateway.full_name := "Ada"; Gateway.email := "ada@example.org";
               Gateway.department := None |};
     Gateway.LOVABLE_API_KEY := Some "key";
     Gateway.today := "2026-01-22";
     Gateway.timestamptz_text := fun t => pretty t;
     Gateway.fetch_upstream := fun _ messages =>
       Data {| Gateway.up_status := 200;
               Gateway.up_body :=
                 match messages with
                 | m :: _ => Gateway.msg_content m
                 | [] => ""
                 end |} |}.

(** The same world with an upstream that answers [st] with [text]. *)
Definition world_answering (st : Z) (text : string) : Gateway.World :=
  {| Gateway.getUser := Gateway.getUser echo_world;
     Gateway.fetch_attendance := Gateway.fetch_attendance echo_world;
     Gateway.fetch_profile := Gateway.fetch_profile echo_world;
     Gateway.LOVABLE_API_KEY := Gateway.LOVABLE_API_KEY echo_world;
     Gateway.today := Gateway.today echo_world;
     Gateway.timestamptz_text := Gateway.timestamptz_text echo_world;
     Gateway.fetch_upstream := fun _ _ =>
       Data {| Gateway.up_status := st; Gateway.up_body := text |} |}.

(** A string in double quotes. *)
Definition q (s : string) : string := Gateway.dq +:+ s +:+ Gateway.dq.

(** The event [{"choices":[{"delta":{"content":"Hello"}}]}], the value
    it parses to, and its [data:] line cut after [Hel]. *)
Definition hello_json : string :=
  "{" +:+ q "choices" +:+ ":[{" +:+ q "delta" +:+ ":{" +:+ q "content" +:+ ":"
  +:+ q "Hello" +:+ "}}]}".

Definition hello_value : AIAssistant.json :=
  AIAssistant.JObj
    [("choices",
      AIAssistant.JArr
        [AIAssistant.JObj
           [("delta", AIAssistant.JObj [("content", AIAssistant.JStr "Hello")])]])].

Definition hello_chunk1 : string :=
  "data: {" +:+ q "choices" +:+ ":[{" +:+ q "delta" +:+ ":{" +:+ q "content" +:+ ":"
  +:+ Gateway.dq +:+ "Hel".

Definition hello_chunk2 : string :=
  "lo" +:+ Gateway.dq +:+ "}}]}" +:+ Gateway.nl.

Definition done_line : string := "data: [DONE]".
Definition hello_line : string := "data: " +:+ hello_json.

(** A [data:] line whose content is an object with an own property
    [toString]. *)
Definition tostring_line : string :=
  "data: {" +:+ q "choices" +:+ ":[{" +:+ q "delta" +:+ ":{" +:+ q "content" +:+ ":{"
  +:+ q "toString" +:+ ":1}}}]}".

Definition chat_request : Gateway.Request :=
  {| Gateway.method := "POST";
     Gateway.authorization := Some "Bearer token-u1";
     Gateway.body :=
       Gateway.BodyMessages
         [{| Gateway.msg_role := "user"; Gateway.msg_content := "Was I late?" |}] |}.

End Sample.

(** ** The row-level policies and the sign-up trigger of the migration

    From here on the policies are no longer a [fault] of the
    environment: a request is made by a caller, and the rows it may
    read or write are the ones the [CREATE POLICY] statements admit for
    that caller. *)

Module Policies.
Import Db.

(** [public.has_role(_user_id, _role)]: [SELECT EXISTS (...)] over
    [public.user_roles]. *)
Definition has_role (roles : list user_role) (_user_id : string) (_role : app_role) : bool :=
  existsb (fun r => bool_decide (role_user_id r = _user_id) && bool_decide (role r = _role))
    roles.

(** The [USING] conditions of the two [FOR SELECT] policies on
    [public.attendance], joined by [OR] as permissive policies are:
    [auth.uid() = user_id], and [has_role(auth.uid(), 'admin')]. *)
Definition can_select_attendance (roles : list user_role) (uid : string) (r : attendance)
  : bool :=
  bool_decide (uid = user_id r) || has_role roles uid admin.

(** What [.from("attendance").select("*")] reads for the caller: the
    policies are [TO authenticated], so a request without a session
    reads nothing. *)
Definition select_attendance (roles : list user_role) (caller : option string)
    (tbl : list attendance) : list attendance :=
  match caller with
  | None => []
  | Some uid => filter (fun r => can_select_attendance roles uid r = true) tbl
  end.

(** A row of [public.profiles] ([avatar_url] and the two timestamps are
    left out). *)
Record profile := {
  profile_id : string;
  profile_user_id : string;
  full_name : string;
  email : string;
  department : option string
}.

(** The columns of the new [auth.users] row the trigger reads:
    [NEW.id], [NEW.email] and [NEW.raw_user_meta_data->>'full_name'],
    the last two [NULL] when absent. *)
Record auth_user := {
  auth_id : string;
  auth_email : option string;
  meta_full_name : option string
}.

(** [COALESCE(a, b)] *)
Definition COALESCE {A : Type} (a b : option A) : option A :=
  match a with
  | Some _ => a
  | None => b
  end.

(** [public.handle_new_user()], run after the insert into [auth.users]:
    the two inserts, with the [NOT NULL] and [UNIQUE] constraints of the
    two tables; an error aborts the statement and leaves both tables as
    they were.  [fresh] is the [gen_random_uuid()] of the profile. *)
Definition handle_new_user (fresh : string) (NEW : auth_user)
    (profiles : list profile) (roles : list user_role)
  : result (list profile * list user_role) :=
  match COALESCE (meta_full_name NEW) (auth_email NEW), auth_email NEW with
  | Some name, Some mail =>
      if existsb (fun p => bool_decide (profile_user_id p = auth_id NEW)) profiles then
        Error "duplicate key value violates unique constraint"
      else if existsb (fun r => bool_decide (role_user_id r = auth_id NEW)
                                && bool_decide (role r = user)) roles then
        Error "duplicate key value violates unique constraint"
      else
        Data (profiles ++ [{| profile_id := fresh; profile_user_id := auth_id NEW;
                              full_name := name; email := mail; department := None |}],
              roles ++ [{| role_user_id := auth_id NEW; role := user |}])
  | _, _ => Error "null value violates not-null constraint"
  end.

End Policies.

(** ** [src/pages/Attendance.tsx]: loading today's record *)

Module AttendanceLoad.
Import Db Attendance Policies.

(** [.maybeSingle()]: [null] for no row, the row for one, an error for
    more. *)
Definition maybeSingle {A : Type} (rows : list A) : result (option A) :=
  match rows with
  | [] => Data None
  | [r] => Data (Some r)
  | _ => Error "JSON object requested, multiple (or no) rows returned"
  end.

(** [.from("attendance").select("*").eq("date", today).maybeSingle()]
    as the caller's session sees the table. *)
Definition select_today (fault : option string) (roles : list user_role)
    (caller : option string) (today : string) (tbl : list attendance)
  : result (option attendance) :=
  match fault with
  | Some msg => Error msg
  | None => maybeSingle (filter (fun r => date r = today) (select_attendance roles caller tbl))
  end.

Definition set_notes (n : string) (st : Page) : Page :=
  {| user := user st; todayAttendance := todayAttendance st;
     isSubmitting := isSubmitting st; notes_input := n; toasts := toasts st |}.

(** [fetchTodayAttendance]: the query names no user; the session is the
    one of [user st].  ([isLoading], which only hides the page while the
    request is out, is not part of [Page].) *)
Definition fetchTodayAttendance (fault : option string) (roles : list user_role)
    (now : JsDate) (st : Page) (tbl : list attendance) : Page :=
  let today := yyyy_MM_dd now in
  match select_today fault roles (user st) today tbl with
  | Data (Some data) => set_notes (default "" (notes data)) (set_today data st)
  | _ => st
  end.

(** [UNIQUE (user_id, date)] and the primary key, as properties of a
    table. *)
Definition unique_per_day (tbl : list attendance) : Prop :=
  NoDup (map (fun r => (user_id r, date r)) tbl).

Definition unique_ids (tbl : list attendance) : Prop :=
  NoDup (map id tbl).

(** The row a check-out writes in place of [r]: the [set] of
    [update_attendance]. *)
Definition checked_out (co : option timestamp) (n : option string) (r : attendance)
  : attendance :=
  {| id := id r; user_id := user_id r; date := date r; check_in := check_in r;
     check_out := co; status := status r; notes := n |}.

(** The columns a check-out must not touch. *)
Definition fixed_columns (r : attendance)
  : string * string * string * option timestamp * attendance_status :=
  (id r, user_id r, date r, check_in r, status r).

End AttendanceLoad.

(** ** [src/pages/AdminUsers.tsx]: the directory and its search, and
       the role change as the policies let it through *)

Module UserDirectory.
Import Db Policies.

(** The text PostgREST writes for a role. *)
Definition role_text (r : app_role) : string :=
  match r with
  | admin => "admin"
  | user => "user"
  end.

(** [rolesData.forEach((r) => { rolesMap[r.user_id] = r.role; })] *)
Definition rolesMap (rolesData : list user_role) : gmap string string :=
  fold_left (fun m r => <[role_user_id r := role_text (role r)]> m) rolesData ∅.

(** [userRoles[profile.user_id] || "user"] *)
Definition shown_role (userRoles : gmap string string) (uid : string) : string :=
  match userRoles !! uid with
  | Some r => if String.eqb r "" then "user" else r
  | None => "user"
  end.

(** [c.toLowerCase()] on a code unit below 256: the letters [A]-[Z],
    and the Latin-1 capitals U+00C0-U+00D6 and U+00D8-U+00DE, move up
    by 32, and every other code unit stays. *)
Definition lower (a : ascii) : ascii :=
  let n := nat_of_ascii a in
  if (Nat.leb 65 n && Nat.leb n 90) || (Nat.leb 192 n && Nat.leb n 214)
     || (Nat.leb 216 n && Nat.leb n 222)
  then ascii_of_nat (n + 32) else a.

(** [s.toLowerCase()] on the strings of this development, whose code
    units are all below 256.  On these the conversion goes code unit
    by code unit: the rules of [String.prototype.toLowerCase] that look
    at the neighbours of a character or change the length of the text
    (the final sigma, the dotted capital I) concern characters from
    U+0130 on and do not apply.  Nothing here speaks of names, e-mail
    addresses or queries with a character outside Latin-1. *)
Fixpoint toLowerCase (s : string) : string :=
  match s with
  | EmptyString => EmptyString
  | String a s' => String (lower a) (toLowerCase s')
  end.

(** [filteredProfiles], on profiles and queries in Latin-1. *)
Definition filteredProfiles (searchQuery : string) (profiles : list profile) : list profile :=
  filter (fun p =>
            Js.includes (toLowerCase searchQuery) (toLowerCase (full_name p))
            || Js.includes (toLowerCase searchQuery) (toLowerCase (email p)) = true)
    profiles.

(** [.from("user_roles").delete().eq("user_id", uid)] by [caller]: the
    only policy that admits a delete is ["Admins can manage roles"], so
    the rows that go are those of [uid] if the caller is an
    administrator, and none otherwise; neither case is an error. *)
Definition delete_roles_as (caller uid : string) (tbl : list user_role)
  : result unit * list user_role :=
  if has_role tbl caller admin then
    (Data tt, filter (fun r => role_user_id r <> uid) tbl)
  else (Data tt, tbl).

(** [.from("user_roles").insert({ user_id, role })] by [caller]: the
    role text is cast to [app_role]; the new row must pass the check of
    ["Admins can manage roles"], which [has_role] evaluates on the
    table as the statement finds it; [UNIQUE (user_id, role)] must
    hold. *)
Definition insert_role_as (caller uid newRole : string) (tbl : list user_role)
  : result unit * list user_role :=
  match AdminUsers.app_role_of_string newRole with
  | None => (Error "invalid input value for enum app_role", tbl)
  | Some r =>
      if negb (has_role tbl caller admin) then
        (Error "new row violates row-level security policy for table user_roles", tbl)
      else if existsb (fun x => bool_decide (role_user_id x = uid)
                                && bool_decide (role x = r)) tbl
      then (Error "duplicate key value violates unique constraint", tbl)
      else (Data tt, tbl ++ [{| role_user_id := uid; role := r |}])
  end.

(** [handleRoleChange] run in the session of [caller]. *)
Definition handleRoleChange_as (caller userId newRole : string)
    (st : AdminUsers.Page) (tbl : list user_role)
  : AdminUsers.Page * list user_role :=
  let '(_, tbl) := delete_roles_as caller userId tbl in
  let '(res, tbl) := insert_role_as caller userId newRole tbl in
  match res with
  | Error message =>
      ({| AdminUsers.userRoles := AdminUsers.userRoles st;
          AdminUsers.toasts := AdminUsers.toasts st ++
            [{| Attendance.title := "Failed to update role";
                Attendance.description := message;
                Attendance.destructive := true |}] |}, tbl)
  | Data _ =>
      ({| AdminUsers.userRoles := <[userId := newRole]> (AdminUsers.userRoles st);
          AdminUsers.toasts := AdminUsers.toasts st ++
            [{| Attendance.title := "Role updated";
                Attendance.description := "User role has been updated successfully.";
                Attendance.destructive := false |}] |}, tbl)
  end.

End UserDirectory.

(** ** [src/pages/Reports.tsx]: what the charts add up to *)

Module ReportsCounts.
Import Db Reports.

(** The sum of the [value]s of the slices of a pie. *)
Definition total_value (d : list Slice) : nat :=
  foldr (fun s n => (slice_value s + n)%nat) 0%nat d.

Section Weekly.

Variable getDate : string -> Z.

(** The number of records of [l] that fall in the week named [k] and
    carry the status [s]. *)
Definition in_week (k : string) (s : attendance_status) (l : list attendance) : nat :=
  length (filter (fun r => weekNum getDate r = k /\ status r = s) l).

(** A week's counters after the records of [l] that fall in week [k]
    have been counted on top of [w]. *)
Definition counted (k : string) (l : list attendance) (w : Week) : Week :=
  {| w_present := w_present w + in_week k present l;
     w_late := w_late w + in_week k late l;
     w_absent := w_absent w + in_week k absent l |}.

End Weekly.

(** The bars a month can have. *)
Definition week_names : list string :=
  ["Week 1"; "Week 2"; "Week 3"; "Week 4"; "Week 5"].

End ReportsCounts.

(** ** [supabase/functions/attendance-ai/index.ts]: requests and statuses *)

Module GatewayRequests.
Import Gateway.

(** The request [req] with its [Authorization] header set to [h]. *)
Definition with_authorization (h : string) (req : Request) : Request :=
  {| method := method req; authorization := Some h; body := body req |}.

(** The statuses the handler answers with. *)
Definition statuses : list Z := [200; 401; 402; 429; 500].

(** The request carries no credential the identity service accepts:
    no header, an empty one, or a token [getUser] rejects. *)
Definition unauthenticated (w : World) (req : Request) : Prop :=
  match authorization req with
  | None => True
  | Some authHeader =>
      authHeader = "" \/
      exists message, getUser w (Js.remove_first "Bearer " authHeader) = Db.Error message
  end.

End GatewayRequests.

(** ** [src/pages/AIAssistant.tsx]: the whole of [sendMessage] *)

Module Chat.
Import AIAssistant.

(** What follows the chunks of a body: [reader.read()] resolves with
    [done], it rejects, or it never settles because the response is
    kept open and nothing more is sent. *)
Inductive StreamEnd := EndOfStream | ReadError | StaysOpen.

(** [response.body]: the chunks the reader delivers, as decoded text,
    and what follows them. *)
Record ResponseBody := {
  chunks : list string;
  ending : StreamEnd
}.

(** A response: [response.status] and [response.body] ([None] for
    [null]). *)
Record HttpResponse := {
  status : Z;
  body : option ResponseBody
}.

(** What becomes of the promise [fetch] returns: it rejects, it never
    settles, or it resolves to a response. *)
Inductive Fetched :=
| Rejected
| Unsettled
| Responded (response : HttpResponse).

(** [response.ok] *)
Definition ok (r : HttpResponse) : bool :=
  (200 <=? status r) && (status r <=? 299).

(** The [useState] cells of the page and the toasts shown so far. *)
Record Page := {
  messages : list Message;
  input : string;
  isLoading : bool;
  toasts : list Attendance.Toast
}.

(** The page when [sendMessage] returns, having shown [msgs] and the
    toasts [ts]: the input was cleared on the way and [isLoading] is
    back to [false]. *)
Definition finished (msgs : list Message) (ts : list Attendance.Toast) : Page :=
  {| messages := msgs; input := ""; isLoading := false; toasts := ts |}.

(** The page on which [sendMessage] stays when an [await] in it never
    settles: the [finally] block has not run and [isLoading] is still
    [true]. *)
Definition pending (msgs : list Message) (ts : list Attendance.Toast) : Page :=
  {| messages := msgs; input := ""; isLoading := true; toasts := ts |}.

(** The [catch] block followed by [finally]. *)
Definition failed (msgs : list Message) (st : Page) : Page :=
  finished (filter (fun m => content m <> "") msgs)
    (toasts st ++
       [{| Attendance.title := "Error";
           Attendance.description := "Failed to get AI response. Please try again.";
           Attendance.destructive := true |}]).

Section SendMessage.

Variable JSON_parse : string -> option json.
Variable Number_toString : float -> string.

(** [fetch] of the function's URL with the messages in the body. *)
Variable fetch : list Message -> Fetched.

(** [sendMessage]: the page as the call leaves it, when it returns or,
    if an [await] never settles, where it stays; [None] only if the
    drain of a chunk ran out of its iteration bound. *)
Definition sendMessage (messageText : string) (st : Page) : option Page :=
  if String.eqb (Js.trim messageText) "" || isLoading st then Some st
  else
    let userMessage := {| role := role_user; content := messageText |} in
    let shown := messages st ++ [userMessage] in
    match fetch (messages st ++ [userMessage]) with
    | Rejected => Some (failed shown st)
    | Unsettled => Some (pending shown (toasts st))
    | Responded response =>
        if status response =? 429 then
          Some (finished shown
                  (toasts st ++
                     [{| Attendance.title := "Rate limit exceeded";
                         Attendance.description := "Please try again in a moment.";
                         Attendance.destructive := true |}]))
        else if status response =? 402 then
          Some (finished shown
                  (toasts st ++
                     [{| Attendance.title := "Credits required";
                         Attendance.description :=
                           "Please add credits to continue using AI features.";
                         Attendance.destructive := true |}]))
        else
          match (if ok response then body response else None) with
          | None => Some (failed shown st)
          | Some b =>
              match read_loop JSON_parse Number_toString (chunks b)
                      (start (messages st) messageText) with
              | None => None
              | Some (r, _) =>
                  if AIAssistant.streamDone r then
                    Some (finished (AIAssistant.messages r) (toasts st))
                  else
                    match ending b with
                    | EndOfStream => Some (finished (AIAssistant.messages r) (toasts st))
                    | ReadError => Some (failed (AIAssistant.messages r) st)
                    | StaysOpen => Some (pending (AIAssistant.messages r) (toasts st))
                    end
              end
          end
    end.

(** The contents the lines of a stream append, in order: the lines
    are read up to the first one that is the terminator or is pushed
    back. *)
Fixpoint emitted (ls : list string) : list string :=
  match ls with
  | [] => []
  | l :: rest =>
      match step_of JSON_parse Number_toString l with
      | Skip => emitted rest
      | Append c => c :: emitted rest
      | Stop | PushBack _ => []
      end
  end.

(** Whether the lines reach the terminator: no line before it is
    pushed back. *)
Fixpoint terminated (ls : list string) : bool :=
  match ls with
  | [] => false
  | l :: rest =>
      match step_of JSON_parse Number_toString l with
      | Skip | Append _ => terminated rest
      | Stop => true
      | PushBack _ => false
      end
  end.

End SendMessage.

(** The complete lines of a text and what follows its last newline. *)
Fixpoint lines (s : string) : list string * string :=
  match s with
  | EmptyString => ([], EmptyString)
  | String a s' =>
      let '(ls, tail) := lines s' in
      if Ascii.eqb a Js.LF then (EmptyString :: ls, tail)
      else match ls with
           | [] => ([], String a tail)
           | l :: ls' => (String a l :: ls', tail)
           end
  end.

(** The contents of the assistant message after each of the appends
    [cs], starting from [acc]. *)
Fixpoint running (acc : string) (cs : list string) : list string :=
  match cs with
  | [] => []
  | c :: rest => (acc +:+ c) :: running (acc +:+ c) rest
  end.

End Chat.

(** ** The page and the function together *)

Module EndToEnd.
Import AIAssistant.

(** The text of a role in the request body. *)
Definition role_name (r : Role) : string :=
  match r with
  | role_user => "user"
  | role_assistant => "assistant"
  end.

(** The request [sendMessage] sends: [key] is
    [VITE_SUPABASE_PUBLISHABLE_KEY]. *)
Definition request (key : string) (msgs : list Message) : Gateway.Request :=
  {| Gateway.method := "POST";
     Gateway.authorization := Some ("Bearer " +:+ key);
     Gateway.body :=
       Gateway.BodyMessages
         (map (fun m => {| Gateway.msg_role := role_name (role m);
                           Gateway.msg_content := content m |}) msgs) |}.

(** [fetch] when the function answers: the response of the handler,
    its body cut into chunks by the transport ([chunking]) and read to
    its end. *)
Definition fetch (w : Gateway.World) (key : string) (chunking : string -> list string)
    (msgs : list Message) : Chat.Fetched :=
  let res := fst (Gateway.handler w (request key msgs)) in
  Chat.Responded
    {| Chat.status := Gateway.res_status res;
       Chat.body :=
         match Gateway.res_body res with
         | None => None
         | Some text => Some {| Chat.chunks := chunking text;
                                Chat.ending := Chat.EndOfStream |}
         end |}.

End EndToEnd.

(** ** More concrete inputs: two users on one day *)

Module Scenario.
Import Db Attendance Sample.

(** Today's row of the administrator [u2] of [roles0]. *)
Definition row_u2 : attendance :=
  {| id := "b1"; user_id := "u2"; date := "2026-01-22";
     check_in := Some 1769070600000; check_out := None;
     status := present; notes := Some "remote" |}.

(** The page of [u2] before anything is loaded. *)
Definition page_u2 : Page :=
  {| user := Some "u2"; todayAttendance := None; isSubmitting := false;
     notes_input := ""; toasts := [] |}.

(** A second request of the same day, with its own fresh identifier. *)
Definition env1 : env := {| fault := None; fresh_id := "a2" |}.

(** An account signing up with an e-mail address and no name. *)
Definition new_user : Policies.auth_user :=
  {| Policies.auth_id := "u3"; Policies.auth_email := Some "eve@example.org";
     Policies.meta_full_name := None |}.

(** The bar of the second week of [ten_records]. *)
Definition week2_bar : Reports.WeekRow :=
  {| Reports.name := "Week 2"; Reports.row_present := 7; Reports.row_late := 0;
     Reports.row_absent := 0 |}.

(** Two profiles of the directory. *)
Definition profile_ada : Policies.profile :=
  {| Policies.profile_id := "p1"; Policies.profile_user_id := "u1";
     Policies.full_name := "Ada Lovelace"; Policies.email := "ada@example.org";
     Policies.department := None |}.

Definition profile_bob : Policies.profile :=
  {| Policies.profile_id := "p2"; Policies.profile_user_id := "u2";
     Policies.full_name := "Bob"; Policies.email := "bob@example.org";
     Policies.department := Some "Sales" |}.

(** The chat page with a question typed in. *)
Definition chat_page0 : Chat.Page :=
  {| Chat.messages := []; Chat.input := "Was I late?"; Chat.isLoading := false;
     Chat.toasts := [] |}.

(** A stream of one event and the terminator, with LF and with CR LF
    line ends, and with a keep-alive comment between the two lines. *)
Definition hello_stream : string :=
  hello_line +:+ Gateway.nl +:+ done_line +:+ Gateway.nl.

Definition cr : string := String Js.CR EmptyString.

Definition hello_stream_crlf : string :=
  hello_line +:+ cr +:+ Gateway.nl +:+ done_line +:+ cr +:+ Gateway.nl.

Definition hello_stream_keepalive : string :=
  hello_line +:+ Gateway.nl +:+ ": keep-alive" +:+ Gateway.nl +:+ done_line +:+ Gateway.nl.

(** A transport that delivers a body in one chunk, and one that cuts
    it after its tenth character. *)
Definition one_chunk (text : string) : list string := [text].

Definition cut_at_ten (text : string) : list string :=
  [Js.slice_to 10 text; Js.slice_from 10 text].

(** A stream whose first line carries a content with no conversion to
    a string. *)
Definition tostring_stream : string :=
  tostring_line +:+ Gateway.nl +:+ hello_line +:+ Gateway.nl +:+ done_line +:+ Gateway.nl.

(** A response whose body breaks off after the first chunk. *)
Definition broken_response : Chat.HttpResponse :=
  {| Chat.status := 200;
     Chat.body := Some {| Chat.chunks := [hello_line +:+ Gateway.nl];
                          Chat.ending := Chat.ReadError |} |}.

End Scenario.

(** * Properties *)

(** ** Check-in, check-out and work duration *)

Module AttendanceFacts.
Import Db Attendance Sample.

Lemma check_in_status_before_nine (hour : Z) :
  hour < 9 -> check_in_status hour = present.
Proof.
  intros H. unfold check_in_status.
  destruct (Z.leb_spec 9 hour) as [Hle | Hlt]; [lia | reflexivity].
Qed.

Lemma check_in_status_from_nine (hour : Z) :
  9 <= hour -> check_in_status hour = late.
Proof.
  intros H. unfold check_in_status.
  destruct (Z.leb_spec 9 hour) as [Hle | Hlt]; [reflexivity | lia].
Qed.

(** An insert either fails and leaves the table as it was, or appends
    exactly the row it returns. *)
Lemma insert_attendance_cases e u d ci s n tbl :
  (exists msg, insert_attendance e u d ci s n tbl = (Error msg, tbl)) \/
  (fault e = None /\ attendance_conflict u d tbl = false /\
   insert_attendance e u d ci s n tbl =
     (Data {| id := fresh_id e; user_id := u; date := d; check_in := ci;
              check_out := None; status := s; notes := n |},
      tbl ++ [{| id := fresh_id e; user_id := u; date := d; check_in := ci;
                 check_out := None; status := s; notes := n |}])).
Proof.
  unfold insert_attendance.
  destruct (fault e) as [msg |]; [left; eauto |].
  destruct (attendance_conflict u d tbl); [left; eauto | right; auto].
Qed.

(** A check-in that is not rejected creates the row and shows it. *)
Lemma handleCheckIn_accepted e now st tbl uid :
  user st = Some uid ->
  fault e = None ->
  attendance_conflict uid (yyyy_MM_dd now) tbl = false ->
  exists r,
    snd (handleCheckIn e now st tbl) = tbl ++ [r] /\
    todayAttendance (fst (handleCheckIn e now st tbl)) = Some r /\
    user_id r = uid /\ date r = yyyy_MM_dd now /\
    status r = check_in_status (getHours now).
Proof.
  intros Hu Hf Hc. unfold handleCheckIn, insert_attendance. rewrite Hu. simpl.
  rewrite Hf, Hc. simpl. eexists. repeat split.
Qed.

(** A rejected check-in, or one with nobody signed in, creates nothing. *)
Lemma handleCheckIn_rejected e now st tbl :
  user st = None \/ fault e <> None \/
  (exists uid, user st = Some uid /\
     attendance_conflict uid (yyyy_MM_dd now) tbl = true) ->
  snd (handleCheckIn e now st tbl) = tbl.
Proof.
  unfold handleCheckIn, insert_attendance.
  intros [Hu | [Hf | (uid & Hu & Hc)]].
  - rewrite Hu. reflexivity.
  - destruct (user st); [| reflexivity]. simpl.
    destruct (fault e); [reflexivity | congruence].
  - rewrite Hu. simpl. rewrite Hc. destruct (fault e); reflexivity.
Qed.

(** C1: whenever [handleCheckIn] creates a record, which it does by
    appending one row to the table, that row carries the check-in time,
    no check-out, and the status [present] when the local hour of the
    check-in is below 9 and [late] when it is 9 or later. *)
Theorem handleCheckIn_status_by_hour
    (e : env) (now : JsDate) (st st' : Page) (tbl tbl' : list attendance) :
  handleCheckIn e now st tbl = (st', tbl') ->
  tbl' <> tbl ->
  exists r,
    tbl' = tbl ++ [r] /\
    todayAttendance st' = Some r /\
    check_in r = Some (getTime now) /\
    check_out r = None /\
    (getHours now < 9 -> status r = present) /\
    (9 <= getHours now -> status r = late).
Proof.
  unfold handleCheckIn. destruct (user st) as [uid |].
  - destruct (insert_attendance_cases e uid (yyyy_MM_dd now)
                (Some (getTime now)) (check_in_status (getHours now))
                (Js.or_null (notes_input (set_submitting true st))) tbl)
      as [(msg & ->) | (_ & _ & ->)].
    + intros [= <- <-] Hne. congruence.
    + intros [= <- <-] _. eexists. split; [reflexivity |].
      simpl. repeat split.
      * apply check_in_status_before_nine.
      * apply check_in_status_from_nine.
  - intros [= <- <-] Hne. congruence.
Qed.

(** Check-ins by [u1] at 08:30 and at 09:00 into an empty table. *)
Lemma handleCheckIn_status_by_hour_witness :
  (exists r, snd (handleCheckIn env0 morning page0 []) = [] ++ [r] /\
             status r = present) /\
  (exists r, snd (handleCheckIn env0 nine page0 []) = [] ++ [r] /\
             status r = late).
Proof.
  split.
  - destruct (handleCheckIn_status_by_hour env0 morning page0
                (fst (handleCheckIn env0 morning page0 []))
                [] (snd (handleCheckIn env0 morning page0 [])))
      as (r & Ht & _ & _ & _ & Hp & _).
    + reflexivity.
    + vm_compute. discriminate.
    + exists r. split; [exact Ht |]. apply Hp. simpl. lia.
  - destruct (handleCheckIn_status_by_hour env0 nine page0
                (fst (handleCheckIn env0 nine page0 []))
                [] (snd (handleCheckIn env0 nine page0 [])))
      as (r & Ht & _ & _ & _ & _ & Hl).
    + reflexivity.
    + vm_compute. discriminate.
    + exists r. split; [exact Ht |]. apply Hl. simpl. lia.
Defined.

(** An update by [id] on a table that holds that [id] once, with no
    fault, returns the row with the new check-out and notes. *)
Lemma update_attendance_one e i co n tbl x :
  fault e = None ->
  filter (fun r => id r = i) tbl = [x] ->
  update_attendance e i co n tbl =
    (Data {| id := id x; user_id := user_id x; date := date x;
             check_in := check_in x; check_out := co;
             status := status x; notes := n |},
     update_where_id i
       (fun r => {| id := id r; user_id := user_id r; date := date r;
                    check_in := check_in r; check_out := co;
                    status := status r; notes := n |}) tbl).
Proof.
  intros Hf Hx. unfold update_attendance. rewrite Hf, Hx. reflexivity.
Qed.

(** C2, as the code has it: with no record for today the handler returns
    at once, raising nothing and writing nothing; the page offers the
    check-out control exactly while today's record has no check-out;
    and a check-out that goes through stores the current time as
    [check_out] whatever the record held before, in the table, where
    the row of that [id] is replaced and every other row kept, and on
    the page, which then shows "Attendance Complete" and on which a
    further click changes nothing. *)
Theorem handleCheckOut_guarded_by_page
    (e : env) (now : JsDate) (st : Page) (tbl : list attendance) :
  (todayAttendance st = None -> handleCheckOut e now st tbl = (st, tbl)) /\
  (action st = CheckOutButton <->
   exists r, todayAttendance st = Some r /\ check_out r = None) /\
  (forall r x,
     todayAttendance st = Some r ->
     fault e = None ->
     filter (fun y => id y = id r) tbl = [x] ->
     exists r',
       todayAttendance (fst (handleCheckOut e now st tbl)) = Some r' /\
       check_out r' = Some (getTime now) /\
       check_in r' = check_in x /\ status r' = status x /\
       action (fst (handleCheckOut e now st tbl)) = AttendanceComplete /\
       (forall e' now',
          click e' now' (fst (handleCheckOut e now st tbl))
                (snd (handleCheckOut e now st tbl))
          = handleCheckOut e now st tbl) /\
       r' = {| id := id x; user_id := user_id x; date := date x;
               check_in := check_in x; check_out := Some (getTime now);
               status := status x; notes := Js.or_null (notes_input st) |} /\
       snd (handleCheckOut e now st tbl)
         = map (fun y => if bool_decide (id y = id r) then
                           {| id := id y; user_id := user_id y; date := date y;
                              check_in := check_in y; check_out := Some (getTime now);
                              status := status y; notes := Js.or_null (notes_input st) |}
                         else y) tbl /\
       r' ∈ snd (handleCheckOut e now st tbl) /\
       length (snd (handleCheckOut e now st tbl)) = length tbl).
Proof.
  split; [| split].
  - intros H. unfold handleCheckOut. rewrite H. reflexivity.
  - unfold action. split.
    + destruct (todayAttendance st) as [r |]; [| discriminate].
      destruct (check_out r) eqn:Hco; [discriminate |]. eauto.
    + intros (r & -> & ->). reflexivity.
  - intros r x Hr Hf Hx. unfold handleCheckOut. rewrite Hr.
    rewrite (update_attendance_one _ _ _ _ _ x Hf Hx). simpl.
    eexists. split; [reflexivity |]. repeat (split; [reflexivity |]).
    split; [| apply length_map].
    assert (Hin : x ∈ filter (fun y => id y = id r) tbl) by (rewrite Hx; left).
    apply list_elem_of_filter in Hin as [Hid Hin].
    unfold update_where_id. apply list_elem_of_fmap. exists x. split; [| exact Hin].
    rewrite bool_decide_eq_true_2 by exact Hid. reflexivity.
Qed.

(** A check-out with no record, and one at 17:30 on the row checked in
    at 09:00. *)
Lemma handleCheckOut_guarded_by_page_witness :
  handleCheckOut env0 evening page0 [] = (page0, []) /\
  exists r',
    todayAttendance (fst (handleCheckOut env0 evening (page_of row_in) [row_in]))
      = Some r' /\
    check_out r' = Some (getTime evening) /\
    snd (handleCheckOut env0 evening (page_of row_in) [row_in]) = [row_out].
Proof.
  split.
  - apply (handleCheckOut_guarded_by_page env0 evening page0 []). reflexivity.
  - destruct (proj2 (proj2 (handleCheckOut_guarded_by_page env0 evening
                              (page_of row_in) [row_in])) row_in row_in)
      as (r' & H1 & H2 & _ & _ & _ & _ & _ & H3 & _);
      [reflexivity | reflexivity | reflexivity |].
    exists r'. split; [exact H1 |]. split; [exact H2 |]. rewrite H3. reflexivity.
Defined.

(** C2, as the claim has it, fails: a check-out with no record for
    today ends without any error (no toast, the page and the table as
    they were), and a check-out on a record whose [check_out] is set
    succeeds and overwrites it. *)
Lemma handleCheckOut_raises_nothing :
  todayAttendance page0 = None /\
  handleCheckOut env0 evening page0 [] = (page0, []) /\
  check_out row_out = Some 1769103000000 /\
  handleCheckOut env0 night (page_of row_out) [row_out] =
    ({| user := Some "u1";
        todayAttendance :=
          Some {| id := "a1"; user_id := "u1"; date := "2026-01-22";
                  check_in := Some 1769072400000;
                  check_out := Some 1769119200000;
                  status := late; notes := None |};
        isSubmitting := false; notes_input := "";
        toasts := [{| title := "Check-out successful!";
                      description := "You checked out at 10:00 PM";
                      destructive := false |}] |},
     [{| id := "a1"; user_id := "u1"; date := "2026-01-22";
         check_in := Some 1769072400000; check_out := Some 1769119200000;
         status := late; notes := None |}]).
Proof. repeat split. Qed.

(** The duration is read off [todayAttendance] alone. *)
Lemma calculateWorkHours_pure (st st' : Page) :
  todayAttendance st = todayAttendance st' ->
  calculateWorkHours st = calculateWorkHours st'.
Proof. unfold calculateWorkHours. intros ->. reflexivity. Qed.

(** C7: [calculateWorkHours] depends on today's record only; it is
    [null] when the record, its check-in or its check-out is missing;
    with both instants, the later not before the earlier, it gives
    ["<h>h <m>m"] where [60 * h + m] is the number of whole minutes in
    the difference (so nothing is rounded up) and [0 <= m < 60]; from
    09:00:00 to 17:30:00 that is ["8h 30m"]. *)
Theorem calculateWorkHours_floor (st : Page) :
  (forall st', todayAttendance st = todayAttendance st' ->
               calculateWorkHours st = calculateWorkHours st') /\
  (todayAttendance st = None -> calculateWorkHours st = None) /\
  (forall r, todayAttendance st = Some r ->
             check_in r = None \/ check_out r = None ->
             calculateWorkHours st = None) /\
  (forall r ci co,
     todayAttendance st = Some r -> check_in r = Some ci -> check_out r = Some co ->
     ci <= co ->
     exists h m,
       calculateWorkHours st = Some (pretty h +:+ "h " +:+ pretty m +:+ "m") /\
       0 <= h /\ 0 <= m < 60 /\
       60 * h + m = (co - ci) / 60000 /\
       (60 * h + m) * 60000 <= co - ci < (60 * h + m + 1) * 60000) /\
  (forall r ci,
     todayAttendance st = Some r -> check_in r = Some ci ->
     check_out r = Some (ci + (8 * 60 + 30) * 60000) ->
     calculateWorkHours st = Some "8h 30m").
Proof.
  split; [apply calculateWorkHours_pure |].
  unfold calculateWorkHours.
  split; [intros ->; reflexivity |].
  split.
  { intros r -> [-> | ->]; [reflexivity |]. destruct (check_in r); reflexivity. }
  split.
  - intros r ci co -> -> -> Hle.
    exists ((co - ci) / (1000 * 60 * 60)),
           (Z.rem (co - ci) (1000 * 60 * 60) / (1000 * 60)).
    split; [reflexivity |].
    assert (Hd : 0 <= co - ci) by lia.
    rewrite Z.rem_mod_nonneg by lia.
    set (d := co - ci) in *.
    change (1000 * 60 * 60) with 3600000. change (1000 * 60) with 60000.
    assert (H1 := Z.div_mod d 3600000 ltac:(lia)).
    assert (H2 := Z.mod_pos_bound d 3600000 ltac:(lia)).
    assert (H3 := Z.div_mod (d mod 3600000) 60000 ltac:(lia)).
    assert (H4 := Z.mod_pos_bound (d mod 3600000) 60000 ltac:(lia)).
    assert (H5 := Z.div_mod d 60000 ltac:(lia)).
    assert (H6 := Z.mod_pos_bound d 60000 ltac:(lia)).
    assert (Hh : 0 <= d / 3600000) by (apply Z.div_pos; lia).
    assert (Hm : 0 <= d mod 3600000 / 60000) by (apply Z.div_pos; lia).
    assert (Hq : 60 * (d / 3600000) + d mod 3600000 / 60000 = d / 60000).
    { apply (Z.div_unique d 60000 _ ((d mod 3600000) mod 60000)); lia. }
    repeat split; try lia.
  - intros r ci -> -> ->.
    replace (ci + (8 * 60 + 30) * 60000 - ci) with 30600000 by lia.
    reflexivity.
Qed.

(** The row checked in at 09:00:00 and out at 17:30:00. *)
Lemma calculateWorkHours_floor_witness :
  calculateWorkHours (page_of row_out) = Some "8h 30m".
Proof.
  apply (proj2 (proj2 (proj2 (proj2 (calculateWorkHours_floor (page_of row_out)))))
           row_out 1769072400000); reflexivity.
Defined.

End AttendanceFacts.

(** ** Aggregations of the reports and the dashboard *)

Module ReportsFacts.
Import Db Reports Sample.

Lemma count_status_Permutation s (l l' : list attendance) :
  l ≡ₚ l' -> count_status s l = count_status s l'.
Proof. intros H. unfold count_status. rewrite H. reflexivity. Qed.

Lemma stats_Permutation (l l' : list attendance) :
  l ≡ₚ l' -> stats l = stats l'.
Proof.
  intros H. unfold stats.
  rewrite !(count_status_Permutation _ l l' H). reflexivity.
Qed.

(** C6: on the dashboard the rate is the quotient of the number of
    [present] and [late] records by the number of records, times 100, in
    the arithmetic of doubles, and the reports page shows that number
    with one decimal; with no record both are [0]; and whenever 10
    records hold 7 [present], 1 [late] and 2 [absent], the rate is 80,
    shown as ["80.0"]. *)
Theorem attendanceRate_formula (l : list attendance) :
  let p := count_status present l in
  let la := count_status late l in
  let t := length l in
  (t <> 0%nat ->
     Dashboard.attendanceRate (Dashboard.month_stats l)
       = (Js.number_of_nat (p + la) / Js.number_of_nat t * 100)%float /\
     attendanceRate l
       = RateText (Js.toFixed1 (Dashboard.attendanceRate (Dashboard.month_stats l)))) /\
  (t = 0%nat ->
     Dashboard.attendanceRate (Dashboard.month_stats l) = 0%float /\
     attendanceRate l = RateZero) /\
  (t = 10%nat -> p = 7%nat -> la = 1%nat -> count_status absent l = 2%nat ->
     Dashboard.attendanceRate (Dashboard.month_stats l) = 80%float /\
     attendanceRate l = RateText "80.0").
Proof.
  cbv zeta. unfold attendanceRate, Dashboard.month_stats, stats. simpl.
  fold (count_status present l) (count_status late l).
  split; [| split].
  - intros Ht. destruct (length l) as [| n] eqn:E; [congruence |]. simpl. split; reflexivity.
  - intros ->. split; reflexivity.
  - intros -> -> -> _. simpl. split; reflexivity.
Qed.

(** Ten records with 7 [present], 1 [late] and 2 [absent], and no
    records. *)
Lemma attendanceRate_formula_witness :
  Dashboard.attendanceRate (Dashboard.month_stats ten_records) = 80%float /\
  attendanceRate ten_records = RateText "80.0" /\
  attendanceRate [] = RateZero.
Proof.
  split; [| split].
  - apply (attendanceRate_formula ten_records); reflexivity.
  - apply (attendanceRate_formula ten_records); reflexivity.
  - apply (attendanceRate_formula []). reflexivity.
Defined.

Lemma tally_comm (s1 s2 : attendance_status) (w : Week) :
  tally s1 (tally s2 w) = tally s2 (tally s1 w).
Proof. destruct s1, s2; reflexivity. Qed.

Lemma record_week_map_comm k1 s1 k2 s2 (m : gmap string Week) :
  record_week_map k1 s1 (record_week_map k2 s2 m)
  = record_week_map k2 s2 (record_week_map k1 s1 m).
Proof.
  unfold record_week_map. destruct (decide (k1 = k2)) as [-> | Hne].
  - rewrite !lookup_insert_eq, !insert_insert_eq. simpl.
    rewrite tally_comm. reflexivity.
  - rewrite (lookup_insert_ne _ k2 k1) by congruence.
    rewrite (lookup_insert_ne _ k1 k2) by congruence.
    apply insert_insert_ne. congruence.
Qed.

(** The list of entries and the finite map take the same step. *)
Lemma record_week_as_map k s (ws : list (string * Week)) :
  (list_to_map (record_week k s ws) : gmap string Week)
  = record_week_map k s (list_to_map ws).
Proof.
  unfold record_week_map. induction ws as [| [k' w] rest IH]; simpl.
  - rewrite lookup_empty. reflexivity.
  - destruct (String.eqb_spec k' k) as [-> | Hne]; simpl.
    + rewrite lookup_insert_eq, insert_insert_eq. reflexivity.
    + rewrite IH. rewrite lookup_insert_ne by congruence.
      apply insert_insert_ne. congruence.
Qed.

Lemma record_week_keys k s (ws : list (string * Week)) k' :
  k' ∈ (record_week k s ws).*1 -> k' = k \/ k' ∈ ws.*1.
Proof.
  induction ws as [| [k0 w] rest IH]; simpl.
  - rewrite list_elem_of_singleton. auto.
  - destruct (String.eqb_spec k0 k) as [-> | Hne]; simpl.
    + auto.
    + rewrite !elem_of_cons. intros [-> | H]; [auto |].
      destruct (IH H); auto.
Qed.

Lemma record_week_NoDup k s (ws : list (string * Week)) :
  NoDup ws.*1 -> NoDup (record_week k s ws).*1.
Proof.
  induction ws as [| [k0 w] rest IH]; simpl.
  - intros _. apply NoDup_singleton.
  - rewrite NoDup_cons. intros [Hin Hnd].
    destruct (String.eqb_spec k0 k) as [-> | Hne]; simpl.
    + apply NoDup_cons. auto.
    + apply NoDup_cons. split; [| auto].
      intros H. destruct (record_week_keys _ _ _ _ H) as [Hk | Hk];
        [congruence | exact (Hin Hk)].
Qed.

Section WeeklyFacts.

Variable getDate : string -> Z.

Lemma weeks_from_NoDup (l : list attendance) (ws : list (string * Week)) :
  NoDup ws.*1 ->
  NoDup (fold_left (fun weeks r => record_week (weekNum getDate r) (status r) weeks) l ws).*1.
Proof.
  revert ws. induction l as [| r l IH]; simpl; intros ws H; [exact H |].
  apply IH, record_week_NoDup, H.
Qed.

Lemma weeks_from_as_map (l : list attendance) (ws : list (string * Week)) :
  (list_to_map
     (fold_left (fun weeks r => record_week (weekNum getDate r) (status r) weeks) l ws)
   : gmap string Week)
  = fold_left (fun m r => record_week_map (weekNum getDate r) (status r) m) l
      (list_to_map ws).
Proof.
  revert ws. induction l as [| r l IH]; simpl; intros ws; [reflexivity |].
  rewrite IH, record_week_as_map. reflexivity.
Qed.

Lemma weeks_map_Permutation (l l' : list attendance) :
  l ≡ₚ l' ->
  forall m : gmap string Week,
    fold_left (fun m r => record_week_map (weekNum getDate r) (status r) m) l m
    = fold_left (fun m r => record_week_map (weekNum getDate r) (status r) m) l' m.
Proof.
  induction 1 as [| x l l' _ IH | x y l | l1 l2 l3 _ IH1 _ IH2]; intros m; simpl.
  - reflexivity.
  - apply IH.
  - rewrite record_week_map_comm. reflexivity.
  - rewrite IH1. apply IH2.
Qed.

Lemma weeks_Permutation (l l' : list attendance) :
  l ≡ₚ l' -> weeks getDate l ≡ₚ weeks getDate l'.
Proof.
  intros H. unfold weeks.
  apply (list_to_map_inj (M := gmap string)).
  - apply weeks_from_NoDup. apply NoDup_nil_2.
  - apply weeks_from_NoDup. apply NoDup_nil_2.
  - rewrite !weeks_from_as_map. apply weeks_map_Permutation, H.
Qed.

(** C8, as the code has it: for every reordering of the records the
    status counts, the pie slices and both attendance rates are equal,
    and [weeklyData] holds the same rows, possibly in another order; on
    no records the counts are zero, the rates [0] and the lists empty. *)
Theorem aggregations_Permutation (l l' : list attendance) :
  (l ≡ₚ l' ->
     stats l = stats l' /\
     pieData l = pieData l' /\
     attendanceRate l = attendanceRate l' /\
     Dashboard.month_stats l = Dashboard.month_stats l' /\
     weeklyData getDate l ≡ₚ weeklyData getDate l') /\
  stats [] = {| n_present := 0; n_late := 0; n_absent := 0;
                n_half_day := 0; n_leave := 0 |} /\
  pieData [] = [] /\
  attendanceRate [] = RateZero /\
  Dashboard.attendanceRate (Dashboard.month_stats []) = 0%float /\
  weeklyData getDate [] = [].
Proof.
  split; [| repeat split].
  intros H. assert (Hs := stats_Permutation l l' H).
  split; [exact Hs |].
  split; [unfold pieData; rewrite Hs; reflexivity |].
  split.
  { unfold attendanceRate. rewrite Hs, (Permutation_length H). reflexivity. }
  split.
  { unfold Dashboard.month_stats.
    fold (count_status present l) (count_status late l) (count_status absent l).
    fold (count_status present l') (count_status late l') (count_status absent l').
    rewrite !(count_status_Permutation _ l l' H), (Permutation_length H).
    reflexivity. }
  unfold weeklyData. apply Permutation_map, weeks_Permutation, H.
Qed.

End WeeklyFacts.

(** A record of the 8th and one of the 1st, in both orders. *)
Lemma aggregations_Permutation_witness :
  stats [row_day8; row_day1] = stats [row_day1; row_day8] /\
  weeklyData getDate_UTC [row_day8; row_day1]
    ≡ₚ weeklyData getDate_UTC [row_day1; row_day8].
Proof.
  destruct (proj1 (aggregations_Permutation getDate_UTC
                     [row_day8; row_day1] [row_day1; row_day8]))
    as (H1 & _ & _ & _ & H5).
  - apply perm_swap.
  - split; assumption.
Defined.

(** C8, as the claim has it, fails for [weeklyData]: the same two
    records in the two orders give its rows in two orders. *)
Lemma weeklyData_order_dependent :
  [row_day8; row_day1] ≡ₚ [row_day1; row_day8] /\
  weeklyData getDate_UTC [row_day8; row_day1]
    = [ {| name := "Week 2"; row_present := 1; row_late := 0; row_absent := 0 |};
        {| name := "Week 1"; row_present := 0; row_late := 0; row_absent := 1 |} ] /\
  weeklyData getDate_UTC [row_day1; row_day8]
    = [ {| name := "Week 1"; row_present := 0; row_late := 0; row_absent := 1 |};
        {| name := "Week 2"; row_present := 1; row_late := 0; row_absent := 0 |} ] /\
  weeklyData getDate_UTC [row_day8; row_day1]
    <> weeklyData getDate_UTC [row_day1; row_day8].
Proof.
  split; [apply perm_swap |].
  split; [vm_compute; reflexivity |].
  split; [vm_compute; reflexivity |].
  vm_compute. discriminate.
Qed.

End ReportsFacts.

(** ** Role administration *)

Module AdminUsersFacts.
Import Db AdminUsers Sample.

(** After a delete that went through, an insert for the same user can
    only fail by a fault or by a role text outside [app_role]. *)
Lemma insert_after_delete_fails fi uid newRole (tbl : list user_role) message :
  fst (insert_role fi uid newRole (filter (fun r => role_user_id r <> uid) tbl))
    = Error message <->
  fi = Some message \/
  (fi = None /\ app_role_of_string newRole = None /\
   message = "invalid input value for enum app_role").
Proof.
  unfold insert_role. destruct fi as [msg |]; simpl.
  - split; [intros [= ->]; auto | intros [[= ->] | (H & _)]; [reflexivity | discriminate]].
  - destruct (app_role_of_string newRole) as [r |]; simpl.
    + assert (Hex : existsb
                (fun x => bool_decide (role_user_id x = uid) && bool_decide (role x = r))
                (filter (fun r => role_user_id r <> uid) tbl) = false).
      { apply not_true_is_false. rewrite existsb_exists.
        intros (x & Hin & Hx). apply list_elem_of_In, list_elem_of_filter in Hin.
        destruct Hin as [Hne _]. apply andb_true_iff in Hx as [Hx _].
        apply bool_decide_eq_true in Hx. contradiction. }
      rewrite Hex. simpl. split; [discriminate |].
      intros [H | (_ & H & _)]; discriminate.
    + split; [intros [= <-]; auto |].
      intros [H | (_ & _ & ->)]; [discriminate | reflexivity].
Qed.

(** C10: a role change deletes the user's role rows and then inserts the
    new row in a second request.  When both go through, the user holds
    exactly the new role.  When the insert fails after the delete went
    through, the failure is reported, the page keeps the old role, and
    the table is left with no role row for the user (the other users'
    rows as they were), so it is not the table from before whenever the
    user had a row. *)
Theorem handleRoleChange_not_atomic
    (fi : option string) (userId newRole : string) (st : Page)
    (tbl : list user_role) :
  let deleted := filter (fun r => role_user_id r <> userId) tbl in
  (forall r, fi = None -> app_role_of_string newRole = Some r ->
     handleRoleChange None fi userId newRole st tbl =
       ({| userRoles := <[userId := newRole]> (userRoles st);
           toasts := toasts st ++
             [{| Attendance.title := "Role updated";
                 Attendance.description := "User role has been updated successfully.";
                 Attendance.destructive := false |}] |},
        deleted ++ [{| role_user_id := userId; role := r |}])) /\
  (forall message,
     fst (insert_role fi userId newRole deleted) = Error message ->
     handleRoleChange None fi userId newRole st tbl =
       ({| userRoles := userRoles st;
           toasts := toasts st ++
             [{| Attendance.title := "Failed to update role";
                 Attendance.description := message;
                 Attendance.destructive := true |}] |},
        deleted) /\
     (forall r, r ∈ deleted -> role_user_id r <> userId) /\
     (forall r, role_user_id r <> userId -> r ∈ deleted <-> r ∈ tbl) /\
     ((exists r, r ∈ tbl /\ role_user_id r = userId) -> deleted <> tbl)).
Proof.
  cbv zeta. split.
  - intros r -> Hr. unfold handleRoleChange. simpl. unfold insert_role. rewrite Hr.
    assert (Hex : existsb
              (fun x => bool_decide (role_user_id x = userId) && bool_decide (role x = r))
              (filter (fun r => role_user_id r <> userId) tbl) = false).
    { apply not_true_is_false. rewrite existsb_exists.
      intros (x & Hin & Hx). apply list_elem_of_In, list_elem_of_filter in Hin.
      destruct Hin as [Hne _]. apply andb_true_iff in Hx as [Hx _].
      apply bool_decide_eq_true in Hx. contradiction. }
    rewrite Hex. reflexivity.
  - intros message Hfail. split; [| split; [| split]].
    + unfold handleRoleChange. simpl.
      destruct (insert_role fi userId newRole
                  (filter (fun r => role_user_id r <> userId) tbl)) as [res tbl'] eqn:E.
      simpl in Hfail. subst res.
      assert (tbl' = filter (fun r => role_user_id r <> userId) tbl) as ->.
      { revert E. unfold insert_role. destruct fi; [intros [= _ <-]; reflexivity |].
        destruct (app_role_of_string newRole); [| intros [= _ <-]; reflexivity].
        destruct (existsb _ _); intros [= _ <-]; reflexivity || discriminate. }
      reflexivity.
    + intros r Hin. apply list_elem_of_filter in Hin. tauto.
    + intros r Hne. rewrite list_elem_of_filter. tauto.
    + intros (r & Hin & Hr) Heq. rewrite <- Heq in Hin.
      apply list_elem_of_filter in Hin. tauto.
Qed.

(** Making [u1] an administrator when the insert request fails: [u1] is
    left without a role row. *)
Lemma handleRoleChange_not_atomic_witness :
  handleRoleChange None (Some "Failed to fetch") "u1" "admin" admin_page0 roles0 =
    ({| userRoles := userRoles admin_page0;
        toasts := [{| Attendance.title := "Failed to update role";
                      Attendance.description := "Failed to fetch";
                      Attendance.destructive := true |}] |},
     [{| role_user_id := "u2"; role := admin |}]).
Proof.
  apply (proj2 (handleRoleChange_not_atomic (Some "Failed to fetch") "u1" "admin"
                  admin_page0 roles0) "Failed to fetch").
  reflexivity.
Defined.

End AdminUsersFacts.

(** ** The gateway *)

Module GatewayFacts.
Import Db Gateway Sample.

(** A request that is forwarded is answered by the translation of the
    upstream response. *)
Lemma handler_forwarded (w : World) (req : Request) (r : Upstream) :
  forwarded w req r -> handler w req = translate r.
Proof.
  intros (authHeader & uid & key & messages & Hm & Hb & Ha & Hne & Hu & Hk & Hkne & Hf).
  unfold handler. rewrite Hm, Hb, Ha.
  destruct (String.eqb_spec authHeader "") as [| _]; [contradiction |].
  rewrite Hu, Hk.
  destruct (String.eqb_spec key "") as [| _]; [contradiction |].
  rewrite Hf. reflexivity.
Qed.

(** C5: when the upstream answers a forwarded request with a status
    outside 200..299, the gateway answers 429 with the rate-limit error
    for 429, 402 with the payment-required error for 402, and otherwise
    500 with the fixed text "AI gateway error", the upstream status and
    body going to the error log and not into the response. *)
Theorem upstream_status_translation (w : World) (req : Request) (r : Upstream) :
  forwarded w req r ->
  ok r = false ->
  (up_status r = 429 ->
     handler w req = (json_response 429 "Rate limit exceeded", []) /\
     res_status (fst (handler w req)) = 429 /\
     res_body (fst (handler w req))
       = Some ("{" +:+ dq +:+ "error" +:+ dq +:+ ":" +:+ dq +:+ "Rate limit exceeded"
               +:+ dq +:+ "}") /\
     snd (handler w req) = []) /\
  (up_status r = 402 ->
     handler w req = (json_response 402 "Payment required", []) /\
     res_status (fst (handler w req)) = 402 /\
     res_body (fst (handler w req))
       = Some ("{" +:+ dq +:+ "error" +:+ dq +:+ ":" +:+ dq +:+ "Payment required"
               +:+ dq +:+ "}") /\
     snd (handler w req) = []) /\
  (up_status r <> 429 -> up_status r <> 402 ->
     handler w req =
       (json_response 500 "AI gateway error",
        ["AI gateway error: " +:+ pretty (up_status r) +:+ " " +:+ up_body r]) /\
     res_status (fst (handler w req)) = 500 /\
     res_body (fst (handler w req))
       = Some ("{" +:+ dq +:+ "error" +:+ dq +:+ ":" +:+ dq +:+ "AI gateway error"
               +:+ dq +:+ "}") /\
     snd (handler w req)
       = ["AI gateway error: " +:+ pretty (up_status r) +:+ " " +:+ up_body r]) /\
  res_headers (fst (handler w req))
    = [ ("Access-Control-Allow-Origin", "*");
        ("Access-Control-Allow-Headers",
         "authorization, x-client-info, apikey, content-type");
        ("Content-Type", "application/json") ].
Proof.
  intros Hfw Hok. rewrite (handler_forwarded w req r Hfw).
  unfold translate. rewrite Hok. cbn [negb].
  split; [| split; [| split]].
  - intros ->. repeat split.
  - intros ->. repeat split.
  - intros H1 H2.
    destruct (Z.eqb_spec (up_status r) 429) as [| _]; [contradiction |].
    destruct (Z.eqb_spec (up_status r) 402) as [| _]; [contradiction |].
    repeat split.
  - destruct (up_status r =? 429); [reflexivity |].
    destruct (up_status r =? 402); reflexivity.
Qed.

Lemma chat_request_forwarded (st : Z) (text : string) :
  forwarded (world_answering st text) chat_request
    {| up_status := st; up_body := text |}.
Proof.
  exists "Bearer token-u1", "u1", "key",
    [{| msg_role := "user"; msg_content := "Was I late?" |}].
  repeat split; discriminate.
Qed.

(** Upstream answers 429, 402 and 503. *)
Lemma upstream_status_translation_witness :
  (handler (world_answering 429 "slow down") chat_request
     = (json_response 429 "Rate limit exceeded", []) /\
   res_status (fst (handler (world_answering 429 "slow down") chat_request)) = 429) /\
  (handler (world_answering 402 "pay") chat_request
     = (json_response 402 "Payment required", []) /\
   res_status (fst (handler (world_answering 402 "pay") chat_request)) = 402) /\
  (handler (world_answering 503 "upstream secret") chat_request
     = (json_response 500 "AI gateway error",
        ["AI gateway error: 503 upstream secret"]) /\
   res_status (fst (handler (world_answering 503 "upstream secret") chat_request)) = 500 /\
   res_body (fst (handler (world_answering 503 "upstream secret") chat_request))
     = Some ("{" +:+ dq +:+ "error" +:+ dq +:+ ":" +:+ dq +:+ "AI gateway error"
             +:+ dq +:+ "}")).
Proof.
  split; [| split].
  - destruct (proj1 (upstream_status_translation _ _ _
                       (chat_request_forwarded 429 "slow down") eq_refl) eq_refl)
      as (H1 & H2 & _).
    split; assumption.
  - destruct (proj1 (proj2 (upstream_status_translation _ _ _
                              (chat_request_forwarded 402 "pay") eq_refl)) eq_refl)
      as (H1 & H2 & _).
    split; assumption.
  - assert (N1 : 503 <> 429) by discriminate.
    assert (N2 : 503 <> 402) by discriminate.
    destruct (proj1 (proj2 (proj2 (upstream_status_translation _ _ _
                (chat_request_forwarded 503 "upstream secret") eq_refl))) N1 N2)
      as (H1 & H2 & H3 & _).
    split; [exact H1 |]. split; assumption.
Defined.

(** A forwarded request whose upstream answer is a success is answered
    200 with the upstream body as an event stream, whatever the
    attendance fetch returned. *)
Lemma handler_streams (w : World) (req : Request) (r : Upstream) :
  forwarded w req r ->
  ok r = true ->
  handler w req =
    ({| res_status := 200;
        res_headers := corsHeaders ++ [("Content-Type", "text/event-stream")];
        res_body := Some (up_body r) |}, []).
Proof.
  intros Hfw Hok. rewrite (handler_forwarded w req r Hfw).
  unfold translate. rewrite Hok. reflexivity.
Qed.

(** The placeholder stands for a fetch that returned no array; an empty
    array gives the heading with no line under it. *)
Lemma attendanceContext_cases (w : World) :
  attendanceContext w None = "No attendance records found." /\
  attendanceContext w (Some [])
    = "User's recent attendance records (last 100 days):" +:+ nl /\
  attendanceContext w (Some []) <> "No attendance records found.".
Proof. repeat split. discriminate. Qed.

(** C3 at a caller with no attendance rows: the request is answered 200
    with the stream, but the system message the upstream receives (which
    this upstream streams back) carries the heading of the transcript
    and not the sentence "No attendance records found.". *)
Theorem empty_attendance_context :
  Gateway.fetch_attendance echo_world "u1" = Some [] /\
  res_status (fst (handler echo_world chat_request)) = 200 /\
  res_body (fst (handler echo_world chat_request))
    = Some (systemPrompt echo_world (fetch_profile echo_world "u1") (Some [])) /\
  Js.includes "No attendance records found."
    (systemPrompt echo_world (fetch_profile echo_world "u1") (Some [])) = false /\
  Js.includes ("User's recent attendance records (last 100 days):" +:+ nl +:+ nl +:+ nl
                 +:+ "Guidelines:")
    (systemPrompt echo_world (fetch_profile echo_world "u1") (Some [])) = true.
Proof. repeat split; vm_compute; reflexivity. Qed.

End GatewayFacts.

(** ** The runtime functions on sample values *)

Module RuntimeFacts.
Import AIAssistant JsonText Sample.

Example JSON_parse_hello : JSON_parse hello_json = Some hello_value.
Proof. vm_compute. reflexivity. Qed.

Example JSON_parse_values :
  JSON_parse " [1, 2.5, true, null, -0.1e1, {}] "
  = Some (JArr [JNum 1; JNum 2.5; JBool true; JNull; JNum (-1); JObj []]) /\
  JSON_parse "0.1" = Some (JNum (1 / 10)) /\
  JSON_parse "1e400" = Some (JNum infinity).
Proof. repeat split; vm_compute; reflexivity. Qed.

Example JSON_parse_throws :
  JSON_parse "{" = None /\ JSON_parse "" = None /\ JSON_parse "01" = None /\
  JSON_parse "[1,]" = None /\ JSON_parse "1 2" = None /\ JSON_parse "nul" = None.
Proof. repeat split. Qed.

Example Number_toString_values :
  Number_toString 80 = "80" /\
  Number_toString (1 / 10) = "0.1" /\
  Number_toString (1 / 10 + 2 / 10) = "0.30000000000000004" /\
  Number_toString (100 / 3) = "33.333333333333336" /\
  Number_toString (7 / 9 * 100) = "77.77777777777779" /\
  Number_toString (1 / 10000000) = "1e-7" /\
  Number_toString (-5 / 2) = "-2.5".
Proof. repeat split; vm_compute; reflexivity. Qed.

Example toFixed1_values :
  Js.toFixed1 (8 / 10 * 100) = "80.0" /\
  Js.toFixed1 (1 / 3 * 100) = "33.3" /\
  Js.toFixed1 (2 / 3 * 100) = "66.7" /\
  Js.toFixed1 (1 / 4) = "0.3" /\
  Js.toFixed1 (1 / 8) = "0.1" /\
  Js.toFixed1 100 = "100.0".
Proof. repeat split; vm_compute; reflexivity. Qed.

End RuntimeFacts.

(** ** Strings *)

Module JsFacts.
Import Js.

Lemma append_cons (a : ascii) (s t : string) : String a s +:+ t = String a (s +:+ t).
Proof. reflexivity. Qed.

Lemma append_empty_r (s : string) : s +:+ EmptyString = s.
Proof.
  induction s as [| a s IH]; [reflexivity |]. rewrite append_cons, IH. reflexivity.
Qed.

Lemma append_assoc (s t u : string) : (s +:+ t) +:+ u = s +:+ (t +:+ u).
Proof.
  induction s as [| a s IH]; [reflexivity |]. rewrite !append_cons, IH. reflexivity.
Qed.

(** A newline found in [s] is found at the same place in [s +:+ t],
    with the same line before it and [t] added to what follows. *)
Lemma indexOf_app (c : ascii) (s t : string) (i : nat) :
  indexOf c s = Some i ->
  indexOf c (s +:+ t) = Some i /\
  slice_to i (s +:+ t) = slice_to i s /\
  slice_from (S i) (s +:+ t) = slice_from (S i) s +:+ t.
Proof.
  revert i. induction s as [| a s IH]; intros i; simpl; [discriminate |].
  rewrite append_cons. simpl.
  destruct (Ascii.eqb a c).
  - intros [= <-]. simpl. auto.
  - destruct (indexOf c s) as [j |]; [| discriminate].
    intros [= <-]. destruct (IH j eq_refl) as (-> & H2 & H3).
    simpl in *. rewrite H2, H3. auto.
Qed.

(** The first newline of [line +:+ LF +:+ rest] when [line] has none. *)
Lemma indexOf_line (c : ascii) (line rest : string) :
  indexOf c line = None ->
  indexOf c (line +:+ String c rest) = Some (String.length line) /\
  slice_to (String.length line) (line +:+ String c rest) = line /\
  slice_from (S (String.length line)) (line +:+ String c rest) = rest.
Proof.
  induction line as [| a line IH]; simpl.
  - intros _. rewrite Ascii.eqb_refl. auto.
  - destruct (Ascii.eqb a c); [discriminate |].
    destruct (indexOf c line); [discriminate |]. intros _.
    destruct (IH eq_refl) as (-> & H2 & H3). rewrite H2. auto.
Qed.

(** What [indexOf] finds splits the string. *)
Lemma indexOf_split (c : ascii) (s : string) (i : nat) :
  indexOf c s = Some i ->
  s = slice_to i s +:+ String c (slice_from (S i) s) /\
  indexOf c (slice_to i s) = None /\
  (String.length (slice_from (S i) s) < String.length s)%nat.
Proof.
  revert i. induction s as [| a s IH]; intros i; simpl; [discriminate |].
  destruct (Ascii.eqb_spec a c) as [-> | Hne].
  - intros [= <-]. simpl. repeat split. lia.
  - destruct (indexOf c s) as [j |] eqn:E; [| discriminate].
    intros [= <-]. destruct (IH j eq_refl) as (H1 & H2 & H3).
    change (slice_to (S j) (String a s)) with (String a (slice_to j s)).
    change (slice_from (S (S j)) (String a s)) with (slice_from (S j) s).
    rewrite append_cons, <- H1. simpl indexOf.
    destruct (Ascii.eqb_spec a c); [contradiction |]. rewrite H2.
    repeat split. lia.
Qed.

Lemma indexOf_String_None (c a : ascii) (s : string) :
  Ascii.eqb a c = false -> indexOf c s = None -> indexOf c (String a s) = None.
Proof. intros Ha Hs. simpl. rewrite Ha, Hs. reflexivity. Qed.

Lemma indexOf_drop_last (c : ascii) (s : string) :
  indexOf c s = None -> indexOf c (drop_last s) = None.
Proof.
  induction s as [| a s IH]; simpl; [reflexivity |].
  destruct (Ascii.eqb a c) eqn:E; [discriminate |].
  destruct (indexOf c s); [discriminate |]. intros _.
  destruct s; [reflexivity |]. simpl in *. rewrite E.
  rewrite IH by reflexivity. reflexivity.
Qed.

Lemma trimEnd_cons_nonspace (a : ascii) (s : string) :
  is_space a = false -> trimEnd (String a s) <> EmptyString.
Proof.
  intros H. simpl. destruct (trimEnd s); [rewrite H |]; discriminate.
Qed.

Lemma trimEnd_drop_last (c : ascii) (s : string) :
  endsWith c s = true -> is_space c = true -> trimEnd (drop_last s) = trimEnd s.
Proof.
  intros He Hc. induction s as [| a s IH]; [reflexivity |].
  destruct s as [| b s].
  - simpl in He. apply Ascii.eqb_eq in He. subst a. simpl. rewrite Hc. reflexivity.
  - change (drop_last (String a (String b s))) with (String a (drop_last (String b s))).
    change (trimEnd (String a (drop_last (String b s))))
      with (match trimEnd (drop_last (String b s)) with
            | EmptyString => if is_space a then EmptyString else String a EmptyString
            | t => String a t
            end).
    rewrite IH by exact He. reflexivity.
Qed.

Lemma trim_drop_last (c : ascii) (s : string) :
  endsWith c s = true -> is_space c = true -> trim (drop_last s) = trim s.
Proof.
  intros He Hc. unfold trim. induction s as [| a s IH]; [reflexivity |].
  destruct s as [| b s].
  - simpl in He. apply Ascii.eqb_eq in He. subst a. simpl. rewrite Hc. reflexivity.
  - assert (Hd : drop_last (String a (String b s)) = String a (drop_last (String b s)))
      by reflexivity.
    assert (Ht : forall x, trimStart (String a x)
                           = if is_space a then trimStart x else String a x)
      by reflexivity.
    rewrite Hd, !Ht. destruct (is_space a).
    + apply IH. exact He.
    + rewrite <- Hd. apply (trimEnd_drop_last c); assumption.
Qed.

End JsFacts.

(** ** The stream consumer *)

Module AIAssistantFacts.
Import Js JsFacts AIAssistant Sample.

Lemma startsWith_cons (p a : ascii) (ps l : string) :
  startsWith (String p ps) (String a l) = Ascii.eqb p a && startsWith ps l.
Proof. reflexivity. Qed.

Lemma startsWith_data (l : string) :
  startsWith "data: " l = true -> exists x, l = "data: " +:+ x.
Proof.
  intros H.
  do 6 (destruct l as [| ? l]; [discriminate |];
        rewrite startsWith_cons in H;
        apply andb_true_iff in H as [?%Ascii.eqb_eq H]; subst).
  exists l. reflexivity.
Qed.

(** Dropping a final carriage return from a [data:] line leaves a
    [data:] line with the same trimmed payload. *)
Lemma data_line_strip (x : string) :
  exists x',
    (if endsWith CR ("data: " +:+ x) then drop_last ("data: " +:+ x)
     else "data: " +:+ x) = "data: " +:+ x' /\
    trim x' = trim x.
Proof.
  destruct x as [| b x].
  - exists EmptyString. split; reflexivity.
  - change (endsWith CR ("data: " +:+ String b x)) with (endsWith CR (String b x)).
    destruct (endsWith CR (String b x)) eqn:E.
    + exists (drop_last (String b x)). split; [reflexivity |].
      apply (trim_drop_last CR); [exact E | reflexivity].
    + exists (String b x). split; reflexivity.
Qed.

Section ConsumerFacts.

Variable JSON_parse : string -> option json.
Variable Number_toString : float -> string.

Local Abbreviation step_of := (step_of JSON_parse Number_toString).
Local Abbreviation process_line := (process_line JSON_parse Number_toString).
Local Abbreviation drain := (drain JSON_parse Number_toString).
Local Abbreviation on_chunk := (on_chunk JSON_parse Number_toString).
Local Abbreviation read_loop := (read_loop JSON_parse Number_toString).
Local Abbreviation Drains := (Drains JSON_parse Number_toString).
Local Abbreviation stuck := (stuck JSON_parse Number_toString).

(** What the body decides on a [data:] line. *)
Lemma step_of_data (x : string) :
  exists x',
    trim x' = trim x /\
    step_of ("data: " +:+ x) =
      if String.eqb (trim x) "[DONE]" then Stop
      else
        match
          match JSON_parse (trim x) with
          | Some parsed => delta_content parsed
          | None => None
          end
        with
        | Some content =>
            if truthy content then
              match from_option (to_string Number_toString) (Some "") content with
              | Some text => Append text
              | None => PushBack ("data: " +:+ x')
              end
            else Skip
        | None => PushBack ("data: " +:+ x')
        end.
Proof.
  destruct (data_line_strip x) as (x' & Hs & Ht).
  exists x'. split; [exact Ht |].
  unfold AIAssistant.step_of. rewrite Hs.
  change (startsWith ":" ("data: " +:+ x')) with false.
  change (startsWith "data: " ("data: " +:+ x')) with true.
  change (slice_from 6 ("data: " +:+ x')) with x'.
  assert (Hne : String.eqb (trim ("data: " +:+ x')) "" = false).
  { apply String.eqb_neq. unfold trim.
    change (trimStart ("data: " +:+ x')) with ("data: " +:+ x').
    apply trimEnd_cons_nonspace. reflexivity. }
  rewrite Hne, Ht. reflexivity.
Qed.


(** A line is pushed back only as a [data:] line, and as such it is
    pushed back again. *)
Lemma step_of_PushBack (line back : string) :
  step_of line = PushBack back ->
  back = (if endsWith CR line then drop_last line else line) /\
  exists back', step_of back = PushBack back'.
Proof.
  unfold AIAssistant.step_of at 1.
  set (l := if endsWith CR line then drop_last line else line).
  destruct (startsWith ":" l || String.eqb (trim l) ""); [discriminate |].
  destruct (startsWith "data: " l) eqn:Hd; cbn [negb]; [| discriminate].
  destruct (String.eqb (trim (slice_from 6 l)) "[DONE]") eqn:Hdone; [discriminate |].
  destruct (match JSON_parse (trim (slice_from 6 l)) with
            | Some parsed => delta_content parsed
            | None => None
            end) as [content |] eqn:Hp.
  - destruct (truthy content) eqn:Htr; [| discriminate].
    destruct (from_option (to_string Number_toString) (Some "") content) eqn:Hts;
      [discriminate |].
    intros [= <-]. split; [reflexivity |].
    destruct (startsWith_data l Hd) as (x & Hx).
    rewrite Hx in *. change (slice_from 6 ("data: " +:+ x)) with x in *.
    destruct (step_of_data x) as (x' & _ & ->).
    rewrite Hdone, Hp, Htr, Hts. eauto.
  - intros [= <-]. split; [reflexivity |].
    destruct (startsWith_data l Hd) as (x & Hx).
    rewrite Hx in *. change (slice_from 6 ("data: " +:+ x)) with x in *.
    destruct (step_of_data x) as (x' & _ & ->).
    rewrite Hdone, Hp. eauto.
Qed.


Local Abbreviation extend c st := (set_buffer (textBuffer st +:+ c) st).

Lemma same_output_refl (st : Consumer) : same_output st st.
Proof. repeat split. Qed.

Lemma same_output_sym (a b : Consumer) : same_output a b -> same_output b a.
Proof. intros (H1 & H2 & H3 & H4). repeat split; congruence. Qed.

Lemma same_output_trans (a b c : Consumer) :
  same_output a b -> same_output b c -> same_output a c.
Proof.
  intros (H1 & H2 & H3 & H4) (G1 & G2 & G3 & G4). repeat split; congruence.
Qed.

Lemma drain_S (fuel : nat) (st : Consumer) :
  drain (S fuel) st =
    match indexOf LF (textBuffer st) with
    | None => Some st
    | Some newlineIndex =>
        match process_line (slice_to newlineIndex (textBuffer st))
                (set_buffer (slice_from (S newlineIndex) (textBuffer st)) st) with
        | Continue st => drain fuel st
        | Break st => Some st
        end
    end.
Proof. reflexivity. Qed.

(** The loop function and the loop relation agree. *)
Lemma drain_Drains (fuel : nat) (st r : Consumer) :
  drain fuel st = Some r -> Drains st r.
Proof.
  revert st. induction fuel as [| fuel IH]; intros st; [discriminate |].
  rewrite drain_S.
  destruct (indexOf LF (textBuffer st)) as [i |] eqn:Hi.
  - destruct (process_line _ _) as [st1 | st1] eqn:Hp.
    + intros H. eapply Drains_continue; eauto.
    + intros [= <-]. eapply Drains_break; eauto.
  - intros [= <-]. apply Drains_end, Hi.
Qed.

Lemma process_line_Continue (line : string) (st st1 : Consumer) :
  process_line line st = Continue st1 ->
  textBuffer st1 = textBuffer st /\ streamDone st1 = streamDone st /\
  forall b, process_line line (set_buffer b st) = Continue (set_buffer b st1).
Proof.
  unfold AIAssistant.process_line. destruct (step_of line); intros [= <-]; auto.
Qed.

Lemma Drains_drain (st r : Consumer) :
  Drains st r ->
  forall fuel, (String.length (textBuffer st) < fuel)%nat -> drain fuel st = Some r.
Proof.
  induction 1 as [st Hi | st i st' Hi Hp | st i st1 st' Hi Hp _ IH];
    intros [| fuel] Hlt; try lia; rewrite drain_S, Hi.
  - reflexivity.
  - rewrite Hp. reflexivity.
  - rewrite Hp. apply IH.
    destruct (process_line_Continue _ _ _ Hp) as (-> & _ & _).
    cbn [textBuffer set_buffer].
    destruct (indexOf_split _ _ _ Hi) as (_ & _ & H3). lia.
Qed.

Lemma drain_total (fuel : nat) (st : Consumer) :
  (String.length (textBuffer st) < fuel)%nat -> exists r, drain fuel st = Some r.
Proof.
  revert st. induction fuel as [| fuel IH]; intros st Hlt; [lia |]. rewrite drain_S.
  destruct (indexOf LF (textBuffer st)) as [i |] eqn:Hi; [| eauto].
  destruct (process_line _ _) as [st1 | st1] eqn:Hp; [| eauto].
  apply IH. destruct (process_line_Continue _ _ _ Hp) as (-> & _ & _).
    cbn [textBuffer set_buffer].
  destruct (indexOf_split _ _ _ Hi) as (_ & _ & H3). lia.
Qed.

Lemma Drains_total (st : Consumer) : exists r, Drains st r.
Proof.
  destruct (drain_total (S (String.length (textBuffer st))) st) as (r & Hr); [lia |].
  exists r. eapply drain_Drains, Hr.
Qed.

Lemma Drains_det (st r r' : Consumer) : Drains st r -> Drains st r' -> r = r'.
Proof.
  intros H H'.
  pose proof (Drains_drain _ _ H _ (Nat.lt_succ_diag_r _)) as E.
  pose proof (Drains_drain _ _ H' _ (Nat.lt_succ_diag_r _)) as E'.
  congruence.
Qed.

Lemma on_chunk_Drains (value : string) (st r : Consumer) :
  on_chunk value st = Some r <-> Drains (extend value st) r.
Proof.
  unfold AIAssistant.on_chunk. split.
  - apply drain_Drains.
  - intros H. apply Drains_drain; [exact H | lia].
Qed.


Lemma stuck_extend (c : string) (st : Consumer) : stuck st -> stuck (extend c st).
Proof.
  intros (line & rest & back & Hb & Hl & Hs).
  exists line, (rest +:+ c), back. simpl. rewrite Hb, append_assoc. auto.
Qed.

(** A stuck state is left as it is, but for the buffer, and stays
    stuck. *)
Lemma stuck_Drains (st : Consumer) :
  stuck st -> exists r, Drains st r /\ same_output st r /\ stuck r.
Proof.
  intros (line & rest & back & Hb & Hl & Hs).
  destruct (indexOf_line LF line rest Hl) as (Hi & Hto & Hfrom).
  destruct (step_of_PushBack _ _ Hs) as (Hback & back' & Hs').
  exists (set_buffer (back +:+ String LF rest) st). split; [| split].
  - eapply Drains_break; [rewrite Hb; exact Hi |].
    rewrite Hb, Hto, Hfrom. unfold AIAssistant.process_line. rewrite Hs. reflexivity.
  - repeat split.
  - exists back, rest, back'. repeat split; [| exact Hs'].
    rewrite Hback. destruct (endsWith CR line); [apply indexOf_drop_last |]; exact Hl.
Qed.


Lemma pushback_stuck (line back rest : string) (st : Consumer) :
  indexOf LF line = None ->
  step_of line = PushBack back ->
  stuck (set_buffer (back +:+ String LF EmptyString +:+ rest) st).
Proof.
  intros Hl Hs. destruct (step_of_PushBack _ _ Hs) as (Hback & back' & Hs').
  exists back, rest, back'. repeat split; [| exact Hs'].
  rewrite Hback. destruct (endsWith CR line); [apply indexOf_drop_last |]; exact Hl.
Qed.

Lemma set_buffer_set_buffer (b b' : string) (st : Consumer) :
  set_buffer b (set_buffer b' st) = set_buffer b st.
Proof. reflexivity. Qed.

Lemma extend_extend (c d : string) (st : Consumer) :
  extend d (extend c st) = extend (c +:+ d) st.
Proof. unfold set_buffer. cbn [textBuffer]. rewrite append_assoc. reflexivity. Qed.

Lemma extend_empty (st : Consumer) : extend EmptyString st = st.
Proof. destruct st. unfold set_buffer. cbn. rewrite append_empty_r. reflexivity. Qed.

(** Draining a buffer and draining it with more text after it: when the
    first ends on the terminator or on a pushed-back line, the second
    shows the same; otherwise the second is the first followed by
    draining what the first left with the text added. *)
Lemma Drains_extend (st r : Consumer) (c : string) :
  Drains st r ->
  streamDone st = false ->
  (streamDone r = true /\
   exists r', Drains (extend c st) r' /\ same_output r r') \/
  (streamDone r = false /\ stuck r /\
   exists r', Drains (extend c st) r' /\ same_output r r' /\ stuck r') \/
  (streamDone r = false /\ indexOf LF (textBuffer r) = None /\
   forall r', Drains (extend c r) r' -> Drains (extend c st) r').
Proof.
  induction 1 as [st Hi | st i st' Hi Hp | st i st1 st' Hi Hp Hd IH]; intros Hnd.
  - right. right. auto.
  - destruct (indexOf_app LF (textBuffer st) c i Hi) as (Hi' & Hto & Hfrom).
    destruct (indexOf_split _ _ _ Hi) as (_ & Hline & _).
    unfold AIAssistant.process_line in Hp.
    destruct (step_of (slice_to i (textBuffer st))) as [| | content | back] eqn:Hs;
      try discriminate; injection Hp as <-.
    + left. split; [reflexivity |].
      exists (set_done (set_buffer (slice_from (S i) (textBuffer st) +:+ c) st)). split.
      * eapply Drains_break; [exact Hi' |]. cbn [textBuffer set_buffer].
        rewrite Hto, Hfrom. unfold AIAssistant.process_line. rewrite Hs. reflexivity.
      * repeat split.
    + right. left. split; [exact Hnd |]. split.
      * apply (pushback_stuck _ _ _ _ Hline Hs).
      * exists (set_buffer (back +:+ String LF EmptyString
                             +:+ (slice_from (S i) (textBuffer st) +:+ c)) st).
        split; [| split].
        -- eapply Drains_break; [exact Hi' |]. cbn [textBuffer set_buffer].
           rewrite Hto, Hfrom. unfold AIAssistant.process_line. rewrite Hs. reflexivity.
        -- repeat split.
        -- apply (pushback_stuck _ _ _ _ Hline Hs).
  - destruct (indexOf_app LF (textBuffer st) c i Hi) as (Hi' & Hto & Hfrom).
    destruct (process_line_Continue _ _ _ Hp) as (Hb1 & Hd1 & Hp').
    assert (Hgo : forall r', Drains (extend c st1) r' -> Drains (extend c st) r').
    { intros r' Hr'. eapply Drains_continue; [exact Hi' | | exact Hr'].
      cbn [textBuffer set_buffer] in Hb1 |- *. rewrite Hto, Hfrom.
      specialize (Hp' (slice_from (S i) (textBuffer st) +:+ c)).
      rewrite set_buffer_set_buffer in Hp' |- *. rewrite Hp', Hb1. reflexivity. }
    cbn [streamDone set_buffer] in Hd1. specialize (IH ltac:(congruence)).
    destruct IH as [(Hdone & r' & Hr' & Ho) | [(Hnd' & Hst & r' & Hr' & Ho & Hst')
                                              | (Hnd' & Hnl & Hall)]];
      [| |].
    + left. split; [exact Hdone |]. exists r'. auto.
    + right. left. split; [exact Hnd' |]. split; [exact Hst |]. exists r'. auto.
    + right. right. split; [exact Hnd' |]. split; [exact Hnl |]. auto.
Qed.


Lemma read_loop_done (chunks : list string) (st : Consumer) :
  streamDone st = true -> read_loop chunks st = Some (st, chunks).
Proof. intros H. destruct chunks; simpl; rewrite H; reflexivity. Qed.

Lemma read_loop_cons (value : string) (rest : list string) (st : Consumer) :
  streamDone st = false ->
  read_loop (value :: rest) st =
    match on_chunk value st with
    | Some st' => read_loop rest st'
    | None => None
    end.
Proof. intros H. simpl. rewrite H. reflexivity. Qed.

Lemma on_chunk_total (value : string) (st : Consumer) :
  exists r, on_chunk value st = Some r.
Proof. apply drain_total. lia. Qed.

(** The stream ending ends the loop: it always returns. *)
Lemma read_loop_total (chunks : list string) (st : Consumer) :
  exists r u, read_loop chunks st = Some (r, u).
Proof.
  revert st. induction chunks as [| value rest IH]; intros st.
  - simpl. destruct (streamDone st); eauto.
  - destruct (streamDone st) eqn:Hd.
    + rewrite read_loop_done by exact Hd. eauto.
    + rewrite read_loop_cons by exact Hd.
      destruct (on_chunk_total value st) as (r & ->). apply IH.
Qed.


(** However the text is cut into chunks, the loop ends showing what
    draining the whole text at once shows. *)
Lemma read_loop_text (chunks : list string) :
  forall (st r1 r2 : Consumer) (u1 : list string),
    streamDone st = false ->
    indexOf LF (textBuffer st) = None \/ stuck st ->
    read_loop chunks st = Some (r1, u1) ->
    Drains (extend (text_of chunks) st) r2 ->
    same_output r1 r2.
Proof.
  induction chunks as [| c cs IH]; intros st r1 r2 u1 Hnd Hset Hrl Hr2.
  - simpl in Hrl. rewrite Hnd in Hrl. injection Hrl as <- <-.
    simpl in Hr2. rewrite extend_empty in Hr2.
    destruct Hset as [Hnl | Hst].
    + rewrite (Drains_det _ _ _ Hr2 (Drains_end _ _ _ Hnl)). apply same_output_refl.
    + destruct (stuck_Drains _ Hst) as (r & Hr & Ho & _).
      rewrite (Drains_det _ _ _ Hr2 Hr). exact Ho.
  - rewrite read_loop_cons in Hrl by exact Hnd.
    destruct (on_chunk c st) as [r |] eqn:Hc; [| discriminate].
    apply on_chunk_Drains in Hc.
    change (text_of (c :: cs)) with (c +:+ text_of cs) in Hr2.
    rewrite <- extend_extend in Hr2.
    destruct (Drains_extend _ _ (text_of cs) Hc Hnd)
      as [(Hdone & r' & Hr' & Ho) | [(Hnd' & Hst & r' & Hr' & Ho & _)
                                    | (Hnd' & Hnl & Hall)]].
    + rewrite read_loop_done in Hrl by exact Hdone. injection Hrl as <- <-.
      rewrite (Drains_det _ _ _ Hr2 Hr'). exact Ho.
    + rewrite (Drains_det _ _ _ Hr2 Hr').
      destruct (stuck_Drains _ (stuck_extend (text_of cs) _ Hst)) as (r2' & Hr2' & Ho' & _).
      apply (same_output_trans _ r2').
      { apply (IH r r1 r2' u1 Hnd' (or_intror Hst) Hrl Hr2'). }
      apply (same_output_trans _ r); [| exact Ho].
      apply same_output_sym.
      apply (same_output_trans _ (extend (text_of cs) r)); [repeat split | exact Ho'].
    + destruct (Drains_total (extend (text_of cs) r)) as (r' & Hr').
      rewrite (Drains_det _ _ _ Hr2 (Hall _ Hr')).
      apply (IH r r1 r' u1 Hnd' (or_introl Hnl) Hrl Hr').
Qed.


Lemma unlines_cons_app (x : string) (ls : list string) (post : string) :
  unlines (x :: ls) +:+ post = x +:+ String LF (unlines ls +:+ post).
Proof.
  change (unlines (x :: ls)) with (x +:+ String LF (unlines ls)).
  rewrite append_assoc. reflexivity.
Qed.


(** What a drain leaves: the terminator seen, a pushed-back line at the
    head of the buffer, or complete lines taken off the buffer and a
    rest with no newline in it. *)
Lemma Drains_leaves (st r : Consumer) :
  Drains st r ->
  streamDone st = false ->
  streamDone r = true \/
  (streamDone r = false /\ stuck r) \/
  (streamDone r = false /\ indexOf LF (textBuffer r) = None /\
   exists ls,
     Forall (fun x => indexOf LF x = None) ls /\
     textBuffer st = unlines ls +:+ textBuffer r).
Proof.
  induction 1 as [st Hi | st i st' Hi Hp | st i st1 st' Hi Hp Hd IH]; intros Hnd.
  - right. right. split; [exact Hnd |]. split; [exact Hi |].
    exists []. split; [constructor | reflexivity].
  - destruct (indexOf_split _ _ _ Hi) as (_ & Hline & _).
    unfold AIAssistant.process_line in Hp.
    destruct (step_of (slice_to i (textBuffer st))) as [| | content | back] eqn:Hs;
      try discriminate; injection Hp as <-.
    + left. reflexivity.
    + right. left. split; [exact Hnd |]. apply (pushback_stuck _ _ _ _ Hline Hs).
  - destruct (indexOf_split _ _ _ Hi) as (Hsplit & Hline & _).
    destruct (process_line_Continue _ _ _ Hp) as (Hb1 & Hd1 & _).
    cbn [textBuffer streamDone set_buffer] in Hb1, Hd1.
    destruct (IH ltac:(congruence)) as [Hdone | [Hst | (Hnd' & Hnl & ls & Hls & Hb)]];
      [left; exact Hdone | right; left; exact Hst |].
    right. right. split; [exact Hnd' |]. split; [exact Hnl |].
    exists (slice_to i (textBuffer st) :: ls). split; [constructor; assumption |].
    rewrite unlines_cons_app, <- Hb, Hb1. exact Hsplit.
Qed.

Lemma set_last_app (m x : Message) (l : list Message) :
  set_last m (l ++ [x]) = l ++ [m].
Proof.
  induction l as [| y l IH]; [reflexivity |].
  change ((y :: l) ++ [x]) with (y :: (l ++ [x])).
  destruct (l ++ [x]) as [| z t] eqn:E.
  - destruct l; discriminate.
  - change (set_last m (y :: z :: t)) with (y :: set_last m (z :: t)).
    rewrite IH. reflexivity.
Qed.


(** A chunk that completes no line is added to the buffer and nothing
    else happens. *)
Lemma on_chunk_partial (value : string) (st : Consumer) :
  indexOf LF (textBuffer st +:+ value) = None ->
  on_chunk value st = Some (extend value st).
Proof. intros H. apply on_chunk_Drains, Drains_end, H. Qed.

(** The two chunks of the split [Hello] event. *)
Lemma read_loop_hello (prev : list Message) (messageText : string) :
  JSON_parse hello_json = Some hello_value ->
  read_loop [hello_chunk1; hello_chunk2] (start prev messageText) =
    Some ({| textBuffer := "";
             streamDone := false;
             assistantContent := "Hello";
             messages := prev ++ [ {| role := role_user; content := messageText |};
                                   {| role := role_assistant; content := "Hello" |} ];
             updates := ["Hello"] |}, []).
Proof.
  intros Hparse.
  rewrite read_loop_cons by reflexivity.
  rewrite on_chunk_partial by (vm_compute; reflexivity).
  rewrite read_loop_cons by reflexivity.
  set (st1 := extend hello_chunk1 (start prev messageText)).
  assert (Hbuf : textBuffer (extend hello_chunk2 st1) = hello_line +:+ String LF EmptyString)
    by (vm_compute; reflexivity).
  assert (Hno : indexOf LF hello_line = None) by (vm_compute; reflexivity).
  destruct (indexOf_line LF hello_line EmptyString Hno) as (Hi & Hto & Hfrom).
  assert (Hstep : step_of hello_line = Append "Hello").
  { destruct (step_of_data hello_json) as (x' & _ & Hs).
    change ("data: " +:+ hello_json) with hello_line in Hs. rewrite Hs.
    replace (trim hello_json) with hello_json by (vm_compute; reflexivity).
    rewrite Hparse. reflexivity. }
  assert (Hd : Drains (extend hello_chunk2 st1)
                 (append_content "Hello" (set_buffer EmptyString (extend hello_chunk2 st1)))).
  { eapply Drains_continue.
    - rewrite Hbuf. exact Hi.
    - rewrite Hbuf, Hto, Hfrom. unfold AIAssistant.process_line. rewrite Hstep. reflexivity.
    - apply Drains_end. reflexivity. }
  apply on_chunk_Drains in Hd. rewrite Hd.
  cbn [AIAssistant.read_loop append_content set_buffer streamDone st1 start
       textBuffer assistantContent messages updates].
  cbv [append_content set_buffer st1 start textBuffer streamDone assistantContent
       messages updates].
  replace (prev ++ [ {| role := role_user; content := messageText |};
                     {| role := role_assistant; content := "" |} ])
    with ((prev ++ [ {| role := role_user; content := messageText |} ])
            ++ [ {| role := role_assistant; content := "" |} ])
    by (rewrite <- List.app_assoc; reflexivity).
  rewrite set_last_app, <- List.app_assoc. reflexivity.
Qed.


Lemma read_loop_nil (st : Consumer) : read_loop [] st = Some (st, []).
Proof. simpl. destruct (streamDone st); reflexivity. Qed.

Lemma read_loop_one (value : string) (st : Consumer) :
  streamDone st = false ->
  exists r, Drains (extend value st) r /\ read_loop [value] st = Some (r, []).
Proof.
  intros Hnd. destruct (on_chunk_total value st) as (r & Hr). exists r. split.
  - apply on_chunk_Drains, Hr.
  - rewrite read_loop_cons by exact Hnd. rewrite Hr. apply read_loop_nil.
Qed.

(** However a stream is cut into chunks, the loop shows at its end what
    it shows when the whole stream arrives as one chunk. *)
Lemma read_loop_chunking (chunks : list string) (prev : list Message) (messageText : string) :
  exists r u r0,
    read_loop chunks (start prev messageText) = Some (r, u) /\
    read_loop [text_of chunks] (start prev messageText) = Some (r0, []) /\
    same_output r r0.
Proof.
  destruct (read_loop_total chunks (start prev messageText)) as (r & u & Hr).
  destruct (read_loop_one (text_of chunks) (start prev messageText) eq_refl)
    as (r0 & Hd & Hr0).
  exists r, u, r0. split; [exact Hr |]. split; [exact Hr0 |].
  apply (read_loop_text chunks (start prev messageText) r r0 u);
    [reflexivity | left; reflexivity | exact Hr | exact Hd].
Qed.

(** C4: a chunk that completes no line is only added to the buffer; a
    read cycle ends on the terminator, or on a pushed-back line, or
    with nothing but complete lines taken off the buffer and the
    partial last line left in it; a [data:] line whose payload
    [JSON.parse] rejects is pushed back (less a final carriage return)
    with its newline in front of the rest of the buffer, and the cycle
    stops there; the [Hello] event cut after [Hel] gives the content
    [Hello] in one update; and whatever the cut into chunks, the loop
    shows at its end what it shows on the whole text in one chunk. *)
Theorem chunked_lines_reassembled :
  (forall st value,
     indexOf LF (textBuffer st +:+ value) = None ->
     on_chunk value st = Some (extend value st)) /\
  (forall st value r,
     streamDone st = false ->
     on_chunk value st = Some r ->
     streamDone r = true \/
     (streamDone r = false /\ stuck r) \/
     (streamDone r = false /\ indexOf LF (textBuffer r) = None /\
      exists ls,
        Forall (fun x => indexOf LF x = None) ls /\
        textBuffer st +:+ value = unlines ls +:+ textBuffer r)) /\
  (forall x,
     trim x <> "[DONE]" ->
     JSON_parse (trim x) = None ->
     exists x', trim x' = trim x /\
                step_of ("data: " +:+ x) = PushBack ("data: " +:+ x')) /\
  (forall st value line rest back,
     textBuffer st +:+ value = line +:+ String LF rest ->
     indexOf LF line = None ->
     step_of line = PushBack back ->
     back = (if endsWith CR line then drop_last line else line) /\
     on_chunk value st = Some (set_buffer (back +:+ String LF rest) st)) /\
  (JSON_parse hello_json = Some hello_value ->
   forall prev messageText,
     read_loop [hello_chunk1; hello_chunk2] (start prev messageText) =
       Some ({| textBuffer := "";
                streamDone := false;
                assistantContent := "Hello";
                messages := prev ++ [ {| role := role_user; content := messageText |};
                                      {| role := role_assistant; content := "Hello" |} ];
                updates := ["Hello"] |}, [])) /\
  (forall chunks prev messageText,
     exists r u r0,
       read_loop chunks (start prev messageText) = Some (r, u) /\
       read_loop [text_of chunks] (start prev messageText) = Some (r0, []) /\
       same_output r r0).
Proof.
  split; [exact (fun st value => on_chunk_partial value st) |].
  split.
  { intros st value r Hnd Hr. apply on_chunk_Drains in Hr.
    apply (Drains_leaves _ _ Hr Hnd). }
  split.
  { intros x Hx Hp. destruct (step_of_data x) as (x' & Ht & Hs).
    exists x'. split; [exact Ht |]. rewrite Hs.
    apply String.eqb_neq in Hx. rewrite Hx, Hp. reflexivity. }
  split.
  { intros st value line rest back Hb Hl Hs.
    destruct (step_of_PushBack _ _ Hs) as (Hback & _). split; [exact Hback |].
    destruct (indexOf_line LF line rest Hl) as (Hi & Hto & Hfrom).
    apply on_chunk_Drains. eapply Drains_break.
    - cbn [textBuffer set_buffer]. rewrite Hb. exact Hi.
    - cbn [textBuffer set_buffer]. rewrite Hb, Hto, Hfrom.
      unfold AIAssistant.process_line. rewrite Hs. reflexivity. }
  split.
  { intros Hp prev messageText. apply read_loop_hello, Hp. }
  exact read_loop_chunking.
Qed.


End ConsumerFacts.

(** The two chunks of the split event, read with the reference
    [JSON.parse]. *)
Lemma chunked_lines_reassembled_witness :
  read_loop JsonText.JSON_parse JsonText.Number_toString
    [hello_chunk1; hello_chunk2] (start [] "Was I late?") =
    Some ({| textBuffer := "";
             streamDone := false;
             assistantContent := "Hello";
             messages := [ {| role := role_user; content := "Was I late?" |};
                           {| role := role_assistant; content := "Hello" |} ];
             updates := ["Hello"] |}, []).
Proof.
  apply (proj1 (proj2 (proj2 (proj2 (proj2
           (chunked_lines_reassembled JsonText.JSON_parse JsonText.Number_toString)))))
           ltac:(vm_compute; reflexivity) [] "Was I late?").
Defined.


(** A content with no conversion to a string: the line is pushed back,
    and the terminator after it is not reached. *)
Lemma content_without_conversion_stuck :
  step_of JsonText.JSON_parse JsonText.Number_toString tostring_line
    = PushBack tostring_line /\
  read_loop JsonText.JSON_parse JsonText.Number_toString
    [tostring_line +:+ Gateway.nl +:+ done_line +:+ Gateway.nl]
    (start [] "Was I late?") =
    Some ({| textBuffer := tostring_line +:+ Gateway.nl +:+ done_line +:+ Gateway.nl;
             streamDone := false;
             assistantContent := "";
             messages := [ {| role := role_user; content := "Was I late?" |};
                           {| role := role_assistant; content := "" |} ];
             updates := [] |}, []).
Proof. split; vm_compute; reflexivity. Qed.


End AIAssistantFacts.

(** ** The attendance table under check-in, check-out and reload *)

Module AttendanceTableFacts.
Import Db Attendance Policies AttendanceLoad Sample Scenario.

Lemma attendance_conflict_spec (u d : string) (tbl : list attendance) :
  attendance_conflict u d tbl = true <-> (u, d) ∈ map (fun r => (user_id r, date r)) tbl.
Proof.
  unfold attendance_conflict. rewrite existsb_exists, list_elem_of_fmap.
  split.
  - intros (r & Hin & Hb). apply andb_true_iff in Hb as [H1 H2].
    apply bool_decide_eq_true in H1, H2. exists r. split; [congruence |].
    apply list_elem_of_In, Hin.
  - intros (r & [= -> ->] & Hin). exists r. split; [apply list_elem_of_In, Hin |].
    rewrite !bool_decide_eq_true_2; reflexivity.
Qed.

Lemma attendance_conflict_app (u d : string) (tbl tbl' : list attendance) :
  attendance_conflict u d (tbl ++ tbl')
  = attendance_conflict u d tbl || attendance_conflict u d tbl'.
Proof. unfold attendance_conflict. apply existsb_app. Qed.

(** What [handleCheckIn] does to the table and the page, by cases. *)
Lemma handleCheckIn_cases e now st tbl :
  (user st = None /\ handleCheckIn e now st tbl = (st, tbl)) \/
  (exists uid msg,
     user st = Some uid /\
     (fault e = Some msg \/
      (fault e = None /\ attendance_conflict uid (yyyy_MM_dd now) tbl = true /\
       msg = duplicate_attendance)) /\
     handleCheckIn e now st tbl =
       ({| user := user st; todayAttendance := todayAttendance st; isSubmitting := false;
           notes_input := notes_input st;
           toasts := toasts st ++ [{| title := "Check-in failed"; description := msg;
                                      destructive := true |}] |}, tbl)) \/
  (exists uid,
     user st = Some uid /\ fault e = None /\
     attendance_conflict uid (yyyy_MM_dd now) tbl = false /\
     let r := {| id := fresh_id e; user_id := uid; date := yyyy_MM_dd now;
                 check_in := Some (getTime now); check_out := None;
                 status := check_in_status (getHours now);
                 notes := Js.or_null (notes_input st) |} in
     handleCheckIn e now st tbl =
       ({| user := user st; todayAttendance := Some r; isSubmitting := false;
           notes_input := notes_input st;
           toasts := toasts st ++
             [{| title := "Check-in successful!";
                 description := "You checked in at " +:+ h_mm_a now +:+
                   (if bool_decide (check_in_status (getHours now) = late)
                    then " (Late)" else "");
                 destructive := false |}] |}, tbl ++ [r])).
Proof.
  unfold handleCheckIn, insert_attendance.
  destruct (user st) as [uid |] eqn:Hu; [right | left; auto].
  cbn [set_submitting notes_input].
  destruct (fault e) as [msg |] eqn:Hf.
  - left. exists uid, msg. split; [reflexivity |]. split; [left; reflexivity |].
    cbv [set_submitting toast]. cbn [user todayAttendance notes_input toasts].
    rewrite Hu. reflexivity.
  - destruct (attendance_conflict uid (yyyy_MM_dd now) tbl) eqn:Hc.
    + left. exists uid, duplicate_attendance.
      split; [reflexivity |]. split; [right; auto |].
      cbv [set_submitting toast]. cbn [user todayAttendance notes_input toasts].
      rewrite Hu. reflexivity.
    + right. exists uid. split; [reflexivity |]. split; [reflexivity |].
      split; [exact Hc |].
      cbv [set_submitting toast set_today].
      cbn [user todayAttendance notes_input toasts]. rewrite Hu. reflexivity.
Qed.

Lemma update_attendance_table e i co n tbl :
  snd (update_attendance e i co n tbl) = tbl \/
  snd (update_attendance e i co n tbl) = update_where_id i (checked_out co n) tbl.
Proof.
  unfold update_attendance. destruct (fault e); [left; reflexivity |].
  destruct (filter _ tbl) as [| r [| r' rest]]; [left | right | right]; reflexivity.
Qed.

Lemma handleCheckOut_table e now st tbl :
  snd (handleCheckOut e now st tbl) = tbl \/
  exists today,
    todayAttendance st = Some today /\
    snd (handleCheckOut e now st tbl)
    = update_where_id (id today)
        (checked_out (Some (getTime now)) (Js.or_null (notes_input st))) tbl.
Proof.
  unfold handleCheckOut. destruct (todayAttendance st) as [today |]; [| left; reflexivity].
  cbn [set_submitting notes_input].
  destruct (update_attendance_table e (id today) (Some (getTime now))
              (Js.or_null (notes_input st)) tbl) as [H | H];
    destruct (update_attendance e (id today) (Some (getTime now))
                (Js.or_null (notes_input st)) tbl) as [res tbl'];
    cbn [snd] in *; subst tbl'; [left; reflexivity | right; eauto].
Qed.

Lemma update_where_id_fixed i co n tbl :
  map fixed_columns (update_where_id i (checked_out co n) tbl) = map fixed_columns tbl.
Proof.
  unfold update_where_id. rewrite map_map. apply map_ext. intros r.
  destruct (bool_decide (id r = i)); reflexivity.
Qed.

Lemma fixed_columns_keys (tbl tbl' : list attendance) :
  map fixed_columns tbl' = map fixed_columns tbl ->
  map (fun r => (user_id r, date r)) tbl' = map (fun r => (user_id r, date r)) tbl /\
  map id tbl' = map id tbl.
Proof.
  intros H. split.
  - apply (f_equal (map (fun c : string * string * string * option timestamp
                                 * attendance_status => (c.1.1.1.2, c.1.1.2)))) in H.
    rewrite !map_map in H. exact H.
  - apply (f_equal (map (fun c : string * string * string * option timestamp
                                 * attendance_status => c.1.1.1.1))) in H.
    rewrite !map_map in H. exact H.
Qed.

Lemma handleCheckOut_fixed e now st tbl :
  map fixed_columns (snd (handleCheckOut e now st tbl)) = map fixed_columns tbl.
Proof.
  destruct (handleCheckOut_table e now st tbl) as [-> | (today & _ & ->)];
    [reflexivity | apply update_where_id_fixed].
Qed.

Lemma handleCheckIn_unique e now st tbl :
  unique_per_day tbl -> unique_per_day (snd (handleCheckIn e now st tbl)).
Proof.
  intros Hu. unfold unique_per_day in *.
  destruct (handleCheckIn_cases e now st tbl)
    as [(_ & ->) | [(uid & msg & _ & _ & ->) | (uid & _ & _ & Hc & ->)]];
    cbn [snd]; auto.
  rewrite map_app. cbn [map user_id date].
  apply NoDup_app. repeat split; auto.
  - intros k Hk Hk'. apply list_elem_of_singleton in Hk'. subst k.
    apply attendance_conflict_spec in Hk. congruence.
  - apply NoDup_singleton.
Qed.

Lemma handleCheckOut_unique e now st tbl :
  unique_per_day tbl -> unique_per_day (snd (handleCheckOut e now st tbl)).
Proof.
  unfold unique_per_day.
  destruct (fixed_columns_keys _ _ (handleCheckOut_fixed e now st tbl)) as [-> _].
  auto.
Qed.

Lemma filter_key_nil (u d : string) (tbl : list attendance) :
  (u, d) ∉ map (fun r => (user_id r, date r)) tbl ->
  filter (fun r => user_id r = u /\ date r = d) tbl = [].
Proof.
  induction tbl as [| a tbl IH]; [reflexivity |].
  cbn [map]. intros Hnin. apply not_elem_of_cons in Hnin as [Hne Hnin].
  rewrite filter_cons_False; [auto |]. intros [<- <-]. congruence.
Qed.

(** A table with one row per user and day has at most one row of a
    given user on a given day. *)
Lemma unique_per_day_filter (u d : string) (tbl : list attendance) :
  unique_per_day tbl ->
  filter (fun r => user_id r = u /\ date r = d) tbl = [] \/
  exists r, filter (fun r => user_id r = u /\ date r = d) tbl = [r].
Proof.
  unfold unique_per_day. induction tbl as [| a tbl IH]; [left; reflexivity |].
  cbn [map]. intros Hnd. apply NoDup_cons in Hnd as [Hnin Hnd].
  rewrite filter_cons. destruct (decide (user_id a = u /\ date a = d)) as [[Hu Hd] | Hne].
  - right. exists a. f_equal. apply filter_key_nil. congruence.
  - auto.
Qed.

(** What a caller who is no administrator reads of today's rows: the
    caller's own. *)
Lemma select_today_own roles uid today tbl :
  has_role roles uid admin = false ->
  filter (fun r => date r = today) (select_attendance roles (Some uid) tbl)
  = filter (fun r => user_id r = uid /\ date r = today) tbl.
Proof.
  intros Hr. unfold select_attendance, can_select_attendance. rewrite Hr.
  rewrite list_filter_filter. apply list_filter_iff. intros r.
  rewrite orb_false_r, bool_decide_eq_true. split; intros [H1 H2]; auto.
Qed.

(** What an administrator reads of today's rows: everybody's. *)
Lemma select_today_admin roles uid today tbl :
  has_role roles uid admin = true ->
  filter (fun r => date r = today) (select_attendance roles (Some uid) tbl)
  = filter (fun r => date r = today) tbl.
Proof.
  intros Hr. unfold select_attendance, can_select_attendance. rewrite Hr.
  rewrite list_filter_filter. apply list_filter_iff. intros r.
  rewrite orb_true_r. tauto.
Qed.

Lemma update_where_id_other i f (tbl : list attendance) :
  (forall r, r ∈ tbl -> id r <> i) -> update_where_id i f tbl = tbl.
Proof.
  intros H. unfold update_where_id. rewrite <- (map_id tbl) at 2.
  apply map_ext_in. intros r Hin. apply list_elem_of_In in Hin.
  rewrite bool_decide_eq_false_2; auto.
Qed.

Lemma filter_id_other i (tbl : list attendance) :
  (forall r, r ∈ tbl -> id r <> i) -> filter (fun r => id r = i) tbl = [].
Proof.
  induction tbl as [| a tbl IH]; [reflexivity |]. intros H.
  rewrite filter_cons_False.
  - apply IH. intros r Hr. apply H. right. exact Hr.
  - apply H. left.
Qed.

(** With a primary key, the rows of one [id] are at most one. *)
Lemma unique_ids_filter (r : attendance) (tbl : list attendance) :
  unique_ids tbl -> r ∈ tbl -> filter (fun x => id x = id r) tbl = [r].
Proof.
  unfold unique_ids. induction tbl as [| a tbl IH]; intros Hnd Hin.
  - apply elem_of_nil in Hin. contradiction.
  - cbn [map] in Hnd. apply NoDup_cons in Hnd as [Hnin Hnd].
    apply elem_of_cons in Hin as [-> | Hin].
    + rewrite filter_cons_True by reflexivity. f_equal.
      apply filter_id_other. intros x Hx Heq. apply Hnin.
      rewrite <- Heq. apply list_elem_of_fmap. exists x. auto.
    + rewrite filter_cons_False; [auto |].
      intros Heq. apply Hnin. rewrite Heq.
      apply list_elem_of_fmap. exists r. auto.
Qed.

(** X1: once a check-in has created today's row, any further check-in
    of the same user on the same day is refused by [UNIQUE (user_id,
    date)]: the table and the record on the page stay as they are, and
    the page reports the duplicate with the message of the database,
    which names the constraint. *)
Theorem second_check_in_rejected
    (e1 e2 : env) (now1 now2 : JsDate) (st st1 : Page) (tbl tbl1 : list attendance) :
  handleCheckIn e1 now1 st tbl = (st1, tbl1) ->
  tbl1 <> tbl ->
  yyyy_MM_dd now2 = yyyy_MM_dd now1 ->
  snd (handleCheckIn e2 now2 st1 tbl1) = tbl1 /\
  todayAttendance (fst (handleCheckIn e2 now2 st1 tbl1)) = todayAttendance st1 /\
  (fault e2 = None ->
   toasts (fst (handleCheckIn e2 now2 st1 tbl1)) =
     toasts st1 ++
       [{| title := "Check-in failed";
           description := ("duplicate key value violates unique constraint "
                          +:+ String "034"%char "attendance_user_id_date_key"
                          +:+ String "034"%char EmptyString);
           destructive := true |}]).
Proof.
  intros H1 Hne Hd.
  destruct (handleCheckIn_cases e1 now1 st tbl)
    as [(_ & H) | [(uid & msg & _ & _ & H) | (uid & Hu & _ & _ & H)]];
    rewrite H in H1; injection H1 as <- <-; try congruence.
  clear H Hne.
  match goal with
  | |- context [handleCheckIn e2 now2 ?s ?t] =>
      destruct (handleCheckIn_cases e2 now2 s t)
        as [(Hu2 & H) | [(uid2 & msg & Hu2 & Hwhy & H) | (uid2 & Hu2 & _ & Hc & H)]];
      cbn [user] in Hu2
  end.
  - congruence.
  - rewrite H. cbn [fst snd todayAttendance toasts]. repeat split.
    intros Hf. destruct Hwhy as [Hf2 | (_ & _ & ->)]; [congruence | reflexivity].
  - exfalso. assert (uid2 = uid) as -> by congruence.
    rewrite attendance_conflict_app, Hd in Hc. cbn in Hc.
    rewrite !bool_decide_eq_true_2 in Hc by reflexivity.
    rewrite orb_true_r in Hc. discriminate.
Qed.

Lemma second_check_in_rejected_witness :
  snd (handleCheckIn env1 nine
         (fst (handleCheckIn env0 morning page0 []))
         (snd (handleCheckIn env0 morning page0 [])))
  = snd (handleCheckIn env0 morning page0 []) /\
  length (snd (handleCheckIn env0 morning page0 [])) = 1%nat.
Proof.
  split; [| reflexivity].
  refine (proj1 (second_check_in_rejected env0 env1 morning nine page0 _ [] _
                   eq_refl _ eq_refl)).
  discriminate.
Defined.

(** X2: [UNIQUE (user_id, date)] is an invariant of the page: a table
    with at most one row per user and day still has at most one after a
    check-in, after a check-out, and after a click on whatever control
    the page shows. *)
Theorem one_row_per_user_and_day
    (e : env) (now : JsDate) (st : Page) (tbl : list attendance) :
  unique_per_day tbl ->
  unique_per_day (snd (handleCheckIn e now st tbl)) /\
  unique_per_day (snd (handleCheckOut e now st tbl)) /\
  unique_per_day (snd (click e now st tbl)).
Proof.
  intros Hu. split; [| split].
  - apply handleCheckIn_unique, Hu.
  - apply handleCheckOut_unique, Hu.
  - unfold click. destruct (isSubmitting st); [exact Hu |].
    destruct (action st).
    + apply handleCheckIn_unique, Hu.
    + apply handleCheckOut_unique, Hu.
    + exact Hu.
Qed.

Lemma one_row_per_user_and_day_witness :
  unique_per_day [row_in; row_u2] /\
  unique_per_day (snd (click env0 evening (page_of row_in) [row_in; row_u2])).
Proof.
  assert (H : unique_per_day [row_in; row_u2]).
  { unfold unique_per_day. apply (bool_decide_unpack _). vm_compute. exact I. }
  split; [exact H |].
  exact (proj2 (proj2 (one_row_per_user_and_day env0 evening (page_of row_in)
                         [row_in; row_u2] H))).
Defined.

(** X3: a check-out, accepted or not, leaves the number of rows and
    every row's [id], [user_id], [date], [check_in] and [status] as they
    were, and does not touch a row whose [id] is not the one of the
    record on the page. *)
Theorem handleCheckOut_frame
    (e : env) (now : JsDate) (st : Page) (tbl : list attendance) :
  map fixed_columns (snd (handleCheckOut e now st tbl)) = map fixed_columns tbl /\
  length (snd (handleCheckOut e now st tbl)) = length tbl /\
  (forall i r,
     tbl !! i = Some r ->
     (forall today, todayAttendance st = Some today -> id r <> id today) ->
     snd (handleCheckOut e now st tbl) !! i = Some r).
Proof.
  split; [apply handleCheckOut_fixed |]. split.
  - rewrite <- (length_map fixed_columns), handleCheckOut_fixed. apply length_map.
  - intros i r Hi Hid.
    destruct (handleCheckOut_table e now st tbl) as [-> | (today & Ht & ->)]; [exact Hi |].
    unfold update_where_id.
    change (map ?f tbl !! i) with ((f <$> tbl) !! i).
    rewrite list_lookup_fmap, Hi. cbn.
    rewrite bool_decide_eq_false_2; auto.
Qed.

Lemma handleCheckOut_frame_witness :
  snd (handleCheckOut env0 evening (page_of row_in) [row_u2; row_in]) !! 0%nat
    = Some row_u2 /\
  snd (handleCheckOut env0 evening (page_of row_in) [row_u2; row_in]) !! 1%nat
    = Some row_out.
Proof.
  split; [| reflexivity].
  refine (proj2 (proj2 (handleCheckOut_frame env0 evening (page_of row_in)
                          [row_u2; row_in])) 0%nat row_u2 eq_refl _).
  intros today [= <-]. discriminate.
Defined.

(** X4: a day at the page.  From a page with nobody checked in, a click
    at [now1] and a click at [now2], both let through, leave exactly one
    new row; it belongs to the user, carries the status decided at
    [now1] and both instants; the page then shows the duration between
    the two clicks and [Attendance Complete], and a further click
    changes nothing. *)
Theorem check_in_then_check_out
    (e1 e2 : env) (now1 now2 : JsDate) (st : Page) (tbl : list attendance)
    (uid : string) :
  user st = Some uid ->
  todayAttendance st = None ->
  isSubmitting st = false ->
  fault e1 = None ->
  fault e2 = None ->
  attendance_conflict uid (yyyy_MM_dd now1) tbl = false ->
  fresh_id e1 ∉ map id tbl ->
  let st1 := fst (click e1 now1 st tbl) in
  let tbl1 := snd (click e1 now1 st tbl) in
  let st2 := fst (click e2 now2 st1 tbl1) in
  let tbl2 := snd (click e2 now2 st1 tbl1) in
  let r := {| id := fresh_id e1; user_id := uid; date := yyyy_MM_dd now1;
              check_in := Some (getTime now1); check_out := Some (getTime now2);
              status := check_in_status (getHours now1);
              notes := Js.or_null (notes_input st) |} in
  let diffMs := getTime now2 - getTime now1 in
  action st1 = CheckOutButton /\
  tbl2 = tbl ++ [r] /\
  todayAttendance st2 = Some r /\
  action st2 = AttendanceComplete /\
  calculateWorkHours st2
    = Some (pretty (diffMs / 3600000) +:+ "h " +:+
            pretty (Z.rem diffMs 3600000 / 60000) +:+ "m") /\
  (forall e3 now3, click e3 now3 st2 tbl2 = (st2, tbl2)).
Proof.
  intros Hu Ht Hs Hf1 Hf2 Hc Hfresh.
  assert (H1 : click e1 now1 st tbl = handleCheckIn e1 now1 st tbl).
  { unfold click, action. rewrite Hs, Ht. reflexivity. }
  destruct (handleCheckIn_cases e1 now1 st tbl)
    as [(Hu' & _) | [(uid' & msg & Hu' & Hwhy & _) | (uid' & Hu' & _ & _ & H)]].
  - congruence.
  - assert (uid' = uid) as -> by congruence.
    destruct Hwhy as [? | (_ & ? & _)]; congruence.
  - assert (uid' = uid) as -> by congruence. cbv zeta in H.
    rewrite H1, H. cbn [fst snd]. clear H1 H.
    set (r1 := {| id := fresh_id e1; user_id := uid; date := yyyy_MM_dd now1;
                  check_in := Some (getTime now1); check_out := None;
                  status := check_in_status (getHours now1);
                  notes := Js.or_null (notes_input st) |}).
    set (st1 := {| user := user st; todayAttendance := Some r1 |}).
    assert (Hfilter : filter (fun x => id x = fresh_id e1) (tbl ++ [r1]) = [r1]).
    { rewrite filter_app, filter_id_other.
      - rewrite filter_cons_True by reflexivity. reflexivity.
      - intros x Hx Heq. apply Hfresh. rewrite <- Heq.
        apply list_elem_of_fmap. exists x. auto. }
    assert (Hupd : forall f, update_where_id (fresh_id e1) f (tbl ++ [r1]) = tbl ++ [f r1]).
    { intros f. unfold update_where_id. rewrite map_app.
      fold (update_where_id (fresh_id e1) f tbl).
      rewrite update_where_id_other.
      - cbn. rewrite bool_decide_eq_true_2 by reflexivity. reflexivity.
      - intros x Hx Heq. apply Hfresh. rewrite <- Heq.
        apply list_elem_of_fmap. exists x. auto. }
    assert (H2 : click e2 now2 st1 (tbl ++ [r1]) =
                 ({| user := user st;
                     todayAttendance :=
                       Some (checked_out (Some (getTime now2))
                               (Js.or_null (notes_input st)) r1);
                     isSubmitting := false; notes_input := notes_input st;
                     toasts := toasts st1 ++
                       [{| title := "Check-out successful!";
                           description := "You checked out at " +:+ h_mm_a now2;
                           destructive := false |}] |},
                  tbl ++ [checked_out (Some (getTime now2))
                            (Js.or_null (notes_input st)) r1])).
    { unfold click, action, handleCheckOut, update_attendance.
      cbn [st1 isSubmitting todayAttendance check_out r1 id set_submitting notes_input].
      rewrite Hf2, Hfilter.
      fold (checked_out (Some (getTime now2)) (Js.or_null (notes_input st))).
      rewrite Hupd. reflexivity. }
    rewrite H2. cbn [fst snd]. repeat split.
Qed.

Lemma check_in_then_check_out_witness :
  calculateWorkHours
    (fst (click env1 evening (fst (click env0 nine page0 [row_u2]))
            (snd (click env0 nine page0 [row_u2]))))
  = Some "8h 30m" /\
  length (snd (click env1 evening (fst (click env0 nine page0 [row_u2]))
                 (snd (click env0 nine page0 [row_u2])))) = 2%nat.
Proof.
  assert (Hfresh : fresh_id env0 ∉ map id [row_u2]).
  { cbn. intros H. apply list_elem_of_singleton in H. discriminate. }
  pose proof (check_in_then_check_out env0 env1 nine evening page0 [row_u2] "u1"
                eq_refl eq_refl eq_refl eq_refl eq_refl eq_refl Hfresh) as H.
  cbv zeta in H. destruct H as (_ & Htbl & _ & _ & Hwork & _).
  split; [rewrite Hwork | rewrite Htbl]; reflexivity.
Defined.

(** X5: for a caller who is no administrator, on a table with one row
    per user and day, a reload shows the caller's own row of today and
    fills the notes box from it; with no such row it changes nothing;
    and it never shows a row that is not the caller's own row of
    today. *)
Theorem fetchTodayAttendance_own_row
    (roles : list user_role) (now : JsDate) (st : Page) (tbl : list attendance)
    (uid : string) :
  user st = Some uid ->
  has_role roles uid admin = false ->
  unique_per_day tbl ->
  let st' := fetchTodayAttendance None roles now st tbl in
  (forall r, r ∈ tbl -> user_id r = uid -> date r = yyyy_MM_dd now ->
     todayAttendance st' = Some r /\ notes_input st' = default "" (notes r)) /\
  ((forall r, r ∈ tbl -> user_id r = uid -> date r <> yyyy_MM_dd now) -> st' = st) /\
  (forall r, todayAttendance st' = Some r ->
     todayAttendance st = Some r \/
     (r ∈ tbl /\ user_id r = uid /\ date r = yyyy_MM_dd now)).
Proof.
  intros Hu Hr Huniq. unfold fetchTodayAttendance, select_today. rewrite Hu.
  rewrite select_today_own by exact Hr. cbv zeta.
  destruct (unique_per_day_filter uid (yyyy_MM_dd now) tbl Huniq) as [Hnil | [x Hx]].
  - rewrite Hnil. cbn [maybeSingle]. split; [| split].
    + intros r Hin Hru Hrd. exfalso.
      eapply (filter_nil_not_elem_of _ tbl r Hnil); eauto.
    + reflexivity.
    + auto.
  - rewrite Hx. cbn [maybeSingle].
    assert (Hin : x ∈ filter (fun r => user_id r = uid /\ date r = yyyy_MM_dd now) tbl).
    { rewrite Hx. left. }
    apply list_elem_of_filter in Hin as [[Hxu Hxd] Hin].
    split; [| split].
    + intros r Hr' Hru Hrd.
      assert (Hrin : r ∈ filter (fun r => user_id r = uid /\ date r = yyyy_MM_dd now) tbl).
      { apply list_elem_of_filter. auto. }
      rewrite Hx in Hrin. apply list_elem_of_singleton in Hrin. subst r.
      split; reflexivity.
    + intros Hnone. exfalso. exact (Hnone x Hin Hxu Hxd).
    + cbn [set_notes set_today todayAttendance]. intros r [= <-]. right. auto.
Qed.

Lemma fetchTodayAttendance_own_row_witness :
  todayAttendance (fetchTodayAttendance None roles0 morning page0 [row_u2; row_in])
  = Some row_in.
Proof.
  assert (H : unique_per_day [row_u2; row_in]).
  { unfold unique_per_day. apply (bool_decide_unpack _). vm_compute. exact I. }
  refine (proj1 (proj1 (fetchTodayAttendance_own_row roles0 morning page0
                          [row_u2; row_in] "u1" eq_refl eq_refl H)
                   row_in _ eq_refl eq_refl)).
  right. left.
Defined.

(** X6: for an administrator the reload is not scoped to the caller:
    when the table holds exactly one row of today, the page adopts it
    whoever owns it; when it holds two or more, the page is left as it
    was, even if one of them is the administrator's own. *)
Theorem fetchTodayAttendance_admin
    (roles : list user_role) (now : JsDate) (st : Page) (tbl : list attendance)
    (uid : string) :
  user st = Some uid ->
  has_role roles uid admin = true ->
  let st' := fetchTodayAttendance None roles now st tbl in
  (forall r, filter (fun x => date x = yyyy_MM_dd now) tbl = [r] ->
     todayAttendance st' = Some r) /\
  (forall r1 r2 rest,
     filter (fun x => date x = yyyy_MM_dd now) tbl = r1 :: r2 :: rest -> st' = st).
Proof.
  intros Hu Hr. unfold fetchTodayAttendance, select_today. rewrite Hu.
  rewrite select_today_admin by exact Hr. cbv zeta. split.
  - intros r ->. reflexivity.
  - intros r1 r2 rest ->. reflexivity.
Qed.

Lemma fetchTodayAttendance_admin_witness :
  user_id row_in <> "u2" /\
  todayAttendance (fetchTodayAttendance None roles0 morning page_u2 [row_day8; row_in])
  = Some row_in.
Proof.
  split; [discriminate |].
  exact (proj1 (fetchTodayAttendance_admin roles0 morning page_u2 [row_day8; row_in] "u2"
                  eq_refl eq_refl) row_in eq_refl).
Defined.

(** X7: an administrator who has checked in is offered [Check In]
    again after a reload as soon as another user has a row of the same
    day, and the check-in that click sends is refused as a duplicate. *)
Theorem admin_offered_check_in_again
    (roles : list user_role) (e : env) (now now' : JsDate) (st : Page)
    (tbl : list attendance) (uid : string) (own other : attendance) :
  user st = Some uid ->
  todayAttendance st = None ->
  isSubmitting st = false ->
  has_role roles uid admin = true ->
  own ∈ tbl -> user_id own = uid -> date own = yyyy_MM_dd now ->
  other ∈ tbl -> user_id other <> uid -> date other = yyyy_MM_dd now ->
  yyyy_MM_dd now' = yyyy_MM_dd now ->
  fault e = None ->
  let st' := fetchTodayAttendance None roles now st tbl in
  action st' = CheckInButton /\
  snd (click e now' st' tbl) = tbl /\
  todayAttendance (fst (click e now' st' tbl)) = None /\
  toasts (fst (click e now' st' tbl)) =
    toasts st ++
      [{| title := "Check-in failed";
          description := ("duplicate key value violates unique constraint "
                          +:+ String "034"%char "attendance_user_id_date_key"
                          +:+ String "034"%char EmptyString);
          destructive := true |}].
Proof.
  intros Hu Ht Hs Hr Hown Hou Hod Hoth Hothu Hothd Hd Hf.
  assert (Hst : fetchTodayAttendance None roles now st tbl = st).
  { destruct (filter (fun x => date x = yyyy_MM_dd now) tbl) as [| r1 [| r2 rest]] eqn:Hfl.
    - exfalso. eapply (filter_nil_not_elem_of _ tbl own Hfl); eauto.
    - exfalso.
      assert (H1 : own ∈ filter (fun x => date x = yyyy_MM_dd now) tbl)
        by (apply list_elem_of_filter; auto).
      assert (H2 : other ∈ filter (fun x => date x = yyyy_MM_dd now) tbl)
        by (apply list_elem_of_filter; auto).
      rewrite Hfl in H1, H2. apply list_elem_of_singleton in H1, H2. congruence.
    - unfold fetchTodayAttendance, select_today. rewrite Hu.
      rewrite select_today_admin by exact Hr. cbv zeta. rewrite Hfl. reflexivity. }
  cbv zeta. rewrite Hst. unfold click, action. rewrite Hs, Ht.
  split; [reflexivity |].
  assert (Hc : attendance_conflict uid (yyyy_MM_dd now') tbl = true).
  { apply attendance_conflict_spec. apply list_elem_of_fmap. exists own.
    split; [congruence | exact Hown]. }
  destruct (handleCheckIn_cases e now' st tbl)
    as [(Hu' & _) | [(uid' & msg & Hu' & Hwhy & H) | (uid' & Hu' & _ & Hc' & _)]].
  - congruence.
  - rewrite H. cbn [fst snd todayAttendance toasts]. split; [reflexivity |].
    split; [exact Ht |].
    destruct Hwhy as [? | (_ & _ & ->)]; [congruence | reflexivity].
  - assert (uid' = uid) as -> by congruence. congruence.
Qed.

Lemma admin_offered_check_in_again_witness :
  action (fetchTodayAttendance None roles0 morning page_u2 [row_u2; row_in])
  = CheckInButton /\
  snd (click env1 nine
         (fetchTodayAttendance None roles0 morning page_u2 [row_u2; row_in])
         [row_u2; row_in]) = [row_u2; row_in] /\
  map description
    (toasts (fst (click env1 nine
                    (fetchTodayAttendance None roles0 morning page_u2 [row_u2; row_in])
                    [row_u2; row_in])))
  = ["duplicate key value violates unique constraint "
       +:+ String "034"%char "attendance_user_id_date_key"
       +:+ String "034"%char EmptyString].
Proof.
  assert (H1 : row_u2 ∈ [row_u2; row_in]) by left.
  assert (H2 : row_in ∈ [row_u2; row_in]) by (right; left).
  assert (H3 : user_id row_in <> "u2") by discriminate.
  pose proof (admin_offered_check_in_again roles0 env1 morning nine page_u2
                [row_u2; row_in] "u2" row_u2 row_in
                eq_refl eq_refl eq_refl eq_refl H1 eq_refl eq_refl H2 H3 eq_refl
                eq_refl eq_refl) as H.
  cbv zeta in H. destruct H as (Ha & Ht & _ & Hto).
  split; [exact Ha |]. split; [exact Ht |]. rewrite Hto. reflexivity.
Defined.

(** X8: an administrator's check-out can land on somebody else's row:
    when the only row of today belongs to another user who has not
    checked out, the reload adopts it, the page offers [Check Out], and
    the click writes the check-out instant, and the content of the
    notes box, into that user's row. *)
Theorem admin_check_out_on_foreign_row
    (roles : list user_role) (e : env) (now now' : JsDate) (st : Page)
    (tbl : list attendance) (uid : string) (other : attendance) :
  user st = Some uid ->
  isSubmitting st = false ->
  has_role roles uid admin = true ->
  unique_ids tbl ->
  filter (fun x => date x = yyyy_MM_dd now) tbl = [other] ->
  user_id other <> uid ->
  check_out other = None ->
  fault e = None ->
  let st' := fetchTodayAttendance None roles now st tbl in
  let written := checked_out (Some (getTime now')) (Js.or_null (default "" (notes other)))
                   other in
  action st' = CheckOutButton /\
  snd (click e now' st' tbl) = update_where_id (id other) (fun _ => written) tbl /\
  written ∈ snd (click e now' st' tbl) /\
  user_id written <> uid /\
  check_out written = Some (getTime now').
Proof.
  intros Hu Hs Hr Hids Hfl Hou Hco Hf.
  assert (Hin : other ∈ tbl).
  { assert (H : other ∈ filter (fun x => date x = yyyy_MM_dd now) tbl)
      by (rewrite Hfl; left).
    apply list_elem_of_filter in H as [_ H]. exact H. }
  assert (Hst : fetchTodayAttendance None roles now st tbl
                = set_notes (default "" (notes other)) (set_today other st)).
  { unfold fetchTodayAttendance, select_today. rewrite Hu.
    rewrite select_today_admin by exact Hr. cbv zeta. rewrite Hfl. reflexivity. }
  cbv zeta. rewrite Hst. unfold click, action.
  cbn [set_notes set_today isSubmitting todayAttendance]. rewrite Hs, Hco.
  split; [reflexivity |].
  unfold handleCheckOut, update_attendance.
  cbn [todayAttendance set_submitting set_notes set_today notes_input]. rewrite Hf.
  rewrite (unique_ids_filter other tbl Hids Hin). cbn [snd].
  assert (Hupd : update_where_id (id other)
                   (fun r => {| id := id r; user_id := user_id r; date := date r;
                                check_in := check_in r;
                                check_out := Some (getTime now');
                                status := status r;
                                notes := Js.or_null (default "" (notes other)) |}) tbl
                 = update_where_id (id other)
                     (fun _ => checked_out (Some (getTime now'))
                                 (Js.or_null (default "" (notes other))) other) tbl).
  { unfold update_where_id. apply map_ext_in. intros r Hrin.
    apply list_elem_of_In in Hrin.
    destruct (bool_decide (id r = id other)) eqn:Hb; [| reflexivity].
    apply bool_decide_eq_true in Hb.
    assert (Hr' : r ∈ filter (fun x => id x = id other) tbl)
      by (apply list_elem_of_filter; auto).
    rewrite (unique_ids_filter other tbl Hids Hin) in Hr'.
    apply list_elem_of_singleton in Hr'. subst r. reflexivity. }
  split; [exact Hupd |]. split; [| split; [exact Hou | reflexivity]].
  rewrite Hupd. unfold update_where_id. apply list_elem_of_fmap.
  exists other. split; [| exact Hin].
  rewrite bool_decide_eq_true_2 by reflexivity. reflexivity.
Qed.

Lemma admin_check_out_on_foreign_row_witness :
  snd (click env1 evening
         (fetchTodayAttendance None roles0 morning page_u2 [row_day8; row_in])
         [row_day8; row_in])
  = [row_day8; row_out].
Proof.
  assert (Hids : unique_ids [row_day8; row_in]).
  { unfold unique_ids. apply (bool_decide_unpack _). vm_compute. exact I. }
  assert (Hou : user_id row_in <> "u2") by discriminate.
  pose proof (admin_check_out_on_foreign_row roles0 env1 morning evening page_u2
                [row_day8; row_in] "u2" row_in
                eq_refl eq_refl eq_refl Hids eq_refl Hou eq_refl eq_refl) as H.
  cbv zeta in H. destruct H as (_ & Ht & _). rewrite Ht. reflexivity.
Defined.

End AttendanceTableFacts.

(** ** The charts of the reports page *)

Module ReportsCountsFacts.
Import Db Reports ReportsCounts Sample Scenario.

Lemma count_status_cons s (a : attendance) (l : list attendance) :
  count_status s (a :: l)
  = ((if bool_decide (status a = s) then 1 else 0) + count_status s l)%nat.
Proof.
  unfold count_status. rewrite filter_cons.
  destruct (decide (status a = s)) as [H | H].
  - rewrite bool_decide_eq_true_2 by exact H. reflexivity.
  - rewrite bool_decide_eq_false_2 by exact H. reflexivity.
Qed.

Lemma counts_partition (l : list attendance) :
  (count_status present l + count_status late l + count_status absent l
   + count_status half_day l + count_status leave l)%nat = length l.
Proof.
  induction l as [| a l IH]; [reflexivity |].
  rewrite !count_status_cons. cbn [length]. rewrite <- IH.
  destruct (status a);
    repeat first [ rewrite bool_decide_eq_true_2 by reflexivity
                 | rewrite bool_decide_eq_false_2 by discriminate ];
    lia.
Qed.

Lemma total_value_filter (d : list Slice) :
  total_value (filter (fun x => (0 < slice_value x)%nat) d) = total_value d.
Proof.
  induction d as [| x d IH]; [reflexivity |].
  rewrite filter_cons. destruct (decide (0 < slice_value x)%nat) as [H | H].
  - change (total_value (x :: ?t)) with (slice_value x + total_value t)%nat.
    rewrite IH. reflexivity.
  - change (total_value (x :: d)) with (slice_value x + total_value d)%nat.
    rewrite IH. lia.
Qed.

(** X9: every record is counted under exactly one status: the five
    counts of [stats] add up to the number of records, and so do the
    values of the pie, whose slices are all positive; the pie is empty
    exactly when there are no records. *)
Theorem pie_adds_up (l : list attendance) :
  (n_present (stats l) + n_late (stats l) + n_absent (stats l)
   + n_half_day (stats l) + n_leave (stats l))%nat = length l /\
  total_value (pieData l) = length l /\
  Forall (fun d => (0 < slice_value d)%nat) (pieData l) /\
  (pieData l = [] <-> l = []).
Proof.
  assert (Hsum : total_value (pieData l) = length l).
  { unfold pieData. cbv zeta. rewrite total_value_filter.
    cbn [total_value foldr slice_value stats n_present n_late n_absent n_half_day n_leave].
    rewrite <- (counts_partition l). lia. }
  split; [apply counts_partition |]. split; [exact Hsum |]. split.
  - unfold pieData. apply Forall_forall. intros d Hd.
    apply list_elem_of_filter in Hd as [Hd _]. exact Hd.
  - split.
    + intros H. rewrite H in Hsum. cbn in Hsum. destruct l; [reflexivity | discriminate].
    + intros ->. reflexivity.
Qed.

Section WeeklyCounts.

Variable getDate : string -> Z.

Local Abbreviation weekNum := (weekNum getDate).
Local Abbreviation in_week := (in_week getDate).
Local Abbreviation counted := (counted getDate).
Local Abbreviation step :=
  (fun (m : gmap string Week) r => record_week_map (weekNum r) (status r) m).

Lemma in_week_cons k s (a : attendance) (l : list attendance) :
  in_week k s (a :: l)
  = ((if bool_decide (weekNum a = k /\ status a = s) then 1 else 0) + in_week k s l)%nat.
Proof.
  unfold ReportsCounts.in_week. rewrite filter_cons.
  destruct (decide (weekNum a = k /\ status a = s)) as [H | H].
  - rewrite bool_decide_eq_true_2 by exact H. reflexivity.
  - rewrite bool_decide_eq_false_2 by exact H. reflexivity.
Qed.

Lemma counted_nil k (w : Week) : counted k [] w = w.
Proof.
  destruct w. unfold ReportsCounts.counted, ReportsCounts.in_week. cbn.
  f_equal; lia.
Qed.

Lemma counted_cons_same (a : attendance) (l : list attendance) (w : Week) :
  counted (weekNum a) (a :: l) w = counted (weekNum a) l (tally (status a) w).
Proof.
  unfold ReportsCounts.counted. rewrite !in_week_cons.
  destruct w as [p la ab]. destruct (status a) eqn:Hs; cbn [tally w_present w_late w_absent];
    repeat match goal with
      | |- context [bool_decide ?P] =>
          first [ rewrite (bool_decide_eq_true_2 P) by (split; congruence)
                | rewrite (bool_decide_eq_false_2 P) by (intros [_ ?]; congruence) ]
      end; f_equal; lia.
Qed.

Lemma counted_cons_other k (a : attendance) (l : list attendance) (w : Week) :
  weekNum a <> k -> counted k (a :: l) w = counted k l w.
Proof.
  intros Hne. unfold ReportsCounts.counted. rewrite !in_week_cons.
  rewrite !bool_decide_eq_false_2 by (intros [? _]; congruence). reflexivity.
Qed.

(** The counters of week [k] after [l] has been counted into [m]. *)
Lemma weeks_map_lookup (l : list attendance) (m : gmap string Week) (k : string) :
  fold_left step l m !! k =
    if bool_decide (Exists (fun r => weekNum r = k) l)
    then Some (counted k l (default week_zero (m !! k)))
    else m !! k.
Proof.
  revert m. induction l as [| a l IH]; intros m.
  - rewrite bool_decide_eq_false_2; [reflexivity |]. intros H. inversion H.
  - cbn [fold_left]. rewrite IH. unfold record_week_map.
    destruct (decide (weekNum a = k)) as [<- | Hne].
    + rewrite lookup_insert_eq. cbn [default].
      rewrite (bool_decide_eq_true_2 (Exists _ (a :: l))) by (left; reflexivity).
      rewrite counted_cons_same.
      destruct (bool_decide (Exists (fun r => weekNum r = weekNum a) l)) eqn:Hex;
        [reflexivity |].
      apply bool_decide_eq_false in Hex. f_equal.
      clear IH. induction l as [| b l IHl]; [symmetry; apply counted_nil |].
      rewrite counted_cons_other.
      * apply IHl. intros H. apply Hex. right. exact H.
      * intros H. apply Hex. left. exact H.
    + rewrite lookup_insert_ne by exact Hne.
      rewrite counted_cons_other by exact Hne.
      destruct (decide (Exists (fun r => weekNum r = k) l)) as [Hex | Hex].
      * rewrite !bool_decide_eq_true_2; [reflexivity | right; exact Hex | exact Hex].
      * rewrite !bool_decide_eq_false_2; [reflexivity | | exact Hex].
        intros H. inversion H; subst; contradiction.
Qed.

Lemma weeks_lookup (l : list attendance) (k : string) (w : Week) :
  (k, w) ∈ weeks getDate l <->
  Exists (fun r => weekNum r = k) l /\ w = counted k l week_zero.
Proof.
  unfold weeks.
  rewrite (elem_of_list_to_map (M := gmap string))
    by (apply ReportsFacts.weeks_from_NoDup, NoDup_nil_2).
  rewrite ReportsFacts.weeks_from_as_map. cbn [list_to_map foldr].
  rewrite weeks_map_lookup, lookup_empty. cbn [default].
  destruct (decide (Exists (fun r => weekNum r = k) l)) as [Hex | Hex].
  - rewrite bool_decide_eq_true_2 by exact Hex. split.
    + intros [= <-]. auto.
    + intros [_ ->]. reflexivity.
  - rewrite bool_decide_eq_false_2 by exact Hex. split; [discriminate | tauto].
Qed.

Lemma weeklyData_names (l : list attendance) :
  map name (weeklyData getDate l) = (weeks getDate l).*1.
Proof.
  unfold weeklyData. rewrite map_map. apply map_ext. intros [k w]. reflexivity.
Qed.

Lemma weeklyData_elem (l : list attendance) (row : WeekRow) :
  row ∈ weeklyData getDate l ->
  (name row, {| w_present := row_present row; w_late := row_late row;
                w_absent := row_absent row |}) ∈ weeks getDate l.
Proof.
  unfold weeklyData. intros H. apply list_elem_of_fmap in H as ([k w] & -> & Hin).
  destruct w. exact Hin.
Qed.

(** X10: the bar chart has one bar for each week in which a record
    falls, and no other; the three numbers of a bar are the numbers of
    [present], [late] and [absent] records of that week ([half_day] and
    [leave] records make a bar but count in none of its numbers). *)
Theorem weeklyData_counts (l : list attendance) :
  NoDup (map name (weeklyData getDate l)) /\
  (forall row, row ∈ weeklyData getDate l ->
     (exists r, r ∈ l /\ weekNum r = name row) /\
     row_present row = in_week (name row) present l /\
     row_late row = in_week (name row) late l /\
     row_absent row = in_week (name row) absent l) /\
  (forall r, r ∈ l -> weekNum r ∈ map name (weeklyData getDate l)).
Proof.
  split; [| split].
  - rewrite weeklyData_names. apply ReportsFacts.weeks_from_NoDup, NoDup_nil_2.
  - intros row Hrow. apply weeklyData_elem, weeks_lookup in Hrow as [Hex Hw].
    split.
    + apply Exists_exists in Hex as (r & Hin & Hk). exists r. auto.
    + unfold ReportsCounts.counted in Hw. cbn in Hw. injection Hw as -> -> ->. auto.
  - intros r Hr. rewrite weeklyData_names.
    apply list_elem_of_fmap. exists (weekNum r, counted (weekNum r) l week_zero).
    split; [reflexivity |]. apply weeks_lookup. split; [| reflexivity].
    apply Exists_exists. exists r. auto.
Qed.

Lemma weekNum_of_day (r : attendance) :
  1 <= getDate (date r) <= 31 -> weekNum r ∈ week_names.
Proof.
  intros H. unfold Reports.weekNum, week_names.
  assert (Hn : 1 <= - (- getDate (date r) / 7) <= 5).
  { split.
    - assert (- getDate (date r) / 7 < 0) by (apply Z.div_lt_upper_bound; lia). lia.
    - assert (-5 <= - getDate (date r) / 7) by (apply Z.div_le_lower_bound; lia). lia. }
  remember (- (- getDate (date r) / 7)) as n eqn:Hn'. clear Hn' H.
  assert (Hc : n = 1 \/ n = 2 \/ n = 3 \/ n = 4 \/ n = 5) by lia.
  destruct Hc as [-> | [-> | [-> | [-> | ->]]]]; vm_compute;
    repeat first [ left; reflexivity | right ].
Qed.

(** X11: when every record's day of the month is between 1 and 31, the
    bars are named [Week 1] to [Week 5] and there are at most five of
    them. *)
Theorem weeklyData_at_most_five (l : list attendance) :
  (forall r, r ∈ l -> 1 <= getDate (date r) <= 31) ->
  (forall row, row ∈ weeklyData getDate l -> name row ∈ week_names) /\
  (length (weeklyData getDate l) <= 5)%nat.
Proof.
  intros Hday.
  assert (Hnames : forall k, k ∈ map name (weeklyData getDate l) -> k ∈ week_names).
  { intros k Hk. rewrite weeklyData_names in Hk.
    apply list_elem_of_fmap in Hk as ([k' w] & -> & Hin).
    apply weeks_lookup in Hin as [Hex _].
    apply Exists_exists in Hex as (r & Hin & <-).
    apply weekNum_of_day, Hday, Hin. }
  split.
  - intros row Hrow. apply Hnames, list_elem_of_fmap. exists row. auto.
  - rewrite <- (length_map name).
    change 5%nat with (length week_names).
    apply submseteq_length, NoDup_submseteq; [| exact Hnames].
    rewrite weeklyData_names. apply ReportsFacts.weeks_from_NoDup, NoDup_nil_2.
Qed.

End WeeklyCounts.

Lemma weeklyData_counts_witness :
  week2_bar ∈ weeklyData getDate_UTC ten_records /\
  in_week getDate_UTC "Week 2" present ten_records = 7%nat.
Proof.
  assert (H : week2_bar ∈ weeklyData getDate_UTC ten_records) by (vm_compute; left).
  split; [exact H |].
  destruct (proj1 (proj2 (weeklyData_counts getDate_UTC ten_records)) week2_bar H)
    as (_ & Hp & _).
  symmetry. exact Hp.
Defined.

Lemma weeklyData_at_most_five_witness :
  (length (weeklyData getDate_UTC ten_records) <= 5)%nat /\
  map name (weeklyData getDate_UTC ten_records) = ["Week 2"; "Week 4"; "Week 1"].
Proof.
  split; [| reflexivity].
  refine (proj2 (weeklyData_at_most_five getDate_UTC ten_records _)).
  intros r Hr. unfold ten_records in Hr.
  repeat (apply elem_of_cons in Hr as [-> | Hr]; [vm_compute; split; discriminate |]).
  apply elem_of_nil in Hr. contradiction.
Defined.

End ReportsCountsFacts.

(** ** Roles: the directory, the role change under the policies, and
       the sign-up trigger *)

Module UserDirectoryFacts.
Import Db Policies UserDirectory AdminUsers Sample Scenario.

Lemma app_role_of_string_text (s : string) (r : app_role) :
  app_role_of_string s = Some r -> role_text r = s.
Proof.
  unfold app_role_of_string.
  destruct (String.eqb_spec s "admin") as [-> | _]; [intros [= <-]; reflexivity |].
  destruct (String.eqb_spec s "user") as [-> | _]; [intros [= <-]; reflexivity |].
  discriminate.
Qed.

Lemma has_role_spec (roles : list user_role) (u : string) (r : app_role) :
  has_role roles u r = true <-> {| role_user_id := u; role := r |} ∈ roles.
Proof.
  unfold has_role. rewrite existsb_exists. split.
  - intros ([u' r'] & Hin & Hb). apply andb_true_iff in Hb as [H1 H2].
    apply bool_decide_eq_true in H1, H2. cbn in H1, H2. subst.
    apply list_elem_of_In, Hin.
  - intros Hin. eexists. split; [apply list_elem_of_In, Hin |].
    cbn. rewrite !bool_decide_eq_true_2; reflexivity.
Qed.

Lemma has_role_app (roles roles' : list user_role) (u : string) (r : app_role) :
  has_role (roles ++ roles') u r = has_role roles u r || has_role roles' u r.
Proof. unfold has_role. apply existsb_app. Qed.

Lemma has_role_filter_same (roles : list user_role) (u : string) (r : app_role) :
  has_role (filter (fun x => role_user_id x <> u) roles) u r = false.
Proof.
  apply not_true_iff_false. rewrite has_role_spec, list_elem_of_filter.
  cbn. intros [H _]. congruence.
Qed.

Lemma has_role_filter_other (roles : list user_role) (u v : string) (r : app_role) :
  v <> u ->
  has_role (filter (fun x => role_user_id x <> u) roles) v r = has_role roles v r.
Proof.
  intros Hne. apply eq_true_iff_eq. rewrite !has_role_spec, list_elem_of_filter.
  cbn. tauto.
Qed.

Lemma rolesMap_from_app (l1 l2 : list user_role) (m : gmap string string) :
  fold_left (fun m r => <[role_user_id r := role_text (role r)]> m) (l1 ++ l2) m
  = fold_left (fun m r => <[role_user_id r := role_text (role r)]> m) l2
      (fold_left (fun m r => <[role_user_id r := role_text (role r)]> m) l1 m).
Proof. apply fold_left_app. Qed.

Lemma rolesMap_from_delete (uid : string) (l : list user_role) (m : gmap string string) :
  fold_left (fun m r => <[role_user_id r := role_text (role r)]> m)
    (filter (fun r => role_user_id r <> uid) l) (delete uid m)
  = delete uid (fold_left (fun m r => <[role_user_id r := role_text (role r)]> m) l m).
Proof.
  revert m. induction l as [| a l IH]; intros m; [reflexivity |].
  rewrite filter_cons. cbn [fold_left].
  destruct (decide (role_user_id a <> uid)) as [Hne | Heq].
  - cbn [fold_left]. rewrite <- IH. f_equal.
    rewrite delete_insert_ne by congruence. reflexivity.
  - apply dec_stable in Heq. rewrite <- IH, Heq, delete_insert_eq. reflexivity.
Qed.

(** X12: after a role change that goes through, the page shows what a
    reload would show: if the role map on the page was the one built
    from the table, the optimistic update makes it the one built from
    the new table, and the user's selector shows the new role. *)
Theorem role_change_matches_reload
    (userId newRole : string) (r : app_role) (st : Page) (tbl : list user_role) :
  app_role_of_string newRole = Some r ->
  userRoles st = rolesMap tbl ->
  userRoles (fst (handleRoleChange None None userId newRole st tbl))
    = rolesMap (snd (handleRoleChange None None userId newRole st tbl)) /\
  shown_role (userRoles (fst (handleRoleChange None None userId newRole st tbl))) userId
    = newRole /\
  (forall u, u <> userId ->
     shown_role (userRoles (fst (handleRoleChange None None userId newRole st tbl))) u
     = shown_role (userRoles st) u).
Proof.
  intros Hr Hst.
  assert (H : handleRoleChange None None userId newRole st tbl =
              ({| userRoles := <[userId := newRole]> (userRoles st);
                  toasts := toasts st ++
                    [{| Attendance.title := "Role updated";
                        Attendance.description := "User role has been updated successfully.";
                        Attendance.destructive := false |}] |},
               filter (fun x => role_user_id x <> userId) tbl
                 ++ [{| role_user_id := userId; role := r |}])).
  { unfold handleRoleChange, delete_roles, insert_role. rewrite Hr.
    pose proof (has_role_filter_same tbl userId r) as Hno.
    unfold has_role in Hno. rewrite Hno. reflexivity. }
  rewrite H. cbn [fst snd userRoles]. split; [| split].
  - unfold rolesMap. rewrite rolesMap_from_app. cbn [fold_left role_user_id role].
    rewrite <- (delete_empty (M := gmap string) (A := string) userId).
    rewrite rolesMap_from_delete, insert_delete_eq.
    rewrite (app_role_of_string_text newRole r Hr), Hst. reflexivity.
  - unfold shown_role. rewrite lookup_insert_eq.
    destruct (String.eqb_spec newRole "") as [-> | _]; [discriminate | reflexivity].
  - intros u Hu. unfold shown_role. rewrite lookup_insert_ne by congruence. reflexivity.
Qed.

Lemma role_change_matches_reload_witness :
  userRoles (fst (handleRoleChange None None "u1" "admin" admin_page0 roles0))
    = rolesMap (snd (handleRoleChange None None "u1" "admin" admin_page0 roles0)) /\
  shown_role (userRoles (fst (handleRoleChange None None "u1" "admin" admin_page0 roles0)))
    "u1" = "admin".
Proof.
  assert (H : userRoles admin_page0 = rolesMap roles0).
  { vm_compute. reflexivity. }
  destruct (role_change_matches_reload "u1" "admin" Db.admin admin_page0 roles0 eq_refl H)
    as (H1 & H2 & _).
  split; assumption.
Defined.

Lemma filter_other_idem (uid : string) (tbl : list user_role) (x : user_role) :
  role_user_id x = uid ->
  filter (fun r => role_user_id r <> uid)
    (filter (fun r => role_user_id r <> uid) tbl ++ [x])
  = filter (fun r => role_user_id r <> uid) tbl.
Proof.
  intros Hx. rewrite filter_app, filter_cons_False by (intros H; exact (H Hx)).
  rewrite filter_nil, app_nil_r, list_filter_filter.
  apply list_filter_iff. intros r. tauto.
Qed.

(** X27: the last role change wins.  Two role changes of one user
    that both go through, to [role1] and then to [role2], leave the
    table and the role map of the page exactly as the change to [role2]
    alone does; so repeating a change changes nothing. *)
Theorem role_change_last_wins
    (userId role1 role2 : string) (r1 r2 : app_role) (st : Page) (tbl : list user_role) :
  app_role_of_string role1 = Some r1 ->
  app_role_of_string role2 = Some r2 ->
  let once := handleRoleChange None None userId role1 st tbl in
  snd (handleRoleChange None None userId role2 (fst once) (snd once))
    = snd (handleRoleChange None None userId role2 st tbl) /\
  userRoles (fst (handleRoleChange None None userId role2 (fst once) (snd once)))
    = userRoles (fst (handleRoleChange None None userId role2 st tbl)).
Proof.
  intros H1 H2.
  assert (H : forall role r st tbl,
            app_role_of_string role = Some r ->
            handleRoleChange None None userId role st tbl =
              ({| userRoles := <[userId := role]> (userRoles st);
                  toasts := toasts st ++
                    [{| Attendance.title := "Role updated";
                        Attendance.description :=
                          "User role has been updated successfully.";
                        Attendance.destructive := false |}] |},
               filter (fun x => role_user_id x <> userId) tbl
                 ++ [{| role_user_id := userId; role := r |}])).
  { intros role r st0 tbl0 Hr. unfold handleRoleChange, delete_roles, insert_role.
    rewrite Hr. pose proof (has_role_filter_same tbl0 userId r) as Hno.
    unfold has_role in Hno. rewrite Hno. reflexivity. }
  cbv zeta. rewrite (H role1 r1 st tbl H1). cbn [fst snd].
  rewrite !(H role2 r2 _ _ H2). cbn [fst snd userRoles]. split.
  - rewrite filter_other_idem by reflexivity. reflexivity.
  - apply insert_insert_eq.
Qed.

Lemma role_change_last_wins_witness :
  snd (handleRoleChange None None "u1" "user"
         (fst (handleRoleChange None None "u1" "admin" admin_page0 roles0))
         (snd (handleRoleChange None None "u1" "admin" admin_page0 roles0)))
  = [ {| role_user_id := "u2"; role := Db.admin |};
      {| role_user_id := "u1"; role := Db.user |} ].
Proof.
  pose proof (role_change_last_wins "u1" "admin" "user" Db.admin Db.user
                admin_page0 roles0 eq_refl eq_refl) as H.
  cbv zeta in H. destruct H as [H _]. rewrite H. reflexivity.
Defined.

(** What [handleRoleChange_as] comes to for an administrator. *)
Lemma handleRoleChange_as_admin (caller userId newRole : string) (st : Page)
    (tbl : list user_role) :
  has_role tbl caller admin = true ->
  handleRoleChange_as caller userId newRole st tbl =
    let tbl1 := filter (fun x => role_user_id x <> userId) tbl in
    match app_role_of_string newRole with
    | None =>
        ({| userRoles := userRoles st;
            toasts := toasts st ++
              [{| Attendance.title := "Failed to update role";
                  Attendance.description := "invalid input value for enum app_role";
                  Attendance.destructive := true |}] |}, tbl1)
    | Some r =>
        if has_role tbl1 caller admin then
          ({| userRoles := <[userId := newRole]> (userRoles st);
              toasts := toasts st ++
                [{| Attendance.title := "Role updated";
                    Attendance.description := "User role has been updated successfully.";
                    Attendance.destructive := false |}] |},
           tbl1 ++ [{| role_user_id := userId; role := r |}])
        else
          ({| userRoles := userRoles st;
              toasts := toasts st ++
                [{| Attendance.title := "Failed to update role";
                    Attendance.description :=
                      "new row violates row-level security policy for table user_roles";
                    Attendance.destructive := true |}] |}, tbl1)
    end.
Proof.
  intros Hadm. unfold handleRoleChange_as, delete_roles_as, insert_role_as.
  rewrite Hadm. cbv zeta.
  destruct (app_role_of_string newRole) as [r |]; [| reflexivity].
  destruct (has_role (filter _ tbl) caller admin); cbn [negb]; [| reflexivity].
  pose proof (has_role_filter_same tbl userId r) as Hno.
  unfold has_role in Hno. rewrite Hno. reflexivity.
Qed.

(** X13: an administrator who changes their own role, to whatever
    value, ends with no role at all: the delete removes the row that
    made them an administrator, so the policy refuses the insert that
    follows; the page reports a failure and the table holds no row of
    theirs. *)
Theorem admin_self_change_locks_out
    (caller newRole : string) (st : Page) (tbl : list user_role) :
  has_role tbl caller admin = true ->
  snd (handleRoleChange_as caller caller newRole st tbl)
    = filter (fun x => role_user_id x <> caller) tbl /\
  (forall r, has_role (snd (handleRoleChange_as caller caller newRole st tbl)) caller r
             = false) /\
  userRoles (fst (handleRoleChange_as caller caller newRole st tbl)) = userRoles st /\
  (exists message,
     toasts (fst (handleRoleChange_as caller caller newRole st tbl)) =
       toasts st ++ [{| Attendance.title := "Failed to update role";
                        Attendance.description := message;
                        Attendance.destructive := true |}]).
Proof.
  intros Hadm. rewrite (handleRoleChange_as_admin caller caller newRole st tbl Hadm).
  cbv zeta. rewrite has_role_filter_same.
  destruct (app_role_of_string newRole) as [r |]; cbn [fst snd userRoles toasts];
    (split; [reflexivity |]); (split; [intros r'; apply has_role_filter_same |]);
    (split; [reflexivity |]); eexists; reflexivity.
Qed.

Lemma admin_self_change_locks_out_witness :
  snd (handleRoleChange_as "u2" "u2" "admin" admin_page0 roles0)
    = [{| role_user_id := "u1"; role := Db.user |}] /\
  has_role (snd (handleRoleChange_as "u2" "u2" "admin" admin_page0 roles0)) "u2" Db.admin
    = false.
Proof.
  destruct (admin_self_change_locks_out "u2" "admin" admin_page0 roles0 eq_refl)
    as (H1 & H2 & _).
  split; [rewrite H1; reflexivity | apply H2].
Defined.

(** X14: an administrator who changes another user's role to a value
    of the enum succeeds: afterwards that user has the new role and no
    other, nobody else's roles have changed, and the caller is still an
    administrator. *)
Theorem admin_changes_other_role
    (caller userId newRole : string) (r : app_role) (st : Page) (tbl : list user_role) :
  has_role tbl caller admin = true ->
  userId <> caller ->
  app_role_of_string newRole = Some r ->
  let tbl' := snd (handleRoleChange_as caller userId newRole st tbl) in
  tbl' = filter (fun x => role_user_id x <> userId) tbl
           ++ [{| role_user_id := userId; role := r |}] /\
  (forall r', has_role tbl' userId r' = bool_decide (r' = r)) /\
  (forall u r', u <> userId -> has_role tbl' u r' = has_role tbl u r') /\
  has_role tbl' caller admin = true /\
  userRoles (fst (handleRoleChange_as caller userId newRole st tbl))
    = <[userId := newRole]> (userRoles st).
Proof.
  intros Hadm Hne Hr. cbv zeta.
  rewrite (handleRoleChange_as_admin caller userId newRole st tbl Hadm).
  cbv zeta. rewrite Hr, has_role_filter_other, Hadm by congruence.
  cbn [fst snd userRoles].
  assert (Hother : forall u r', u <> userId ->
            has_role (filter (fun x => role_user_id x <> userId) tbl
                        ++ [{| role_user_id := userId; role := r |}]) u r'
            = has_role tbl u r').
  { intros u r' Hu. rewrite has_role_app, has_role_filter_other by exact Hu.
    unfold has_role at 2. cbn [existsb role_user_id].
    rewrite (bool_decide_eq_false_2 (userId = u)) by congruence.
    cbn. apply orb_false_r. }
  split; [reflexivity |]. split; [| split; [exact Hother |]].
  - intros r'. rewrite has_role_app, has_role_filter_same.
    unfold has_role. cbn [existsb role_user_id role orb].
    rewrite bool_decide_eq_true_2 by reflexivity. cbn [andb]. rewrite orb_false_r.
    apply bool_decide_ext. split; congruence.
  - split; [| reflexivity]. rewrite Hother by congruence. exact Hadm.
Qed.

Lemma admin_changes_other_role_witness :
  snd (handleRoleChange_as "u2" "u1" "admin" admin_page0 roles0)
    = [ {| role_user_id := "u2"; role := Db.admin |};
        {| role_user_id := "u1"; role := Db.admin |} ].
Proof.
  assert (Hne : "u1" <> "u2") by discriminate.
  pose proof (admin_changes_other_role "u2" "u1" "admin" Db.admin admin_page0 roles0
                eq_refl Hne eq_refl) as H.
  cbv zeta in H. destruct H as (H & _). rewrite H. reflexivity.
Defined.

(** X15: a caller who is no administrator changes nothing: whatever
    user and role the request names, the caller's own included, the
    table stays as it is, the role map on the page is not touched and
    the page reports a failure. *)
Theorem non_admin_changes_nothing
    (caller userId newRole : string) (st : Page) (tbl : list user_role) :
  has_role tbl caller admin = false ->
  snd (handleRoleChange_as caller userId newRole st tbl) = tbl /\
  userRoles (fst (handleRoleChange_as caller userId newRole st tbl)) = userRoles st /\
  (exists message,
     toasts (fst (handleRoleChange_as caller userId newRole st tbl)) =
       toasts st ++ [{| Attendance.title := "Failed to update role";
                        Attendance.description := message;
                        Attendance.destructive := true |}]).
Proof.
  intros Hadm. unfold handleRoleChange_as, delete_roles_as, insert_role_as.
  rewrite Hadm. destruct (app_role_of_string newRole) as [r |];
    rewrite ?Hadm; cbn [negb fst snd userRoles toasts]; repeat split;
    eexists; reflexivity.
Qed.

Lemma non_admin_changes_nothing_witness :
  snd (handleRoleChange_as "u1" "u1" "admin" admin_page0 roles0) = roles0.
Proof.
  exact (proj1 (non_admin_changes_nothing "u1" "u1" "admin" admin_page0 roles0 eq_refl)).
Defined.

Lemma lower_idem (a : ascii) : lower (lower a) = lower a.
Proof. destruct a as [[] [] [] [] [] [] [] []]; reflexivity. Qed.

Lemma toLowerCase_idem (s : string) : toLowerCase (toLowerCase s) = toLowerCase s.
Proof.
  induction s as [| a s IH]; [reflexivity |].
  cbn [toLowerCase]. rewrite lower_idem, IH. reflexivity.
Qed.

Lemma startsWith_lower (p s : string) :
  Js.startsWith p s = true -> Js.startsWith (toLowerCase p) (toLowerCase s) = true.
Proof.
  revert s. induction p as [| a p IH]; intros s; [reflexivity |].
  destruct s as [| b s]; [discriminate |].
  cbn [Js.startsWith toLowerCase]. intros H. apply andb_true_iff in H as [Hab Hps].
  apply Ascii.eqb_eq in Hab. subst b.
  rewrite Ascii.eqb_refl. cbn [andb]. apply IH, Hps.
Qed.

Lemma includes_eq (p s : string) :
  Js.includes p s =
    Js.startsWith p s ||
    match s with
    | EmptyString => false
    | String _ s' => Js.includes p s'
    end.
Proof. destruct s; reflexivity. Qed.

Lemma includes_lower (p s : string) :
  Js.includes p s = true -> Js.includes (toLowerCase p) (toLowerCase s) = true.
Proof.
  induction s as [| b s IH]; rewrite includes_eq, (includes_eq (toLowerCase p));
    intros H; apply orb_true_iff in H as [H | H].
  - rewrite (startsWith_lower p "" H). reflexivity.
  - discriminate.
  - rewrite (startsWith_lower p (String b s) H). reflexivity.
  - cbn [toLowerCase]. rewrite (IH H). apply orb_true_r.
Qed.

Lemma includes_empty (s : string) : Js.includes "" s = true.
Proof. rewrite includes_eq. destruct s; reflexivity. Qed.

(** X16: the search of the directory, for names, e-mail addresses and
    queries written in Latin-1 (code units below 256, which is all a
    [string] holds here; with other characters, such as a Greek final
    sigma, lower-casing is not letter by letter and the third part
    does not hold).  With an empty query every profile is listed; the
    listed profiles are always a sublist of the loaded ones, in their
    order; and a profile whose name or e-mail contains some text is
    listed for every query that differs from that text only in the case
    of its letters. *)
Theorem filteredProfiles_search (profiles : list profile) :
  filteredProfiles "" profiles = profiles /\
  (forall q, filteredProfiles q profiles `sublist_of` profiles) /\
  (forall text q p,
     p ∈ profiles ->
     toLowerCase q = toLowerCase text ->
     Js.includes text (full_name p) = true \/ Js.includes text (email p) = true ->
     p ∈ filteredProfiles q profiles).
Proof.
  split; [| split].
  - unfold filteredProfiles. induction profiles as [| p ps IH]; [reflexivity |].
    rewrite filter_cons_True; [f_equal; exact IH |].
    cbn [toLowerCase]. rewrite includes_empty. reflexivity.
  - intros q. apply sublist_filter.
  - intros text q p Hin Hq Hinc. unfold filteredProfiles.
    apply list_elem_of_filter. split; [| exact Hin].
    rewrite Hq. apply orb_true_iff.
    destruct Hinc as [H | H]; [left | right]; apply includes_lower, H.
Qed.

Lemma filteredProfiles_search_witness :
  profile_ada ∈ filteredProfiles "LOVE" [profile_bob; profile_ada] /\
  filteredProfiles "LOVE" [profile_bob; profile_ada] = [profile_ada].
Proof.
  split; [| reflexivity].
  refine (proj2 (proj2 (filteredProfiles_search [profile_bob; profile_ada]))
            "Love" "LOVE" profile_ada _ eq_refl _).
  - right. left.
  - left. reflexivity.
Defined.

(** X17: the sign-up trigger.  When it goes through, the new account
    has a profile whose name is the one given at sign-up, or the e-mail
    address when none was given, and the role [user]; it does not make
    anybody an administrator, the new account included, and it leaves
    every other account's roles as they were. *)
Theorem handle_new_user_default_role
    (fresh : string) (NEW : auth_user) (profiles profiles' : list profile)
    (roles roles' : list user_role) :
  handle_new_user fresh NEW profiles roles = Data (profiles', roles') ->
  has_role roles' (auth_id NEW) user = true /\
  (forall u, has_role roles' u admin = has_role roles u admin) /\
  (forall u r, u <> auth_id NEW -> has_role roles' u r = has_role roles u r) /\
  (exists p,
     profiles' = profiles ++ [p] /\
     profile_user_id p = auth_id NEW /\
     auth_email NEW = Some (email p) /\
     full_name p = default (email p) (meta_full_name NEW)).
Proof.
  unfold handle_new_user, COALESCE.
  destruct (auth_email NEW) as [mail |] eqn:Hmail;
    [| destruct (meta_full_name NEW); discriminate].
  assert (Hname : match meta_full_name NEW with
                  | Some a => Some a
                  | None => Some mail
                  end = Some (default mail (meta_full_name NEW)))
    by (destruct (meta_full_name NEW); reflexivity).
  destruct (meta_full_name NEW) as [name |] eqn:Hmeta; cbn [default] in *;
    destruct (existsb _ profiles); try discriminate;
    destruct (existsb _ roles); try discriminate;
    intros [= <- <-];
    (split; [rewrite has_role_app; unfold has_role at 2; cbn;
             rewrite !bool_decide_eq_true_2 by reflexivity; apply orb_true_r |]);
    (split; [intros u; rewrite has_role_app; unfold has_role at 2; cbn;
             rewrite (bool_decide_eq_false_2 (user = admin)) by discriminate;
             rewrite andb_false_r; apply orb_false_r |]);
    (split; [intros u r Hu; rewrite has_role_app; unfold has_role at 2; cbn;
             rewrite (bool_decide_eq_false_2 (auth_id NEW = u)) by congruence;
             apply orb_false_r |]);
    eexists; repeat split.
Qed.

Lemma handle_new_user_default_role_witness :
  handle_new_user "p3" new_user [] roles0 =
    Data ([{| profile_id := "p3"; profile_user_id := "u3";
              full_name := "eve@example.org"; email := "eve@example.org";
              department := None |}],
          roles0 ++ [{| role_user_id := "u3"; role := Db.user |}]) /\
  has_role (roles0 ++ [{| role_user_id := "u3"; role := Db.user |}]) "u3" Db.user = true /\
  has_role (roles0 ++ [{| role_user_id := "u3"; role := Db.user |}]) "u3" Db.admin = false.
Proof.
  split; [reflexivity |].
  destruct (handle_new_user_default_role "p3" new_user [] _ roles0 _ eq_refl)
    as (H1 & H2 & _).
  split; [exact H1 | rewrite H2; reflexivity].
Defined.

End UserDirectoryFacts.

(** ** The gateway handler on every request *)

Module GatewayRequestsFacts.
Import Db Gateway GatewayRequests Sample Scenario.

Lemma json_response_status (st : Z) (message : string) :
  res_status (json_response st message) = st /\
  res_headers (json_response st message)
    = corsHeaders ++ [("Content-Type", "application/json")] /\
  res_body (json_response st message) = Some (error_body message).
Proof. repeat split. Qed.

(** The upstream response translated: the status is one of four, and
    the upstream body is passed on only with [200]. *)
Lemma translate_cases (r : Upstream) :
  (ok r = true /\
   translate r = ({| res_status := 200;
                     res_headers := corsHeaders ++ [("Content-Type", "text/event-stream")];
                     res_body := Some (up_body r) |}, [])) \/
  (ok r = false /\
   exists st message log,
     translate r = (json_response st message, log) /\
     (st = 429 \/ st = 402 \/ st = 500) /\
     (log <> [] -> st = 500)).
Proof.
  unfold translate. destruct (ok r); cbn [negb]; [left; auto | right].
  split; [reflexivity |].
  destruct (up_status r =? 429); [do 3 eexists; split; [reflexivity |]; split; [auto | congruence] |].
  destruct (up_status r =? 402); do 3 eexists; split; try reflexivity; split; auto; congruence.
Qed.

(** The leaves of [handler], the successful one apart: a JSON error
    with one of the four error statuses. *)
Lemma handler_cases (w : World) (req : Request) :
  (String.eqb (method req) "OPTIONS" = true /\
   handler w req = ({| res_status := 200; res_headers := corsHeaders; res_body := None |}, []))
  \/
  (String.eqb (method req) "OPTIONS" = false /\
   exists st message log,
     handler w req = (json_response st message, log) /\
     (st = 401 \/ st = 402 \/ st = 429 \/ st = 500) /\
     (log <> [] -> st = 500) /\
     (st = 401 <-> (forall m, body req <> BodyInvalid m) /\ unauthenticated w req))
  \/
  (String.eqb (method req) "OPTIONS" = false /\
   (forall m, body req <> BodyInvalid m) /\ ~ unauthenticated w req /\
   exists r,
     forwarded w req r /\ ok r = true /\
     handler w req = ({| res_status := 200;
                         res_headers := corsHeaders ++ [("Content-Type", "text/event-stream")];
                         res_body := Some (up_body r) |}, [])).
Proof.
  unfold handler, unauthenticated, caught.
  destruct (String.eqb (method req) "OPTIONS") eqn:Hm; [left; auto | right].
  destruct (body req) as [m | m | messages] eqn:Hb.
  - left. split; [reflexivity |]. do 3 eexists. split; [reflexivity |].
    split; [auto |]. split; [auto |]. split; [discriminate |].
    intros [H _]. exfalso. exact (H m eq_refl).
  - destruct (authorization req) as [authHeader |] eqn:Ha.
    2:{ left. split; [reflexivity |]. do 3 eexists. split; [reflexivity |].
        split; [auto |]. split; [congruence |]. split; [| reflexivity].
        intros _. split; [discriminate | exact I]. }
    destruct (String.eqb_spec authHeader "") as [He | He].
    { left. split; [reflexivity |]. do 3 eexists. split; [reflexivity |].
      split; [auto |]. split; [congruence |]. split; [| reflexivity].
      intros _. split; [discriminate | auto]. }
    destruct (getUser w (Js.remove_first "Bearer " authHeader)) as [uid | msg] eqn:Hg.
    2:{ left. split; [reflexivity |]. do 3 eexists. split; [reflexivity |].
        split; [auto |]. split; [congruence |]. split; [| reflexivity].
        intros _. split; [discriminate | eauto]. }
    left. split; [reflexivity |].
    assert (Hno : ~ (authHeader = "" \/ exists message : string, Data uid = Error message)).
    { intros [? | [? ?]]; [contradiction | discriminate]. }
    destruct (LOVABLE_API_KEY w) as [key |];
      [destruct (String.eqb key "") |];
      do 3 eexists; (split; [reflexivity |]); (split; [auto 6 |]);
      (split; [try congruence; reflexivity |]);
      (split; [discriminate | intros [_ H]; contradiction]).
  - destruct (authorization req) as [authHeader |] eqn:Ha.
    2:{ left. split; [reflexivity |]. do 3 eexists. split; [reflexivity |].
        split; [auto |]. split; [congruence |]. split; [| reflexivity].
        intros _. split; [discriminate | exact I]. }
    destruct (String.eqb_spec authHeader "") as [He | He].
    { left. split; [reflexivity |]. do 3 eexists. split; [reflexivity |].
      split; [auto |]. split; [congruence |]. split; [| reflexivity].
      intros _. split; [discriminate | auto]. }
    destruct (getUser w (Js.remove_first "Bearer " authHeader)) as [uid | msg] eqn:Hg.
    2:{ left. split; [reflexivity |]. do 3 eexists. split; [reflexivity |].
        split; [auto |]. split; [congruence |]. split; [| reflexivity].
        intros _. split; [discriminate | eauto]. }
    assert (Hno : ~ (authHeader = "" \/ exists message : string, Data uid = Error message)).
    { intros [? | [? ?]]; [contradiction | discriminate]. }
    destruct (LOVABLE_API_KEY w) as [key |] eqn:Hk.
    2:{ left. split; [reflexivity |]. do 3 eexists. split; [reflexivity |].
        split; [auto 6 |]. split; [reflexivity |].
        split; [discriminate | intros [_ H]; contradiction]. }
    destruct (String.eqb_spec key "") as [Hke | Hke].
    { left. split; [reflexivity |]. do 3 eexists. split; [reflexivity |].
      split; [auto 6 |]. split; [reflexivity |].
      split; [discriminate | intros [_ H]; contradiction]. }
    destruct (fetch_upstream w key _) as [r | msg] eqn:Hf.
    2:{ left. split; [reflexivity |]. do 3 eexists. split; [reflexivity |].
        split; [auto 6 |]. split; [reflexivity |].
        split; [discriminate | intros [_ H]; contradiction]. }
    destruct (translate_cases r) as [[Hok ->] | (Hok & st & message & log & -> & Hst & Hlog)].
    + right. split; [reflexivity |]. split; [discriminate |]. split; [exact Hno |].
      exists r. split; [| auto].
      exists authHeader, uid, key, messages. rewrite Hm. repeat split; auto.
    + left. split; [reflexivity |]. exists st, message, log. split; [reflexivity |].
      split; [tauto |]. split; [exact Hlog |].
      split; [intros ->; exfalso; destruct Hst as [? | [? | ?]]; discriminate
             | intros [_ H]; contradiction].
Qed.

(** X18: whatever the request and whatever the services answer, the
    handler returns one of the statuses 200, 401, 402, 429 and 500 with
    the CORS headers first; a status other than 200 comes with a JSON
    error body; a 200 is either the answer to a preflight or carries
    the body of an upstream response that was itself successful; and
    something is written to the log only with a 500. *)
Theorem handler_contract (w : World) (req : Request) :
  res_status (fst (handler w req)) ∈ statuses /\
  (exists more, res_headers (fst (handler w req)) = corsHeaders ++ more) /\
  (res_status (fst (handler w req)) <> 200 ->
   exists message, res_body (fst (handler w req)) = Some (error_body message)) /\
  (res_status (fst (handler w req)) = 200 ->
   String.eqb (method req) "OPTIONS" = true \/
   exists r, forwarded w req r /\ ok r = true /\
             res_body (fst (handler w req)) = Some (up_body r)) /\
  (snd (handler w req) <> [] -> res_status (fst (handler w req)) = 500).
Proof.
  destruct (handler_cases w req)
    as [(Hm & ->) | [(Hm & st & message & log & -> & Hst & Hlog & _)
                    | (Hm & _ & _ & r & Hfw & Hok & ->)]];
    cbn [fst snd res_status res_headers res_body json_response].
  - split; [unfold statuses; left |]. split; [exists []; symmetry; apply app_nil_r |].
    split; [congruence |]. split; [auto | congruence].
  - split; [unfold statuses; destruct Hst as [-> | [-> | [-> | ->]]];
            repeat constructor |].
    split; [eexists; reflexivity |]. split; [eauto |].
    split; [| exact Hlog].
    intros ->. destruct Hst as [? | [? | [? | ?]]]; discriminate.
  - split; [unfold statuses; left |]. split; [eexists; reflexivity |].
    split; [congruence |]. split; [eauto | congruence].
Qed.

Lemma handler_contract_witness :
  snd (handler (world_answering 503 "upstream down") chat_request) <> [] /\
  res_status (fst (handler (world_answering 503 "upstream down") chat_request)) = 500.
Proof.
  assert (H : snd (handler (world_answering 503 "upstream down") chat_request) <> [])
    by discriminate.
  split; [exact H |].
  exact (proj2 (proj2 (proj2 (proj2
           (handler_contract (world_answering 503 "upstream down") chat_request)))) H).
Defined.

(** X19: the handler answers 401 exactly when the request is not a
    preflight, its body could be read, and it carries no credential the
    identity service accepts; a request whose body cannot be read is
    answered before the credential is looked at, and never with 401. *)
Theorem handler_401_iff (w : World) (req : Request) :
  res_status (fst (handler w req)) = 401 <->
  String.eqb (method req) "OPTIONS" = false /\
  (forall m, body req <> BodyInvalid m) /\
  unauthenticated w req.
Proof.
  destruct (handler_cases w req)
    as [(Hm & ->) | [(Hm & st & message & log & -> & _ & _ & H401)
                    | (Hm & Hb & Hauth & r & _ & _ & ->)]];
    cbn [fst res_status json_response].
  - split; [discriminate | intros [H _]; congruence].
  - rewrite H401. tauto.
  - split; [discriminate | intros (_ & _ & H); contradiction].
Qed.

Lemma handler_401_iff_witness :
  res_status (fst (handler echo_world (with_authorization "Bearer nobody" chat_request)))
    = 401.
Proof.
  apply (proj2 (handler_401_iff echo_world
                  (with_authorization "Bearer nobody" chat_request))).
  split; [reflexivity |]. split; [intros m; discriminate |].
  right. exists "invalid JWT". reflexivity.
Defined.

Lemma remove_first_eq (p s : string) :
  Js.remove_first p s =
    if Js.startsWith p s then Js.slice_from (String.length p) s
    else match s with
         | EmptyString => EmptyString
         | String a s' => String a (Js.remove_first p s')
         end.
Proof. destruct s; reflexivity. Qed.

(** [replace] leaves a string that does not contain the pattern as it
    is. *)
Lemma remove_first_absent (p s : string) :
  Js.includes p s = false -> Js.remove_first p s = s.
Proof.
  induction s as [| a s IH]; rewrite UserDirectoryFacts.includes_eq, remove_first_eq; intros H;
    apply orb_false_iff in H as [H1 H2]; rewrite H1; [reflexivity |].
  rewrite (IH H2). reflexivity.
Qed.

(** X20: the scheme word of the [Authorization] header is optional:
    a token sent bare is treated exactly as the same token sent after
    [Bearer ], whatever the rest of the request and whatever the
    services answer. *)
Theorem bearer_prefix_optional (w : World) (req : Request) (token : string) :
  token <> "" ->
  Js.includes "Bearer " token = false ->
  handler w (with_authorization token req)
  = handler w (with_authorization ("Bearer " +:+ token) req).
Proof.
  intros Hne Hinc. unfold handler, with_authorization.
  cbn [method authorization body].
  change (Js.remove_first "Bearer " ("Bearer " +:+ token)) with token.
  rewrite (remove_first_absent "Bearer " token Hinc).
  destruct (String.eqb_spec token "") as [? | _]; [contradiction |].
  change (String.eqb ("Bearer " +:+ token) "") with false. reflexivity.
Qed.

Lemma bearer_prefix_optional_witness :
  handler echo_world (with_authorization "token-u1" chat_request)
  = handler echo_world chat_request /\
  res_status (fst (handler echo_world (with_authorization "token-u1" chat_request))) = 200.
Proof.
  assert (Hne : "token-u1" <> "") by discriminate.
  split; [exact (bearer_prefix_optional echo_world chat_request "token-u1" Hne eq_refl) |].
  reflexivity.
Defined.

End GatewayRequestsFacts.

(** ** The reply a stream produces *)

Module ChatFacts.
Import Js AIAssistant Chat Sample Scenario JsFacts AIAssistantFacts.

Lemma lines_spec (s : string) :
  Forall (fun x => indexOf LF x = None) (lines s).1 /\
  indexOf LF (lines s).2 = None /\
  s = unlines (lines s).1 +:+ (lines s).2.
Proof.
  induction s as [| a s (IH1 & IH2 & IH3)]; [repeat split; constructor |].
  cbn [lines]. destruct (lines s) as [ls tail]. cbn [fst snd] in *.
  destruct (Ascii.eqb_spec a LF) as [-> | Hne]; cbn [fst snd].
  - split; [constructor; [reflexivity | exact IH1] |]. split; [exact IH2 |].
    rewrite unlines_cons_app. cbn. rewrite <- IH3. reflexivity.
  - assert (Ha : Ascii.eqb a LF = false) by (apply Ascii.eqb_neq, Hne).
    destruct ls as [| l ls]; cbn [fst snd].
    + split; [constructor |]. split; [apply indexOf_String_None; assumption |].
      cbn in IH3. rewrite IH3. reflexivity.
    + inversion IH1 as [| ? ? Hl Hls]; subst.
      split; [constructor; [apply indexOf_String_None; assumption | exact Hls] |].
      split; [exact IH2 |].
      rewrite !unlines_cons_app. reflexivity.
Qed.

Section ReplyFacts.

Variable JSON_parse : string -> option json.
Variable Number_toString : float -> string.

Local Abbreviation step_of := (step_of JSON_parse Number_toString).
Local Abbreviation process_line := (process_line JSON_parse Number_toString).
Local Abbreviation read_loop := (read_loop JSON_parse Number_toString).
Local Abbreviation Drains := (Drains JSON_parse Number_toString).
Local Abbreviation emitted := (emitted JSON_parse Number_toString).
Local Abbreviation terminated := (terminated JSON_parse Number_toString).
Local Abbreviation assistant c := {| role := role_assistant; content := c |}.

Lemma running_app (acc : string) (cs ds : list string) :
  running acc (cs ++ ds) = running acc cs ++ running (acc +:+ text_of cs) ds.
Proof.
  revert acc. induction cs as [| c cs IH]; intros acc.
  - cbn. rewrite append_empty_r. reflexivity.
  - cbn [app running]. rewrite IH. cbn [text_of foldr].
    rewrite append_assoc. reflexivity.
Qed.

(** A loop that ends without the flag has read every chunk. *)
Lemma read_loop_unread (chunks : list string) (st r : Consumer) (u : list string) :
  read_loop chunks st = Some (r, u) -> streamDone r = false -> u = [].
Proof.
  revert st. induction chunks as [| value rest IH]; intros st.
  - cbn [AIAssistant.read_loop]. destruct (streamDone st); intros [= <- <-]; reflexivity.
  - cbn [AIAssistant.read_loop]. destruct (streamDone st) eqn:Hd.
    + intros [= <- <-]. congruence.
    + destruct (AIAssistant.on_chunk JSON_parse Number_toString value st) as [st' |];
        [apply IH | discriminate].
Qed.

(** Draining a buffer of complete lines: what is appended is what the
    lines emit. *)
Lemma Drains_emitted (ls : list string) (tail : string) :
  Forall (fun x => indexOf LF x = None) ls ->
  indexOf LF tail = None ->
  forall st,
    textBuffer st = unlines ls +:+ tail ->
    exists r,
      Drains st r /\
      assistantContent r = assistantContent st +:+ text_of (emitted ls) /\
      updates r = updates st ++ running (assistantContent st) (emitted ls) /\
      (forall base,
         AIAssistant.messages st = base ++ [assistant (assistantContent st)] ->
         AIAssistant.messages r = base ++ [assistant (assistantContent r)]) /\
      streamDone r = streamDone st || terminated ls.
Proof.
  intros Hls Htail. induction Hls as [| x ls Hx Hls IH]; intros st Hb.
  - exists st. split; [apply Drains_end; rewrite Hb; exact Htail |].
    cbn [Chat.emitted Chat.terminated text_of foldr running].
    rewrite append_empty_r, app_nil_r, orb_false_r. auto.
  - rewrite unlines_cons_app in Hb.
    destruct (indexOf_line LF x (unlines ls +:+ tail) Hx) as (Hi & Hto & Hfrom).
    cbn [Chat.emitted Chat.terminated].
    destruct (step_of x) as [| | c | back] eqn:Hs.
    + destruct (IH (set_buffer (unlines ls +:+ tail) st) eq_refl)
        as (r & Hr & H1 & H2 & H3 & H4).
      exists r. split; [| auto].
      eapply Drains_continue; [rewrite Hb; exact Hi | | exact Hr].
      rewrite Hb, Hto, Hfrom. unfold AIAssistant.process_line. rewrite Hs. reflexivity.
    + exists (set_done (set_buffer (unlines ls +:+ tail) st)). split.
      * eapply Drains_break; [rewrite Hb; exact Hi |].
        rewrite Hb, Hto, Hfrom. unfold AIAssistant.process_line. rewrite Hs. reflexivity.
      * cbn [set_done set_buffer assistantContent updates AIAssistant.messages
               streamDone text_of foldr running].
        rewrite append_empty_r, app_nil_r, orb_true_r. auto.
    + destruct (IH (append_content c (set_buffer (unlines ls +:+ tail) st)) eq_refl)
        as (r & Hr & H1 & H2 & H3 & H4).
      cbn [append_content set_buffer assistantContent updates AIAssistant.messages
             streamDone] in H1, H2, H3, H4.
      exists r. split; [| split; [| split; [| split; [| exact H4]]]].
      * eapply Drains_continue; [rewrite Hb; exact Hi | | exact Hr].
        rewrite Hb, Hto, Hfrom. unfold AIAssistant.process_line. rewrite Hs. reflexivity.
      * rewrite H1. cbn [text_of foldr]. apply append_assoc.
      * rewrite H2, <- app_assoc. reflexivity.
      * intros base Hm. apply H3. rewrite Hm. apply set_last_app.
    + exists (set_buffer (back +:+ String LF EmptyString +:+ (unlines ls +:+ tail)) st).
      split.
      * eapply Drains_break; [rewrite Hb; exact Hi |].
        rewrite Hb, Hto, Hfrom. unfold AIAssistant.process_line. rewrite Hs. reflexivity.
      * cbn [set_buffer assistantContent updates AIAssistant.messages
               streamDone text_of foldr running].
        rewrite append_empty_r, app_nil_r, orb_false_r. auto.
Qed.

(** The read loop on a stream whose text is [ls] and [tail]. *)
Lemma read_loop_emitted (chunks ls : list string) (tail : string)
    (prev : list Message) (messageText : string) :
  Forall (fun x => indexOf LF x = None) ls ->
  indexOf LF tail = None ->
  text_of chunks = unlines ls +:+ tail ->
  exists r u,
    read_loop chunks (start prev messageText) = Some (r, u) /\
    assistantContent r = text_of (emitted ls) /\
    updates r = running "" (emitted ls) /\
    AIAssistant.messages r =
      prev ++ [ {| role := role_user; content := messageText |};
                assistant (text_of (emitted ls)) ] /\
    streamDone r = terminated ls.
Proof.
  intros Hls Htail Htext.
  destruct (read_loop_total JSON_parse Number_toString chunks (start prev messageText))
    as (r & u & Hrun).
  destruct (Drains_emitted ls tail Hls Htail
              (set_buffer (textBuffer (start prev messageText) +:+ text_of chunks)
                 (start prev messageText)))
    as (r2 & Hr2 & H1 & H2 & H3 & H4).
  { cbn [set_buffer textBuffer start]. exact Htext. }
  cbn [set_buffer start assistantContent updates AIAssistant.messages streamDone orb]
    in H1, H2, H3, H4.
  destruct (read_loop_text JSON_parse Number_toString chunks
              (start prev messageText) r r2 u eq_refl (or_introl eq_refl) Hrun Hr2)
    as (Hd & Ha & Hm & Hu).
  exists r, u. split; [exact Hrun |].
  rewrite Ha, Hm, Hu, Hd, H1, H2, H4. split; [reflexivity |]. split; [reflexivity |].
  split; [| reflexivity].
  rewrite (H3 (prev ++ [{| role := role_user; content := messageText |}])).
  - rewrite H1, <- app_assoc. reflexivity.
  - rewrite <- app_assoc. reflexivity.
Qed.

(** X21: the reply a stream produces.  For a body that ends after
    finitely many chunks, however it is cut into them, the loop leaves
    in the assistant message the contents of the [data:] lines of the
    body's text one after the other, up to the first line that is the
    terminator or is pushed back (its payload does not parse, or its
    content has no conversion to a string); the message was updated
    once per content, each update extending the one before; the
    messages before it are untouched; the loop has stopped on the
    terminator exactly when the lines reach it, and the chunks it has
    not read are then left unread. *)
Theorem reply_is_the_emitted_contents
    (chunks : list string) (prev : list Message) (messageText : string) :
  let ls := (lines (text_of chunks)).1 in
  exists r u,
    read_loop chunks (start prev messageText) = Some (r, u) /\
    assistantContent r = text_of (emitted ls) /\
    updates r = running "" (emitted ls) /\
    AIAssistant.messages r =
      prev ++ [ {| role := role_user; content := messageText |};
                assistant (text_of (emitted ls)) ] /\
    streamDone r = terminated ls /\
    (terminated ls = false -> u = []).
Proof.
  cbv zeta. destruct (lines_spec (text_of chunks)) as (Hls & Htail & Htext).
  destruct (read_loop_emitted chunks _ _ prev messageText Hls Htail Htext)
    as (r & u & Hrun & Ha & Hu & Hm & Hd).
  exists r, u. repeat (split; [assumption |]).
  intros Hno. rewrite Hno in Hd.
  exact (read_loop_unread chunks (start prev messageText) r u Hrun Hd).
Qed.

Lemma endsWith_append_CR (l : string) :
  endsWith CR (l +:+ String CR EmptyString) = true /\
  drop_last (l +:+ String CR EmptyString) = l.
Proof.
  induction l as [| a l [IH1 IH2]]; [split; reflexivity |].
  rewrite append_cons. destruct l as [| b l].
  - split; reflexivity.
  - rewrite append_cons in *. split.
    + exact IH1.
    + change (drop_last (String a (String b (l +:+ String CR EmptyString))))
        with (String a (drop_last (String b (l +:+ String CR EmptyString)))).
      rewrite IH2. reflexivity.
Qed.

Lemma indexOf_append_CR (l : string) :
  indexOf LF l = None -> indexOf LF (l +:+ String CR EmptyString) = None.
Proof.
  induction l as [| a l IH]; [reflexivity |].
  rewrite append_cons. cbn [indexOf].
  destruct (Ascii.eqb a LF); [discriminate |].
  destruct (indexOf LF l); [discriminate |]. intros _. rewrite IH; reflexivity.
Qed.

Lemma step_of_CR (l : string) :
  endsWith CR l = false -> step_of (l +:+ String CR EmptyString) = step_of l.
Proof.
  intros H. unfold AIAssistant.step_of.
  destruct (endsWith_append_CR l) as [-> ->]. rewrite H. reflexivity.
Qed.

Lemma emitted_CR (ls : list string) :
  Forall (fun l => endsWith CR l = false) ls ->
  emitted (map (fun l => l +:+ String CR EmptyString) ls) = emitted ls.
Proof.
  induction 1 as [| l ls Hl _ IH]; [reflexivity |].
  cbn [map Chat.emitted]. rewrite (step_of_CR l Hl), IH. reflexivity.
Qed.

(** X22: line ends.  A stream whose lines end in CR LF produces the
    same reply, through the same updates, as the stream of the same
    lines ending in LF, however each of the two is cut into chunks. *)
Theorem crlf_stream_same_reply
    (chunks chunks' ls : list string) (tail tail' : string)
    (prev : list Message) (messageText : string) :
  Forall (fun l => indexOf LF l = None) ls ->
  Forall (fun l => endsWith CR l = false) ls ->
  indexOf LF tail = None ->
  indexOf LF tail' = None ->
  text_of chunks = unlines ls +:+ tail ->
  text_of chunks' = unlines (map (fun l => l +:+ String CR EmptyString) ls) +:+ tail' ->
  exists r u r' u',
    read_loop chunks (start prev messageText) = Some (r, u) /\
    read_loop chunks' (start prev messageText) = Some (r', u') /\
    assistantContent r' = assistantContent r /\
    updates r' = updates r /\
    AIAssistant.messages r' = AIAssistant.messages r.
Proof.
  intros Hls Hcr Htail Htail' Htext Htext'.
  destruct (read_loop_emitted chunks ls tail prev messageText Hls Htail Htext)
    as (r & u & Hrun & Ha & Hu & Hm & _).
  destruct (read_loop_emitted chunks' _ tail' prev messageText
              ltac:(apply Forall_map; eapply Forall_impl; [exact Hls |];
                    intros l Hl; apply indexOf_append_CR, Hl)
              Htail' Htext')
    as (r' & u' & Hrun' & Ha' & Hu' & Hm' & _).
  rewrite (emitted_CR ls Hcr) in Ha', Hu', Hm'.
  exists r, u, r', u'. repeat split; congruence.
Qed.

Lemma step_of_noise (h : string) :
  startsWith ":" h = true \/ trim h = "" -> step_of h = Skip.
Proof.
  intros H. unfold AIAssistant.step_of.
  assert (Hs : startsWith ":" (if endsWith CR h then drop_last h else h)
               || String.eqb (trim (if endsWith CR h then drop_last h else h)) ""
               = true).
  { destruct (endsWith CR h) eqn:He.
    - destruct H as [H | H].
      + destruct h as [| a [| b h]]; [discriminate | |].
        * rewrite startsWith_cons in H. apply andb_true_iff in H as [H _].
          change (endsWith CR (String a EmptyString)) with (Ascii.eqb a CR) in He.
          apply Ascii.eqb_eq in H, He. subst a. discriminate.
        * change (drop_last (String a (String b h)))
            with (String a (drop_last (String b h))).
          rewrite startsWith_cons in *. apply andb_true_iff in H as [-> _]. reflexivity.
      + rewrite (trim_drop_last CR h He eq_refl), H. apply orb_true_r.
    - destruct H as [-> | ->]; [reflexivity | apply orb_true_r]. }
  rewrite Hs. reflexivity.
Qed.

Lemma emitted_noise (before after : list string) (h : string) :
  step_of h = Skip -> emitted (before ++ h :: after) = emitted (before ++ after).
Proof.
  intros Hh. induction before as [| x before IH]; cbn [app Chat.emitted].
  - rewrite Hh. reflexivity.
  - rewrite IH. reflexivity.
Qed.

(** X23: comments and blank lines.  A line that starts with a colon,
    such as a keep-alive comment, or that is blank, can be put anywhere
    between the lines of a stream without changing the reply or the
    updates that lead to it. *)
Theorem comment_lines_are_ignored
    (chunks chunks' before after : list string) (h tail : string)
    (prev : list Message) (messageText : string) :
  Forall (fun l => indexOf LF l = None) (before ++ after) ->
  indexOf LF h = None ->
  startsWith ":" h = true \/ trim h = "" ->
  indexOf LF tail = None ->
  text_of chunks = unlines (before ++ after) +:+ tail ->
  text_of chunks' = unlines (before ++ h :: after) +:+ tail ->
  exists r u r' u',
    read_loop chunks (start prev messageText) = Some (r, u) /\
    read_loop chunks' (start prev messageText) = Some (r', u') /\
    assistantContent r' = assistantContent r /\
    updates r' = updates r /\
    AIAssistant.messages r' = AIAssistant.messages r.
Proof.
  intros Hls Hh Hnoise Htail Htext Htext'.
  destruct (read_loop_emitted chunks _ tail prev messageText Hls Htail Htext)
    as (r & u & Hrun & Ha & Hu & Hm & _).
  assert (Hls' : Forall (fun l => indexOf LF l = None) (before ++ h :: after)).
  { apply Forall_app in Hls as [H1 H2]. apply Forall_app. split; [exact H1 |].
    constructor; assumption. }
  destruct (read_loop_emitted chunks' _ tail prev messageText Hls' Htail Htext')
    as (r' & u' & Hrun' & Ha' & Hu' & Hm' & _).
  rewrite (emitted_noise before after h (step_of_noise h Hnoise)) in Ha', Hu', Hm'.
  exists r, u, r', u'. repeat split; congruence.
Qed.

End ReplyFacts.

(** X21 on a stream whose first line carries a content with no
    conversion to a string, cut after its tenth character: the line is
    pushed back and nothing that follows it is shown. *)
Lemma reply_is_the_emitted_contents_witness :
  exists r u,
    read_loop JsonText.JSON_parse JsonText.Number_toString
      (cut_at_ten tostring_stream) (start [] "Was I late?") = Some (r, u) /\
    assistantContent r = "" /\
    streamDone r = false /\
    u = [].
Proof.
  destruct (reply_is_the_emitted_contents JsonText.JSON_parse JsonText.Number_toString
              (cut_at_ten tostring_stream) [] "Was I late?")
    as (r & u & Hrun & Ha & _ & _ & Hd & Hu).
  exists r, u. split; [exact Hrun |].
  split; [rewrite Ha; vm_compute; reflexivity |].
  assert (Hno : terminated JsonText.JSON_parse JsonText.Number_toString
                  (lines (text_of (cut_at_ten tostring_stream))).1 = false)
    by (vm_compute; reflexivity).
  split; [rewrite Hd; exact Hno | exact (Hu Hno)].
Defined.

Lemma crlf_stream_same_reply_witness :
  exists r' u',
    read_loop JsonText.JSON_parse JsonText.Number_toString
      (cut_at_ten hello_stream_crlf) (start [] "Was I late?") = Some (r', u') /\
    assistantContent r' = "Hello" /\
    updates r' = ["Hello"].
Proof.
  assert (H1 : Forall (fun l => indexOf LF l = None) [hello_line; done_line])
    by (repeat constructor).
  assert (H2 : Forall (fun l => endsWith CR l = false) [hello_line; done_line])
    by (repeat constructor).
  destruct (crlf_stream_same_reply JsonText.JSON_parse JsonText.Number_toString
              (one_chunk hello_stream) (cut_at_ten hello_stream_crlf)
              [hello_line; done_line] "" "" [] "Was I late?"
              H1 H2 eq_refl eq_refl eq_refl eq_refl)
    as (r & u & r' & u' & Hr & Hr' & Ha & Hu & _).
  exists r', u'. split; [exact Hr' |].
  vm_compute in Hr. injection Hr as <- <-.
  split; [rewrite Ha | rewrite Hu]; reflexivity.
Defined.

Lemma comment_lines_are_ignored_witness :
  exists r' u',
    read_loop JsonText.JSON_parse JsonText.Number_toString
      (cut_at_ten hello_stream_keepalive) (start [] "Was I late?") = Some (r', u') /\
    assistantContent r' = "Hello" /\
    updates r' = ["Hello"].
Proof.
  assert (H1 : Forall (fun l => indexOf LF l = None) ([hello_line] ++ [done_line]))
    by (repeat constructor).
  destruct (comment_lines_are_ignored JsonText.JSON_parse JsonText.Number_toString
              (one_chunk hello_stream) (cut_at_ten hello_stream_keepalive)
              [hello_line] [done_line] ": keep-alive" "" [] "Was I late?"
              H1 eq_refl (or_introl eq_refl) eq_refl eq_refl eq_refl)
    as (r & u & r' & u' & Hr & Hr' & Ha & Hu & _).
  exists r', u'. split; [exact Hr' |].
  vm_compute in Hr. injection Hr as <- <-.
  split; [rewrite Ha | rewrite Hu]; reflexivity.
Defined.

End ChatFacts.

(** ** [sendMessage] from start to end *)

Module SendMessageFacts.
Import Js AIAssistant Chat Sample Scenario JsFacts AIAssistantFacts ChatFacts.

Section SendMessageFacts.

Variable JSON_parse : string -> option json.
Variable Number_toString : float -> string.

Local Abbreviation read_loop := (read_loop JSON_parse Number_toString).
Local Abbreviation emitted := (emitted JSON_parse Number_toString).
Local Abbreviation terminated := (terminated JSON_parse Number_toString).
Local Abbreviation sendMessage := (sendMessage JSON_parse Number_toString).
Local Abbreviation user_message t := {| role := role_user; content := t |}.
Local Abbreviation assistant c := {| role := role_assistant; content := c |}.
Local Abbreviation error_toast :=
  {| Attendance.title := "Error";
     Attendance.description := "Failed to get AI response. Please try again.";
     Attendance.destructive := true |}.

Lemma read_loop_reply (chunks : list string) (prev : list Message) (messageText : string) :
  exists r u,
    read_loop chunks (start prev messageText) = Some (r, u) /\
    AIAssistant.messages r =
      prev ++ [user_message messageText;
               assistant (text_of (emitted (lines (text_of chunks)).1))] /\
    streamDone r = terminated (lines (text_of chunks)).1.
Proof.
  destruct (lines_spec (text_of chunks)) as (Hls & Htail & Htext).
  destruct (read_loop_emitted JSON_parse Number_toString chunks _ _ prev messageText
              Hls Htail Htext) as (r & u & Hrun & _ & _ & Hm & Hd).
  exists r, u. auto.
Qed.

Lemma trim_nonempty (s : string) : trim s <> "" -> s <> "".
Proof. intros H ->. apply H. reflexivity. Qed.

Lemma filter_nonempty_shown (prev : list Message) (messageText : string) :
  messageText <> "" ->
  filter (fun m => content m <> "") (prev ++ [user_message messageText])
  = filter (fun m => content m <> "") prev ++ [user_message messageText].
Proof.
  intros H. rewrite filter_app. f_equal.
  rewrite filter_cons_True by exact H. reflexivity.
Qed.

(** X24: [sendMessage] from start to end, cause by cause.  A blank
    text, or a send while another is under way, changes nothing.
    Otherwise the question is put on the page and the input cleared,
    and then: if the request fails, or the response is neither 429 nor
    402 and is no success or has no body, the error toast is shown and
    the messages with empty content are dropped; on 429 and on 402 the
    toast of that status is shown; on a success with a body, the reply
    of the stream stands after the question, with no toast if the
    stream reaches its terminator or ends, and with the error toast,
    empty messages dropped, if reading it fails before the terminator.
    In each of these cases [isLoading] is [false] at the end.  If the
    request never settles, or the body stays open without reaching the
    terminator, the call does not return and [isLoading] stays
    [true]. *)
Theorem sendMessage_outcome
    (fetch : list Message -> Fetched) (messageText : string) (st : Page) :
  (trim messageText = "" \/ isLoading st = true ->
   sendMessage fetch messageText st = Some st) /\
  (trim messageText <> "" -> isLoading st = false ->
   (fetch (Chat.messages st ++ [user_message messageText]) = Rejected ->
    sendMessage fetch messageText st =
      Some {| Chat.messages :=
                filter (fun m => content m <> "") (Chat.messages st)
                  ++ [user_message messageText];
              input := ""; isLoading := false;
              Chat.toasts := Chat.toasts st ++ [error_toast] |}) /\
   (fetch (Chat.messages st ++ [user_message messageText]) = Unsettled ->
    sendMessage fetch messageText st =
      Some {| Chat.messages := Chat.messages st ++ [user_message messageText];
              input := ""; isLoading := true;
              Chat.toasts := Chat.toasts st |}) /\
   (forall response,
      fetch (Chat.messages st ++ [user_message messageText]) = Responded response ->
      (status response = 429 ->
       sendMessage fetch messageText st =
         Some {| Chat.messages := Chat.messages st ++ [user_message messageText];
                 input := ""; isLoading := false;
                 Chat.toasts := Chat.toasts st ++
                   [{| Attendance.title := "Rate limit exceeded";
                       Attendance.description := "Please try again in a moment.";
                       Attendance.destructive := true |}] |}) /\
      (status response = 402 ->
       sendMessage fetch messageText st =
         Some {| Chat.messages := Chat.messages st ++ [user_message messageText];
                 input := ""; isLoading := false;
                 Chat.toasts := Chat.toasts st ++
                   [{| Attendance.title := "Credits required";
                       Attendance.description :=
                         "Please add credits to continue using AI features.";
                       Attendance.destructive := true |}] |}) /\
      (status response <> 429 -> status response <> 402 ->
       (status response < 200 \/ 299 < status response \/ body response = None) ->
       sendMessage fetch messageText st =
         Some {| Chat.messages :=
                   filter (fun m => content m <> "") (Chat.messages st)
                     ++ [user_message messageText];
                 input := ""; isLoading := false;
                 Chat.toasts := Chat.toasts st ++ [error_toast] |}) /\
      (forall b,
         200 <= status response <= 299 ->
         body response = Some b ->
         let ls := (lines (text_of (chunks b))).1 in
         let replied :=
           Chat.messages st ++
             [user_message messageText; assistant (text_of (emitted ls))] in
         (terminated ls = true \/ ending b = EndOfStream ->
          sendMessage fetch messageText st =
            Some {| Chat.messages := replied; input := ""; isLoading := false;
                    Chat.toasts := Chat.toasts st |}) /\
         (terminated ls = false -> ending b = ReadError ->
          sendMessage fetch messageText st =
            Some {| Chat.messages := filter (fun m => content m <> "") replied;
                    input := ""; isLoading := false;
                    Chat.toasts := Chat.toasts st ++ [error_toast] |}) /\
         (terminated ls = false -> ending b = StaysOpen ->
          sendMessage fetch messageText st =
            Some {| Chat.messages := replied; input := ""; isLoading := true;
                    Chat.toasts := Chat.toasts st |})))).
Proof.
  unfold Chat.sendMessage. split.
  - intros [-> | ->]; [reflexivity | rewrite orb_true_r; reflexivity].
  - intros Htrim Hload. rewrite Hload.
    destruct (String.eqb_spec (trim messageText) "") as [? | _]; [contradiction |].
    cbn [orb]. pose proof (trim_nonempty messageText Htrim) as Hne.
    assert (Hfail : failed (Chat.messages st ++ [user_message messageText]) st
                    = {| Chat.messages :=
                           filter (fun m => content m <> "") (Chat.messages st)
                             ++ [user_message messageText];
                         input := ""; isLoading := false;
                         Chat.toasts := Chat.toasts st ++ [error_toast] |}).
    { unfold failed, finished. rewrite (filter_nonempty_shown _ _ Hne). reflexivity. }
    split; [intros ->; rewrite Hfail; reflexivity |].
    split; [intros ->; reflexivity |].
    intros response ->. split; [| split; [| split]].
    + intros ->. reflexivity.
    + intros ->. reflexivity.
    + intros H429 H402 Hbad.
      destruct (Z.eqb_spec (status response) 429) as [? | _]; [contradiction |].
      destruct (Z.eqb_spec (status response) 402) as [? | _]; [contradiction |].
      assert (Hnone : (if ok response then body response else None) = None).
      { unfold ok. destruct Hbad as [H | [H | H]].
        - destruct (Z.leb_spec 200 (status response)); [lia | reflexivity].
        - destruct (Z.leb_spec (status response) 299); [lia |].
          rewrite andb_false_r. reflexivity.
        - rewrite H. destruct (_ && _); reflexivity. }
      rewrite Hnone, Hfail. reflexivity.
    + intros b Hok Hb. cbv zeta.
      destruct (Z.eqb_spec (status response) 429) as [? | _]; [lia |].
      destruct (Z.eqb_spec (status response) 402) as [? | _]; [lia |].
      assert (Ho : ok response = true).
      { unfold ok. apply andb_true_iff. split; apply Z.leb_le; lia. }
      rewrite Ho, Hb.
      destruct (read_loop_reply (chunks b) (Chat.messages st) messageText)
        as (r & u & -> & Hm & Hd).
      rewrite Hd, Hm. split; [| split].
      * intros [-> | He]; [reflexivity |]. rewrite He.
        destruct (terminated _); reflexivity.
      * intros -> ->. reflexivity.
      * intros -> ->. reflexivity.
Qed.

End SendMessageFacts.

(** X24 on a response whose body breaks off after one event, on a
    blank text, and on a request that never settles. *)
Lemma sendMessage_outcome_witness :
  sendMessage JsonText.JSON_parse JsonText.Number_toString
    (fun _ => Responded broken_response) "   " chat_page0 = Some chat_page0 /\
  sendMessage JsonText.JSON_parse JsonText.Number_toString
    (fun _ => Responded broken_response) "Was I late?" chat_page0 =
    Some {| Chat.messages := [ {| role := role_user; content := "Was I late?" |};
                               {| role := role_assistant; content := "Hello" |} ];
            input := ""; isLoading := false;
            Chat.toasts :=
              [{| Attendance.title := "Error";
                  Attendance.description := "Failed to get AI response. Please try again.";
                  Attendance.destructive := true |}] |} /\
  sendMessage JsonText.JSON_parse JsonText.Number_toString
    (fun _ => Unsettled) "Was I late?" chat_page0 =
    Some {| Chat.messages := [ {| role := role_user; content := "Was I late?" |} ];
            input := ""; isLoading := true; Chat.toasts := [] |}.
Proof.
  assert (Hne : trim "Was I late?" <> "") by discriminate.
  split; [| split].
  - apply (proj1 (sendMessage_outcome JsonText.JSON_parse JsonText.Number_toString
                    (fun _ => Responded broken_response) "   " chat_page0)).
    left. reflexivity.
  - destruct (proj2 (sendMessage_outcome JsonText.JSON_parse JsonText.Number_toString
                       (fun _ => Responded broken_response) "Was I late?" chat_page0)
                Hne eq_refl) as (_ & _ & H).
    destruct (H broken_response eq_refl) as (_ & _ & _ & Hb).
    assert (Hok : 200 <= status broken_response <= 299) by (cbn; lia).
    pose proof (Hb _ Hok eq_refl) as Hs. cbv zeta in Hs.
    destruct Hs as (_ & Hs & _).
    rewrite Hs; [vm_compute; reflexivity | vm_compute; reflexivity | reflexivity].
  - destruct (proj2 (sendMessage_outcome JsonText.JSON_parse JsonText.Number_toString
                       (fun _ => Unsettled) "Was I late?" chat_page0)
                Hne eq_refl) as (_ & H & _).
    rewrite (H eq_refl). reflexivity.
Defined.

End SendMessageFacts.

(** ** The page and the function together *)

Module EndToEndFacts.
Import Db Js AIAssistant Chat EndToEnd Sample Scenario JsFacts ChatFacts SendMessageFacts.

Section EndToEndFacts.

Variable JSON_parse : string -> option json.
Variable Number_toString : float -> string.

Local Abbreviation read_loop := (read_loop JSON_parse Number_toString).
Local Abbreviation emitted := (emitted JSON_parse Number_toString).
Local Abbreviation sendMessage := (sendMessage JSON_parse Number_toString).
Local Abbreviation user_message t := {| role := role_user; content := t |}.
Local Abbreviation assistant c := {| role := role_assistant; content := c |}.

Lemma request_token (key : string) :
  Js.remove_first "Bearer " ("Bearer " +:+ key) = key /\
  String.eqb ("Bearer " +:+ key) "" = false.
Proof. split; reflexivity. Qed.

(** X25: the page sends the project's publishable key where the
    function expects the user's token.  Whenever the identity service
    rejects that key, the function answers with status 401, the JSON
    body [{"error":"Invalid token"}] and the JSON content type after
    the CORS headers, and logs nothing, whatever the database and the
    upstream service would have answered; and the question ends in the
    error toast: it stays on the page and no reply is added. *)
Theorem publishable_key_is_rejected
    (w : Gateway.World) (key : string) (chunking : string -> list string)
    (messageText message : string) (st : Page) :
  Gateway.getUser w key = Error message ->
  trim messageText <> "" ->
  isLoading st = false ->
  Gateway.handler w (request key (Chat.messages st ++ [user_message messageText]))
    = ({| Gateway.res_status := 401;
          Gateway.res_headers :=
            [ ("Access-Control-Allow-Origin", "*");
              ("Access-Control-Allow-Headers",
               "authorization, x-client-info, apikey, content-type");
              ("Content-Type", "application/json") ];
          Gateway.res_body :=
            Some ("{" +:+ Gateway.dq +:+ "error" +:+ Gateway.dq +:+ ":" +:+ Gateway.dq
                  +:+ "Invalid token" +:+ Gateway.dq +:+ "}") |}, []) /\
  sendMessage (fetch w key chunking) messageText st =
    Some {| Chat.messages :=
              filter (fun m => content m <> "") (Chat.messages st)
                ++ [user_message messageText];
            input := "";
            isLoading := false;
            Chat.toasts := Chat.toasts st ++
              [{| Attendance.title := "Error";
                  Attendance.description := "Failed to get AI response. Please try again.";
                  Attendance.destructive := true |}] |}.
Proof.
  intros Hg Htrim Hload.
  assert (Hh : forall msgs,
            Gateway.handler w (request key msgs)
            = (Gateway.json_response 401 "Invalid token", [])).
  { intros msgs. unfold Gateway.handler, request.
    cbn [Gateway.method Gateway.authorization Gateway.body].
    change (String.eqb "POST" "OPTIONS") with false. cbv iota.
    destruct (request_token key) as [-> ->]. rewrite Hg. reflexivity. }
  split; [rewrite Hh; reflexivity |].
  unfold Chat.sendMessage, fetch. rewrite Hload, Hh.
  destruct (String.eqb_spec (trim messageText) "") as [? | _]; [contradiction |].
  cbn [orb fst Gateway.json_response Gateway.res_status Gateway.res_body status].
  change (401 =? 429) with false. change (401 =? 402) with false. cbv iota.
  unfold ok. cbn [status]. change ((200 <=? 401) && (401 <=? 299)) with false. cbv iota.
  unfold failed, finished. f_equal. f_equal.
  rewrite filter_app. f_equal.
  rewrite filter_cons_True; [reflexivity |].
  apply (trim_nonempty messageText Htrim).
Qed.

(** X26: a question answered.  When the identity service accepts the
    key, the gateway credential is configured, the upstream service
    answers with a success status and the transport delivers its body
    unchanged, in whatever chunks, and then ends it, the page ends with
    the question and one assistant message holding the contents of the
    [data:] lines of that body up to the first line that is the
    terminator or is pushed back, with no toast. *)
Theorem answered_question_shows_reply
    (w : Gateway.World) (key uid apikey : string) (chunking : string -> list string)
    (messageText : string) (st : Page) (r : Gateway.Upstream) :
  Gateway.getUser w key = Data uid ->
  Gateway.LOVABLE_API_KEY w = Some apikey ->
  apikey <> "" ->
  Gateway.fetch_upstream w apikey
    ({| Gateway.msg_role := "system";
        Gateway.msg_content :=
          Gateway.systemPrompt w (Gateway.fetch_profile w uid)
            (Gateway.fetch_attendance w uid) |}
       :: map (fun m => {| Gateway.msg_role := role_name (role m);
                           Gateway.msg_content := content m |})
            (Chat.messages st ++ [user_message messageText])) = Data r ->
  Gateway.ok r = true ->
  text_of (chunking (Gateway.up_body r)) = Gateway.up_body r ->
  trim messageText <> "" ->
  isLoading st = false ->
  sendMessage (fetch w key chunking) messageText st =
    Some {| Chat.messages :=
              Chat.messages st ++
                [user_message messageText;
                 assistant (text_of (emitted (lines (Gateway.up_body r)).1))];
            input := "";
            isLoading := false;
            Chat.toasts := Chat.toasts st |}.
Proof.
  intros Hg Hk Hkne Hup Hok Hchunk Htrim Hload.
  assert (Hh : Gateway.handler w
                 (request key (Chat.messages st ++ [user_message messageText]))
               = ({| Gateway.res_status := 200;
                     Gateway.res_headers :=
                       Gateway.corsHeaders ++ [("Content-Type", "text/event-stream")];
                     Gateway.res_body := Some (Gateway.up_body r) |}, [])).
  { apply GatewayFacts.handler_streams; [| exact Hok].
    exists ("Bearer " +:+ key), uid, apikey,
      (map (fun m => {| Gateway.msg_role := role_name (role m);
                        Gateway.msg_content := content m |})
         (Chat.messages st ++ [user_message messageText])).
    destruct (request_token key) as [Ht _]. rewrite Ht.
    repeat split; try assumption; try reflexivity. discriminate. }
  unfold Chat.sendMessage, fetch. rewrite Hload, Hh.
  destruct (String.eqb_spec (trim messageText) "") as [? | _]; [contradiction |].
  cbn [orb fst Gateway.res_status Gateway.res_body status].
  change (200 =? 429) with false. change (200 =? 402) with false. cbv iota.
  unfold ok. cbn [status body]. change ((200 <=? 200) && (200 <=? 299)) with true.
  cbv iota. cbn [chunks ending].
  destruct (read_loop_reply JSON_parse Number_toString (chunking (Gateway.up_body r))
              (Chat.messages st) messageText) as (r' & u & -> & Hm & _).
  rewrite Hchunk in Hm. rewrite Hm.
  destruct (AIAssistant.streamDone r'); reflexivity.
Qed.

(** X28: an upstream refusal as the page shows it.  When the request
    is let through to the upstream service and that service answers
    with a status that is no success, the page keeps the question and
    adds no reply; it shows the rate-limit toast for an upstream 429,
    the credits toast for an upstream 402, and the error toast, after
    dropping the messages with empty content, for any other status. *)
Theorem upstream_refusal_on_the_page
    (w : Gateway.World) (key uid apikey : string) (chunking : string -> list string)
    (messageText : string) (st : Page) (r : Gateway.Upstream) :
  Gateway.getUser w key = Data uid ->
  Gateway.LOVABLE_API_KEY w = Some apikey ->
  apikey <> "" ->
  Gateway.fetch_upstream w apikey
    ({| Gateway.msg_role := "system";
        Gateway.msg_content :=
          Gateway.systemPrompt w (Gateway.fetch_profile w uid)
            (Gateway.fetch_attendance w uid) |}
       :: map (fun m => {| Gateway.msg_role := role_name (role m);
                           Gateway.msg_content := content m |})
            (Chat.messages st ++ [user_message messageText])) = Data r ->
  Gateway.ok r = false ->
  trim messageText <> "" ->
  isLoading st = false ->
  (Gateway.up_status r = 429 ->
   sendMessage (fetch w key chunking) messageText st =
     Some (finished (Chat.messages st ++ [user_message messageText])
             (Chat.toasts st ++
                [{| Attendance.title := "Rate limit exceeded";
                    Attendance.description := "Please try again in a moment.";
                    Attendance.destructive := true |}]))) /\
  (Gateway.up_status r = 402 ->
   sendMessage (fetch w key chunking) messageText st =
     Some (finished (Chat.messages st ++ [user_message messageText])
             (Chat.toasts st ++
                [{| Attendance.title := "Credits required";
                    Attendance.description :=
                      "Please add credits to continue using AI features.";
                    Attendance.destructive := true |}]))) /\
  (Gateway.up_status r <> 429 -> Gateway.up_status r <> 402 ->
   sendMessage (fetch w key chunking) messageText st =
     Some (failed (Chat.messages st ++ [user_message messageText]) st)).
Proof.
  intros Hg Hk Hkne Hup Hok Htrim Hload.
  assert (Hh : Gateway.handler w
                 (request key (Chat.messages st ++ [user_message messageText]))
               = Gateway.translate r).
  { apply GatewayFacts.handler_forwarded.
    exists ("Bearer " +:+ key), uid, apikey,
      (map (fun m => {| Gateway.msg_role := role_name (role m);
                        Gateway.msg_content := content m |})
         (Chat.messages st ++ [user_message messageText])).
    destruct (request_token key) as [Ht _]. rewrite Ht.
    repeat split; try assumption; try reflexivity. discriminate. }
  unfold Chat.sendMessage, fetch. rewrite Hload, Hh.
  destruct (String.eqb_spec (trim messageText) "") as [? | _]; [contradiction |].
  cbn [orb]. unfold Gateway.translate. rewrite Hok. cbn [negb].
  split; [| split].
  - intros ->. reflexivity.
  - intros ->. reflexivity.
  - intros H429 H402.
    destruct (Z.eqb_spec (Gateway.up_status r) 429) as [? | _]; [contradiction |].
    destruct (Z.eqb_spec (Gateway.up_status r) 402) as [? | _]; [contradiction |].
    reflexivity.
Qed.

End EndToEndFacts.

Lemma upstream_refusal_on_the_page_witness :
  sendMessage JsonText.JSON_parse JsonText.Number_toString
    (fetch (world_answering 429 "slow down") "token-u1" one_chunk)
    "Was I late?" chat_page0 =
    Some {| Chat.messages := [ {| role := role_user; content := "Was I late?" |} ];
            input := "";
            isLoading := false;
            Chat.toasts :=
              [{| Attendance.title := "Rate limit exceeded";
                  Attendance.description := "Please try again in a moment.";
                  Attendance.destructive := true |}] |}.
Proof.
  assert (Hne : trim "Was I late?" <> "") by discriminate.
  assert (Hkey : "key" <> "") by discriminate.
  exact (proj1 (upstream_refusal_on_the_page JsonText.JSON_parse JsonText.Number_toString
                  (world_answering 429 "slow down") "token-u1" "u1" "key" one_chunk
                  "Was I late?" chat_page0
                  {| Gateway.up_status := 429; Gateway.up_body := "slow down" |}
                  eq_refl eq_refl Hkey eq_refl eq_refl Hne eq_refl) eq_refl).
Defined.

Lemma publishable_key_is_rejected_witness :
  Gateway.res_status
    (fst (Gateway.handler echo_world (request "anon-key" [ {| role := role_user;
                                                              content := "Was I late?" |} ])))
    = 401 /\
  sendMessage JsonText.JSON_parse JsonText.Number_toString
    (fetch echo_world "anon-key" one_chunk) "Was I late?" chat_page0 =
    Some {| Chat.messages := [ {| role := role_user; content := "Was I late?" |} ];
            input := "";
            isLoading := false;
            Chat.toasts :=
              [{| Attendance.title := "Error";
                  Attendance.description := "Failed to get AI response. Please try again.";
                  Attendance.destructive := true |}] |}.
Proof.
  assert (Hne : trim "Was I late?" <> "") by discriminate.
  destruct (publishable_key_is_rejected JsonText.JSON_parse JsonText.Number_toString
              echo_world "anon-key" one_chunk "Was I late?" "invalid JWT" chat_page0
              eq_refl Hne eq_refl) as [Hh Hs].
  split; [| exact Hs].
  change (Chat.messages chat_page0 ++ [ {| role := role_user; content := "Was I late?" |} ])
    with [ {| role := role_user; content := "Was I late?" |} ] in Hh.
  rewrite Hh. reflexivity.
Defined.

Lemma answered_question_shows_reply_witness :
  sendMessage JsonText.JSON_parse JsonText.Number_toString
    (fetch (world_answering 200 hello_stream) "token-u1" cut_at_ten)
    "Was I late?" chat_page0 =
    Some {| Chat.messages := [ {| role := role_user; content := "Was I late?" |};
                               {| role := role_assistant; content := "Hello" |} ];
            input := "";
            isLoading := false;
            Chat.toasts := [] |}.
Proof.
  assert (Hne : trim "Was I late?" <> "") by discriminate.
  assert (Hkey : "key" <> "") by discriminate.
  rewrite (answered_question_shows_reply JsonText.JSON_parse JsonText.Number_toString
             (world_answering 200 hello_stream) "token-u1" "u1" "key" cut_at_ten
             "Was I late?" chat_page0
             {| Gateway.up_status := 200; Gateway.up_body := hello_stream |}
             eq_refl eq_refl Hkey eq_refl eq_refl eq_refl Hne eq_refl).
  vm_compute. reflexivity.
Defined.

End EndToEndFacts.
